(** * Entities of the federation library and their Diaspora serialisation

    A shallow embedding of [federation/entities/base.py] and
    [federation/entities/diaspora/entities.py].

    Python objects are modelled as a class together with an instance
    dictionary; attribute lookup walks the method resolution order of the
    class, exactly as the interpreter does.  Strings are sequences of
    8-bit characters, one character per code point: the texts covered
    are those whose code points lie below 256. *)

From Stdlib Require Import String Ascii List ZArith Bool Lia.
From stdpp Require Import base option list gmap strings.

Local Open Scope string_scope.
Local Open Scope list_scope.

(** ** Values *)

(** [datetime.datetime], to the second. *)
Record datetime := mkDatetime {
  year : nat; month : nat; day : nat;
  hour : nat; minute : nat; second : nat
}.

(** The data values an attribute can hold.  Lists hold strings and
    dictionaries map strings to strings: this covers every default that
    the classes declare. *)
Inductive value :=
| VNone
| VBool (b : bool)
| VInt (z : Z)
| VStr (s : string)
| VList (l : list string)
| VDict (d : list (string * string))
| VDateTime (dt : datetime).

#[global] Instance datetime_eq_dec : EqDecision datetime.
Proof. solve_decision. Defined.
#[global] Instance value_eq_dec : EqDecision value.
Proof. solve_decision. Defined.

(** Exceptions.  [InvalidField] and [MissingRequired] are both Python
    [ValueError]s; they are kept apart by the place that raises them:
    a [validate_<field>] method, or the completeness check that closes
    [BaseEntity.validate] (whose message prints the whole required set).
    [ValueError] stands for the remaining ones.
    [OutsideModel] marks what the embedding does not cover. *)
Inductive exn :=
| InvalidField (field msg : string)
| MissingRequired (required : list string)
| ValueError (msg : string)
| AttributeError (msg : string)
| TypeError (msg : string)
| KeyError (key : string)
| OutsideModel.

Inductive result (A : Type) :=
| Ok (a : A)
| Error (e : exn).
Arguments Ok {A} a.
Arguments Error {A} e.

#[global] Instance exn_eq_dec : EqDecision exn.
Proof. solve_decision. Defined.
#[global] Instance result_eq_dec {A} `{EqDecision A} : EqDecision (result A).
Proof. solve_decision. Defined.

#[global] Instance result_ret : MRet result := fun _ a => Ok a.
#[global] Instance result_bind : MBind result := fun _ _ f m =>
  match m with
  | Ok a => f a
  | Error e => Error e
  end.

Definition raise {A} (e : exn) : result A := Error e.

(** ** Python primitives on values *)

(** [bool(v)] *)
Definition truthy (v : value) : bool :=
  match v with
  | VNone => false
  | VBool b => b
  | VInt z => negb (Z.eqb z 0)
  | VStr s => negb (String.eqb s "")
  | VList l => match l with [] => false | _ => true end
  | VDict d => match d with [] => false | _ => true end
  | VDateTime _ => true
  end.

(** [len(v)] *)
Definition py_len (v : value) : result nat :=
  match v with
  | VStr s => Ok (String.length s)
  | VList l => Ok (List.length l)
  | VDict d => Ok (List.length d)
  | _ => raise (TypeError "object has no len()")
  end.

(** [iter(v)], for values that hold strings. *)
Definition py_iter (v : value) : result (list string) :=
  match v with
  | VStr s => Ok (map (fun c => String c "") (list_ascii_of_string s))
  | VList l => Ok l
  | VDict d => Ok (map fst d)
  | _ => raise (TypeError "object is not iterable")
  end.

Definition mem_string (s : string) (l : list string) : bool :=
  existsb (String.eqb s) l.

Fixpoint is_substring (needle hay : string) : bool :=
  String.prefix needle hay ||
  match hay with
  | EmptyString => false
  | String _ rest => is_substring needle rest
  end.

(** [x in container] *)
Definition py_in (x container : value) : result bool :=
  match container with
  | VList l => Ok (match x with VStr s => mem_string s l | _ => false end)
  | VDict d =>
      match x with
      | VStr s => Ok (mem_string s (map fst d))
      | VList _ | VDict _ => raise (TypeError "unhashable type")
      | _ => Ok false
      end
  | VStr hay =>
      match x with
      | VStr needle => Ok (is_substring needle hay)
      | _ => raise (TypeError "'in <string>' requires string as left operand")
      end
  | _ => raise (TypeError "argument is not iterable")
  end.

(** [sep.join(l)] *)
Fixpoint join (sep : string) (l : list string) : string :=
  match l with
  | [] => ""
  | [x] => x
  | x :: rest => x ++ sep ++ join sep rest
  end.

(** [s.startswith(p)] *)
Definition startswith (p s : string) : bool := String.prefix p s.

(** [str.isspace] on one character: of the code points below 256 the
    white space of Python is 9 to 13, 28 to 32, U+0085 (133) and
    U+00A0 (160). *)
Definition is_space (c : ascii) : bool :=
  let n := nat_of_ascii c in
  (Nat.leb 9 n && Nat.leb n 13) || (Nat.leb 28 n && Nat.leb n 32)
  || Nat.eqb n 133 || Nat.eqb n 160.

(** [s.split()]: the maximal runs of characters that are not white
    space.  [cur] holds the run being read, reversed. *)
Fixpoint split_go (cur : list ascii) (s : string) : list string :=
  let flush rest :=
    match cur with
    | [] => rest
    | _ => string_of_list_ascii (rev cur) :: rest
    end in
  match s with
  | EmptyString => flush []
  | String c s' =>
      if is_space c then flush (split_go [] s') else split_go (c :: cur) s'
  end.

Definition split (s : string) : list string := split_go [] s.

(** [s.lstrip(c)], [s.rstrip(c)] and [s.strip(c)] for one character. *)
Fixpoint lstrip (c : ascii) (s : string) : string :=
  match s with
  | String a s' => if Ascii.eqb a c then lstrip c s' else s
  | EmptyString => EmptyString
  end.

Fixpoint rstrip (c : ascii) (s : string) : string :=
  match s with
  | EmptyString => EmptyString
  | String a s' =>
      match rstrip c s' with
      | EmptyString => if Ascii.eqb a c then EmptyString else String a EmptyString
      | r => String a r
      end
  end.

Definition strip (c : ascii) (s : string) : string := rstrip c (lstrip c s).

(** ** Sorting attribute names, as [dir] does *)

Fixpoint insert_sorted (x : string) (l : list string) : list string :=
  match l with
  | [] => [x]
  | y :: l' =>
      if String.eqb x y then l
      else if String.ltb x y then x :: l
      else y :: insert_sorted x l'
  end.

(** [sorted(set(l))] *)
Definition sort_dedup (l : list string) : list string :=
  fold_right insert_sorted [] l.

(** ** The class hierarchy *)

Inductive pyclass :=
| PyObject
| BaseEntity | GUIDMixin | HandleMixin | PublicMixin | CreatedAtMixin
| RawContentMixin | Post | Image | ParticipationMixin | Comment | Reaction
| Relationship | Profile
| DiasporaEntityMixin | DiasporaComment | DiasporaPost | DiasporaLike
| DiasporaRequest | DiasporaProfile.

#[global] Instance pyclass_eq_dec : EqDecision pyclass.
Proof. solve_decision. Defined.

(** The base classes, in the order of each [class] statement. *)
Definition bases (c : pyclass) : list pyclass :=
  match c with
  | PyObject => []
  | BaseEntity => [PyObject]
  | GUIDMixin | HandleMixin | PublicMixin | CreatedAtMixin
  | RawContentMixin | ParticipationMixin => [BaseEntity]
  | Post => [RawContentMixin; GUIDMixin; HandleMixin; PublicMixin; CreatedAtMixin; BaseEntity]
  | Image => [GUIDMixin; HandleMixin; PublicMixin; CreatedAtMixin; BaseEntity]
  | Comment => [RawContentMixin; GUIDMixin; ParticipationMixin; CreatedAtMixin; HandleMixin]
  | Reaction => [GUIDMixin; ParticipationMixin; CreatedAtMixin; HandleMixin]
  | Relationship => [CreatedAtMixin; HandleMixin]
  | Profile => [CreatedAtMixin; HandleMixin; RawContentMixin; PublicMixin; GUIDMixin]
  | DiasporaEntityMixin => [PyObject]
  | DiasporaComment => [DiasporaEntityMixin; Comment]
  | DiasporaPost => [DiasporaEntityMixin; Post]
  | DiasporaLike => [DiasporaEntityMixin; Reaction]
  | DiasporaRequest => [DiasporaEntityMixin; Relationship]
  | DiasporaProfile => [DiasporaEntityMixin; Profile]
  end.

(** *** Method resolution order (C3 linearisation) *)

Definition in_tail (c : pyclass) (s : list pyclass) : bool :=
  match s with
  | [] => false
  | _ :: t => bool_decide (c ∈ t)
  end.

(** The first head of a sequence that is in the tail of none. *)
Fixpoint c3_head (candidates seqs : list (list pyclass)) : option pyclass :=
  match candidates with
  | [] => None
  | [] :: rest => c3_head rest seqs
  | (h :: _) :: rest =>
      if existsb (in_tail h) seqs then c3_head rest seqs else Some h
  end.

Definition c3_drop (h : pyclass) (s : list pyclass) : list pyclass :=
  match s with
  | x :: t => if bool_decide (x = h) then t else s
  | [] => []
  end.

Fixpoint c3_merge (fuel : nat) (seqs : list (list pyclass)) : option (list pyclass) :=
  match fuel with
  | O => None
  | S fuel' =>
      let seqs := filter (fun s => bool_decide (s ≠ [])) seqs in
      match seqs with
      | [] => Some []
      | _ =>
          h ← c3_head seqs seqs;
          rest ← c3_merge fuel' (map (c3_drop h) seqs);
          Some (h :: rest)
      end
  end.

Fixpoint linearize (depth : nat) (c : pyclass) : option (list pyclass) :=
  match depth with
  | O => None
  | S d =>
      ls ← mapM (linearize d) (bases c);
      rest ← c3_merge 64 (ls ++ [bases c]);
      Some (c :: rest)
  end.

Definition mro (c : pyclass) : list pyclass :=
  default [] (linearize 8 c).

(** ** Class bodies *)

(** What the program takes from its surroundings: the reading of the
    clock when the module was loaded (the class body of
    [CreatedAtMixin] calls [datetime.datetime.now()] once, at that
    moment), and the [Email] validator of the external
    [dirty_validators] package, as a predicate on strings. *)
Class Environment := {
  loaded_at : datetime;
  email_is_valid : string → bool
}.

Inductive rule :=
| RGuid | RHandle | RParticipation | RReaction | RTargetHandle
| RRelationship | REmail.

#[global] Instance rule_eq_dec : EqDecision rule.
Proof. solve_decision. Defined.

(** A member of a class body: a data attribute with its value, one of
    the [validate_<field>] methods, another method, or the read-only
    [tags] property. *)
Inductive member :=
| Data (v : value)
| Validator (r : rule)
| Routine
| TagsProperty.

Section Entities.
Context `{Environment}.

(** The members each class body binds (names that start with two
    underscores are not listed, see [reserved]). *)
Definition own_members (c : pyclass) : list (string * member) :=
  match c with
  | PyObject => []
  | BaseEntity =>
      [("_required", Data (VList [])); ("validate", Routine)]
  | GUIDMixin =>
      [("guid", Data (VStr "")); ("validate_guid", Validator RGuid)]
  | HandleMixin =>
      [("handle", Data (VStr "")); ("validate_handle", Validator RHandle)]
  | PublicMixin =>
      [("public", Data (VBool false))]
  | CreatedAtMixin =>
      [("created_at", Data (VDateTime loaded_at))]
  | RawContentMixin =>
      [("raw_content", Data (VStr "")); ("tags", TagsProperty)]
  | Post =>
      [("provider_display_name", Data (VStr "")); ("location", Data (VStr ""));
       ("photos", Data (VList []))]
  | Image =>
      [("remote_path", Data (VStr "")); ("remote_name", Data (VStr ""));
       ("text", Data (VStr "")); ("linked_type", Data (VStr ""));
       ("linked_guid", Data (VStr "")); ("height", Data (VInt 0));
       ("width", Data (VInt 0))]
  | ParticipationMixin =>
      [("target_guid", Data (VStr "")); ("participation", Data (VStr ""));
       ("_participation_valid_values", Data (VList ["reaction"; "subscription"; "comment"]));
       ("validate_participation", Validator RParticipation)]
  | Comment =>
      [("participation", Data (VStr "comment"))]
  | Reaction =>
      [("participation", Data (VStr "reaction")); ("reaction", Data (VStr ""));
       ("_reaction_valid_values", Data (VList ["like"]));
       ("validate_reaction", Validator RReaction)]
  | Relationship =>
      [("target_handle", Data (VStr "")); ("relationship", Data (VStr ""));
       ("_relationship_valid_values",
        Data (VList ["sharing"; "following"; "ignoring"; "blocking"]));
       ("validate_target_handle", Validator RTargetHandle);
       ("validate_relationship", Validator RRelationship)]
  | Profile =>
      [("name", Data (VStr "")); ("email", Data (VStr ""));
       ("image_urls", Data (VDict [("small", ""); ("medium", ""); ("large", "")]));
       ("gender", Data (VStr "")); ("location", Data (VStr ""));
       ("nsfw", Data (VBool false)); ("tag_list", Data (VList []));
       ("public_key", Data (VStr "")); ("validate_email", Validator REmail)]
  | DiasporaEntityMixin =>
      [("from_base", Routine)]
  | DiasporaComment =>
      [("author_signature", Data (VStr "")); ("to_xml", Routine)]
  | DiasporaPost =>
      [("to_xml", Routine)]
  | DiasporaLike =>
      [("author_signature", Data (VStr "")); ("reaction", Data (VStr "like"));
       ("to_xml", Routine)]
  | DiasporaRequest =>
      [("relationship", Data (VStr "sharing")); ("to_xml", Routine)]
  | DiasporaProfile =>
      [("to_xml", Routine)]
  end.

Fixpoint assoc {A} (name : string) (l : list (string * A)) : option A :=
  match l with
  | [] => None
  | (k, a) :: l' => if String.eqb name k then Some a else assoc name l'
  end.

Fixpoint lookup_along (chain : list pyclass) (name : string) : option member :=
  match chain with
  | [] => None
  | c :: rest =>
      match assoc name (own_members c) with
      | Some m => Some m
      | None => lookup_along rest name
      end
  end.

(** The class attribute a name resolves to, along the MRO. *)
Definition class_lookup (c : pyclass) (name : string) : option member :=
  lookup_along (mro c) name.

Definition class_names (c : pyclass) : list string :=
  flat_map (fun b => map fst (own_members b)) (mro c).

(** ** Instances and attribute access *)

(** An object: its class and its [__dict__]. *)
Record instance := mkInstance {
  class_of : pyclass;
  dict_of : gmap string value
}.

#[global] Instance instance_eq_dec : EqDecision instance.
Proof. solve_decision. Defined.

(** What an attribute access yields: a data value, a bound method, or
    the set computed by the [tags] property. *)
Inductive obj :=
| OData (v : value)
| OValidator (r : rule)
| ORoutine
| OSet (s : gset string).

#[global] Instance obj_eq_dec : EqDecision obj.
Proof. solve_decision. Defined.

Definition truthy_obj (o : obj) : bool :=
  match o with
  | OData v => truthy v
  | OSet s => negb (bool_decide (s = ∅))
  | OValidator _ | ORoutine => true
  end.

(** Names that start with two underscores belong to the interpreter
    ([__class__], [__dict__], ...); reading or binding them through
    [hasattr] and [setattr] is not modelled. *)
Definition reserved (name : string) : bool := startswith "__" name.

(** Lookup of an attribute that is not a property: the instance
    dictionary first, then the class along its MRO. *)
Definition plain_getattr (self : instance) (name : string) : result obj :=
  match dict_of self !! name with
  | Some v => Ok (OData v)
  | None =>
      match class_lookup (class_of self) name with
      | Some (Data v) => Ok (OData v)
      | Some (Validator r) => Ok (OValidator r)
      | Some Routine => Ok ORoutine
      | Some TagsProperty | None =>
          raise (AttributeError ("object has no attribute " ++ name))
      end
  end.

(** [RawContentMixin.tags].  [raw_content] is no property, so its
    access is a plain lookup. *)
Definition tags (self : instance) : result (gset string) :=
  raw_content ← plain_getattr self "raw_content";
  if negb (truthy_obj raw_content) then Ok ∅
  else
    match raw_content with
    | OData (VStr s) =>
        Ok (list_to_set
              (map (strip "#") (List.filter (startswith "#") (split s))))
    | _ => raise (AttributeError "object has no attribute split")
    end.

(** [getattr(self, name)]: a property of the class is a data descriptor
    and is evaluated before the instance dictionary is consulted. *)
Definition getattr (self : instance) (name : string) : result obj :=
  match class_lookup (class_of self) name with
  | Some TagsProperty => s ← tags self; Ok (OSet s)
  | _ => plain_getattr self name
  end.

(** [getattr(self, name, None)] *)
Definition getattr_or_none (self : instance) (name : string) : result (option obj) :=
  match getattr self name with
  | Ok o => Ok (Some o)
  | Error (AttributeError _) => Ok None
  | Error e => Error e
  end.

(** [hasattr(self, name)]: only [AttributeError] means absence. *)
Definition hasattr (self : instance) (name : string) : result bool :=
  if reserved name then raise OutsideModel
  else
    match getattr self name with
    | Ok _ => Ok true
    | Error (AttributeError _) => Ok false
    | Error e => Error e
    end.

(** [setattr(self, name, v)]: the [tags] property has no setter. *)
Definition setattr (self : instance) (name : string) (v : value) : result instance :=
  if reserved name then raise OutsideModel
  else
    match class_lookup (class_of self) name with
    | Some TagsProperty => raise (AttributeError "can't set attribute")
    | _ => Ok (mkInstance (class_of self) (<[name := v]> (dict_of self)))
    end.

(** ** Construction *)

(** The loop of [BaseEntity.__init__] over [kwargs.items()]. *)
Fixpoint set_kwargs (kwargs : list (string * value)) (self : instance) : result instance :=
  match kwargs with
  | [] => Ok self
  | (key, v) :: rest =>
      b ← hasattr self key;
      self' ← (if b : bool then setattr self key v else Ok self);
      set_kwargs rest self'
  end.

(** [BaseEntity.__init__] *)
Definition BaseEntity_init (kwargs : list (string * value)) (self : instance) : result instance :=
  self ← setattr self "_required" (VList []);
  set_kwargs kwargs self.

(** [self._required += names].  The list is the one held by the
    instance: [BaseEntity.__init__] has bound it before any mixin
    reaches this statement.  Extending the list of the class itself,
    shared by all instances, is not modelled. *)
Definition iadd_required (names : list string) (self : instance) : result instance :=
  match dict_of self !! "_required" with
  | Some (VList l) => setattr self "_required" (VList (l ++ names))
  | Some _ => raise (TypeError "unsupported operand type(s) for +=")
  | None => raise OutsideModel
  end.

Fixpoint remove_first (x : string) (l : list string) : list string :=
  match l with
  | [] => []
  | y :: l' => if String.eqb x y then l' else y :: remove_first x l'
  end.

(** [self._required.remove(name)] *)
Definition remove_required (name : string) (self : instance) : result instance :=
  match dict_of self !! "_required" with
  | Some (VList l) =>
      if mem_string name l
      then Ok (mkInstance (class_of self)
                 (<["_required" := VList (remove_first name l)]> (dict_of self)))
      else raise (ValueError "list.remove(x): x not in list")
  | Some _ => raise (AttributeError "object has no attribute remove")
  | None => raise OutsideModel
  end.

(** What a mixin's [__init__] does to [self._required] once
    [super().__init__] has returned. *)
Inductive init_action :=
| Extend (names : list string)
| Discard (name : string).

Definition run_action (a : init_action) : instance → result instance :=
  match a with
  | Extend names => iadd_required names
  | Discard name => remove_required name
  end.

(** The [__init__] a class body defines, if any. *)
Inductive init_body :=
| Inherited
| ObjectInit
| BaseInit
| SuperThen (after : init_action).

Definition own_init (c : pyclass) : init_body :=
  match c with
  | PyObject => ObjectInit
  | BaseEntity => BaseInit
  | GUIDMixin => SuperThen (Extend ["guid"])
  | HandleMixin => SuperThen (Extend ["handle"])
  | CreatedAtMixin => SuperThen (Extend ["created_at"])
  | RawContentMixin => SuperThen (Extend ["raw_content"])
  | Image => SuperThen (Extend ["remote_path"; "remote_name"])
  | ParticipationMixin => SuperThen (Extend ["target_guid"; "participation"])
  | Reaction => SuperThen (Extend ["reaction"])
  | Relationship => SuperThen (Extend ["relationship"; "target_handle"])
  | Profile => SuperThen (Discard "guid")
  | PublicMixin | Post | Comment
  | DiasporaEntityMixin | DiasporaComment | DiasporaPost | DiasporaLike
  | DiasporaRequest | DiasporaProfile => Inherited
  end.

(** [__init__] resolved along the rest of the MRO: a class without one
    passes to the next, the call of [super().__init__] continues
    with the classes that follow. *)
Fixpoint run_init (chain : list pyclass) (kwargs : list (string * value))
    (self : instance) : result instance :=
  match chain with
  | [] => raise OutsideModel
  | c :: rest =>
      match own_init c with
      | Inherited => run_init rest kwargs self
      | ObjectInit =>
          match kwargs with
          | [] => Ok self
          | _ => raise (TypeError "object.__init__() takes exactly one argument")
          end
      | BaseInit => BaseEntity_init kwargs self
      | SuperThen after => self' ← run_init rest kwargs self; run_action after self'
      end
  end.

(** Instantiation of [cls] with keyword arguments [kwargs]. *)
Definition construct (cls : pyclass) (kwargs : list (string * value)) : result instance :=
  run_init (mro cls) kwargs (mkInstance cls ∅).

(** ** Validation *)

Definition len_obj (o : obj) : result nat :=
  match o with
  | OData v => py_len v
  | OSet s => Ok (size s)
  | OValidator _ | ORoutine => raise (TypeError "object has no len()")
  end.

(** [Email().is_valid(x)].  The validator is given as a predicate on
    strings; what it does with other objects is not modelled. *)
Definition Email_is_valid (o : obj) : result bool :=
  match o with
  | OData (VStr s) => Ok (email_is_valid s)
  | _ => raise OutsideModel
  end.

(** [x in container], for looked-up objects. *)
Definition in_obj (x container : obj) : result bool :=
  match container with
  | OData c =>
      match x with
      | OData v => py_in v c
      | _ => py_in VNone c
      end
  | OSet s =>
      match x with
      | OData (VStr v) => Ok (bool_decide (v ∈ s))
      | OData (VList _) | OData (VDict _) | OSet _ => raise (TypeError "unhashable type")
      | _ => Ok false
      end
  | OValidator _ | ORoutine => raise (TypeError "argument is not iterable")
  end.

Definition iter_obj (o : obj) : result (list string) :=
  match o with
  | OData v => py_iter v
  | OSet s => Ok (elements s)
  | OValidator _ | ORoutine => raise (TypeError "object is not iterable")
  end.

(** [GUIDMixin.validate_guid] *)
Definition validate_guid (self : instance) : result unit :=
  guid ← getattr self "guid";
  if truthy_obj guid then
    n ← len_obj guid;
    if Nat.ltb n 16
    then raise (InvalidField "guid" "GUID must be at least 16 characters")
    else Ok tt
  else Ok tt.

(** [HandleMixin.validate_handle] *)
Definition validate_handle (self : instance) : result unit :=
  handle ← getattr self "handle";
  ok ← Email_is_valid handle;
  if negb ok then raise (InvalidField "handle" "Handle is not valid") else Ok tt.

(** The shape shared by the three enumerated-kind rules:
    [if self.<field> not in self.<domain>: raise ValueError(...)]. *)
Definition validate_enum (field domain : string) (self : instance) : result unit :=
  x ← getattr self field;
  valid ← getattr self domain;
  found ← in_obj x valid;
  if negb found then
    names ← iter_obj valid;
    raise (InvalidField field (field ++ " should be one of: " ++ join ", " names))
  else Ok tt.

(** [ParticipationMixin.validate_participation] *)
Definition validate_participation : instance → result unit :=
  validate_enum "participation" "_participation_valid_values".

(** [Reaction.validate_reaction] *)
Definition validate_reaction : instance → result unit :=
  validate_enum "reaction" "_reaction_valid_values".

(** [Relationship.validate_relationship] *)
Definition validate_relationship : instance → result unit :=
  validate_enum "relationship" "_relationship_valid_values".

(** [Relationship.validate_target_handle] *)
Definition validate_target_handle (self : instance) : result unit :=
  target_handle ← getattr self "target_handle";
  ok ← Email_is_valid target_handle;
  if negb ok then raise (InvalidField "target_handle" "Target handle is not valid")
  else Ok tt.

(** [Profile.validate_email] *)
Definition validate_email (self : instance) : result unit :=
  email ← getattr self "email";
  if truthy_obj email then
    ok ← Email_is_valid email;
    if negb ok then raise (InvalidField "email" "Email is not valid") else Ok tt
  else Ok tt.

Definition run_rule (r : rule) : instance → result unit :=
  match r with
  | RGuid => validate_guid
  | RHandle => validate_handle
  | RParticipation => validate_participation
  | RReaction => validate_reaction
  | RTargetHandle => validate_target_handle
  | RRelationship => validate_relationship
  | REmail => validate_email
  end.

(** Calling what [getattr(self, "validate_<attr>")] returned, with no
    argument.  Only the [validate_<field>] methods carry such a name;
    data is not callable. *)
Definition call (o : obj) (self : instance) : result unit :=
  match o with
  | OValidator r => run_rule r self
  | ORoutine => raise OutsideModel
  | OData _ | OSet _ => raise (TypeError "object is not callable")
  end.

(** [dir(self)], without the reserved names every object inherits. *)
Definition dir (self : instance) : list string :=
  sort_dedup (map fst (map_to_list (dict_of self)) ++ class_names (class_of self)).

Definition is_public (name : string) : bool := negb (startswith "_" name).

(** The loop of [BaseEntity.validate]; the test
    [attr_type != "method"] compares a type with a string and so always
    holds.  Returns [attributes]. *)
Fixpoint visit (self : instance) (names : list string) : result (list string) :=
  match names with
  | [] => Ok []
  | attr :: rest =>
      if is_public attr then
        _ ← getattr self attr;
        validator ← getattr_or_none self ("validate_" ++ attr);
        _ ← match validator with
            | Some o => if truthy_obj o then call o self else Ok tt
            | None => Ok tt
            end;
        attributes ← visit self rest;
        Ok (attr :: attributes)
      else visit self rest
  end.

(** [BaseEntity.validate] *)
Definition validate (self : instance) : result unit :=
  attributes ← visit self (dir self);
  required ← getattr self "_required";
  required ← iter_obj required;
  if forallb (fun r => mem_string r attributes) required
  then Ok tt
  else raise (MissingRequired required).

(** ** Serialisation to the Diaspora wire format *)

(** An [lxml] element: tag, text and children. *)
#[warnings="-register-all"]
Inductive Element :=
| mkElement (tag : string) (text : string) (children : list Element).

Definition tag_of (e : Element) : string :=
  match e with mkElement t _ _ => t end.
Definition text_of (e : Element) : string :=
  match e with mkElement _ t _ => t end.
Definition children_of (e : Element) : list Element :=
  match e with mkElement _ _ c => c end.

(** The text of a leaf is a string; an attribute that holds anything
    else is not given a rendering here. *)
Definition leaf_text (o : obj) : result string :=
  match o with
  | OData (VStr s) => Ok s
  | _ => raise OutsideModel
  end.

Fixpoint add_children (node : Element) (items : list (string * obj)) : result Element :=
  match items with
  | [] => Ok node
  | (k, v) :: rest =>
      text ← leaf_text v;
      add_children
        (mkElement (tag_of node) (text_of node)
           (children_of node ++ [mkElement k text []])) rest
  end.

(** Modelled from the spec: [struct_to_xml] of
    [federation.entities.diaspora.utils] is not among the sources.  The
    serializer emits a fixed, ordered list of named elements: every
    entry of every dictionary of [struct], in order, becomes a child of
    [node] named by the key and holding the value as text. *)
Fixpoint struct_to_xml (node : Element) (struct : list (list (string * obj))) : result Element :=
  match struct with
  | [] => Ok node
  | d :: rest => node' ← add_children node d; struct_to_xml node' rest
  end.

Definition digit (n : nat) : ascii := ascii_of_nat (48 + n mod 10).

Fixpoint zero_padded (width n : nat) : string :=
  match width with
  | O => ""
  | S w => zero_padded w (n / 10) ++ String (digit n) ""
  end.

(** Modelled from the spec: [format_dt] of
    [federation.entities.diaspora.utils] is not among the sources.
    Timestamps render via one fixed textual pattern, the one of the
    payload fixtures: [2011-07-20 01:36:07 UTC].  The date-time is read
    as UTC; other objects are given no rendering. *)
Definition format_datetime (dt : datetime) : string :=
  (zero_padded 4 (year dt) ++ "-" ++ zero_padded 2 (month dt) ++ "-" ++
   zero_padded 2 (day dt) ++ " " ++ zero_padded 2 (hour dt) ++ ":" ++
   zero_padded 2 (minute dt) ++ ":" ++ zero_padded 2 (second dt) ++ " UTC")%string.

Definition format_dt (o : obj) : result string :=
  match o with
  | OData (VDateTime dt) => Ok (format_datetime dt)
  | _ => raise OutsideModel
  end.

Definition str (s : string) : obj := OData (VStr s).

(** ['true' if x else 'false'] *)
Definition true_false (o : obj) : obj :=
  str (if truthy_obj o then "true" else "false").

(** [o[key]] *)
Definition subscript (o : obj) (key : string) : result obj :=
  match o with
  | OData (VDict d) =>
      match assoc key d with
      | Some s => Ok (str s)
      | None => raise (KeyError key)
      end
  | OData (VStr _) | OData (VList _) =>
      raise (TypeError "indices must be integers")
  | _ => raise (TypeError "object is not subscriptable")
  end.

(** [DiasporaComment.to_xml] *)
Definition DiasporaComment_to_xml (self : instance) : result Element :=
  guid ← getattr self "guid";
  target_guid ← getattr self "target_guid";
  author_signature ← getattr self "author_signature";
  raw_content ← getattr self "raw_content";
  handle ← getattr self "handle";
  struct_to_xml (mkElement "comment" "" [])
    [[("guid", guid)];
     [("parent_guid", target_guid)];
     [("author_signature", author_signature)];
     [("text", raw_content)];
     [("diaspora_handle", handle)]].

(** [DiasporaPost.to_xml] *)
Definition DiasporaPost_to_xml (self : instance) : result Element :=
  raw_content ← getattr self "raw_content";
  guid ← getattr self "guid";
  handle ← getattr self "handle";
  public ← getattr self "public";
  created_at ← getattr self "created_at";
  created_at ← format_dt created_at;
  struct_to_xml (mkElement "status_message" "" [])
    [[("raw_message", raw_content)];
     [("guid", guid)];
     [("diaspora_handle", handle)];
     [("public", true_false public)];
     [("created_at", str created_at)]].

(** [DiasporaLike.to_xml] *)
Definition DiasporaLike_to_xml (self : instance) : result Element :=
  guid ← getattr self "guid";
  target_guid ← getattr self "target_guid";
  author_signature ← getattr self "author_signature";
  handle ← getattr self "handle";
  struct_to_xml (mkElement "like" "" [])
    [[("target_type", str "Post")];
     [("guid", guid)];
     [("parent_guid", target_guid)];
     [("author_signature", author_signature)];
     [("positive", str "true")];
     [("diaspora_handle", handle)]].

(** [DiasporaRequest.to_xml] *)
Definition DiasporaRequest_to_xml (self : instance) : result Element :=
  handle ← getattr self "handle";
  target_handle ← getattr self "target_handle";
  struct_to_xml (mkElement "request" "" [])
    [[("sender_handle", handle)];
     [("recipient_handle", target_handle)]].

(** [DiasporaProfile.to_xml] *)
Definition DiasporaProfile_to_xml (self : instance) : result Element :=
  handle ← getattr self "handle";
  name ← getattr self "name";
  image_urls ← getattr self "image_urls";
  large ← subscript image_urls "large";
  small ← subscript image_urls "small";
  medium ← subscript image_urls "medium";
  gender ← getattr self "gender";
  raw_content ← getattr self "raw_content";
  location ← getattr self "location";
  public ← getattr self "public";
  nsfw ← getattr self "nsfw";
  tag_list ← getattr self "tag_list";
  tag_list ← iter_obj tag_list;
  struct_to_xml (mkElement "profile" "" [])
    [[("diaspora_handle", handle)];
     [("first_name", name)];
     [("last_name", str "")];
     [("image_url", large)];
     [("image_url_small", small)];
     [("image_url_medium", medium)];
     [("gender", gender)];
     [("bio", raw_content)];
     [("location", location)];
     [("searchable", true_false public)];
     [("nsfw", true_false nsfw)];
     [("tag_string", str (join " " (map (fun tag => ("#" ++ tag)%string) tag_list)))]].

(** The protocol classes, each with a [to_xml] of its own. *)
Definition protocol_classes : list pyclass :=
  [DiasporaComment; DiasporaPost; DiasporaLike; DiasporaRequest; DiasporaProfile].

(** [self.to_xml()], resolved on the class of [self]. *)
Definition to_xml (self : instance) : result Element :=
  match class_of self with
  | DiasporaComment => DiasporaComment_to_xml self
  | DiasporaPost => DiasporaPost_to_xml self
  | DiasporaLike => DiasporaLike_to_xml self
  | DiasporaRequest => DiasporaRequest_to_xml self
  | DiasporaProfile => DiasporaProfile_to_xml self
  | _ => raise (AttributeError "object has no attribute to_xml")
  end.

(** ** Adaptation of a generic entity *)

Definition is_data (m : option member) : bool :=
  match m with Some (Data _) => true | _ => false end.

(** The fields a class declares: its public data attributes. *)
Definition fields (c : pyclass) : list string :=
  List.filter (fun n => is_public n && is_data (class_lookup c n))
    (sort_dedup (class_names c)).

Fixpoint read_fields (entity : instance) (names : list string) : result (list (string * value)) :=
  match names with
  | [] => Ok []
  | n :: rest =>
      o ← getattr entity n;
      attrs ← read_fields entity rest;
      Ok (match o with OData v => (n, v) :: attrs | _ => attrs end)
  end.

(** Modelled from the spec: [get_base_attributes] of
    [federation.entities.diaspora.utils] is not among the sources.  The
    adapter copies exactly the fields declared by the entity's own
    schema, each with the value the entity holds for it. *)
Definition get_base_attributes (entity : instance) : result (list (string * value)) :=
  read_fields entity (fields (class_of entity)).

(** [DiasporaEntityMixin.from_base], a class method. *)
Definition from_base (cls : pyclass) (entity : instance) : result instance :=
  attributes ← get_base_attributes entity;
  construct cls attributes.

(** The six entity kinds of the catalogue, and all classes that can be
    instantiated as one of them. *)
Definition generic_kinds : list pyclass :=
  [Post; Image; Comment; Reaction; Relationship; Profile].

Definition entity_kinds : list pyclass := generic_kinds ++ protocol_classes.

(** ** Notions used in the statements *)

(** [set(self._required)] *)
Definition required_set (self : instance) : result (gset string) :=
  required ← getattr self "_required";
  names ← iter_obj required;
  Ok (list_to_set names).

(** What the [__init__] of one unit adds to [_required], and what it
    takes away. *)
Definition unit_requirement (c : pyclass) : list string :=
  match own_init c with
  | SuperThen (Extend names) => names
  | _ => []
  end.

Definition waived (c : pyclass) : list string :=
  match own_init c with
  | SuperThen (Discard name) => [name]
  | _ => []
  end.

Definition union_of_units (k : pyclass) : gset string :=
  list_to_set (flat_map unit_requirement (mro k)).

Definition waiver (k : pyclass) : gset string :=
  list_to_set (flat_map waived (mro k)).

(** In the spec's words: the required-field contribution of each
    capability unit ([guid] from Identity, [handle] from Authorship,
    [created_at] from Timestamp, [raw_content] from TextBody,
    [target_guid] and [participation] from ParticipationRef,
    [relationship] and [target_handle] from RelationshipRef) and the
    kind-specific additions of Image and Reaction.  Visibility and the
    other classes contribute nothing. *)
Definition declared_requirement (c : pyclass) : list string :=
  match c with
  | GUIDMixin => ["guid"]
  | HandleMixin => ["handle"]
  | CreatedAtMixin => ["created_at"]
  | RawContentMixin => ["raw_content"]
  | ParticipationMixin => ["target_guid"; "participation"]
  | Relationship => ["relationship"; "target_handle"]
  | Image => ["remote_path"; "remote_name"]
  | Reaction => ["reaction"]
  | _ => []
  end.

(** In the spec's words: the required fields of each entity kind, by
    the units the catalogue composes it from; Profile is without
    [guid].  A protocol class requires what its generic kind does. *)
Definition kind_requirement (k : pyclass) : list string :=
  match k with
  | Post | DiasporaPost => ["raw_content"; "guid"; "handle"; "created_at"]
  | Image => ["guid"; "handle"; "created_at"; "remote_path"; "remote_name"]
  | Comment | DiasporaComment =>
      ["raw_content"; "guid"; "target_guid"; "participation"; "created_at"; "handle"]
  | Reaction | DiasporaLike =>
      ["guid"; "target_guid"; "participation"; "created_at"; "handle"; "reaction"]
  | Relationship | DiasporaRequest =>
      ["created_at"; "handle"; "relationship"; "target_handle"]
  | Profile | DiasporaProfile => ["created_at"; "handle"; "raw_content"]
  | _ => []
  end.

(** The list [_required] ends up as, read off the [__init__] chain. *)
Fixpoint required_along (chain : list pyclass) : result (list string) :=
  match chain with
  | [] => Ok []
  | c :: rest =>
      match own_init c with
      | Inherited => required_along rest
      | ObjectInit | BaseInit => Ok []
      | SuperThen (Extend names) => l ← required_along rest; Ok (l ++ names)
      | SuperThen (Discard name) =>
          l ← required_along rest;
          if mem_string name l then Ok (remove_first name l)
          else raise (ValueError "list.remove(x): x not in list")
      end
  end.

Fixpoint reaches_base (chain : list pyclass) : bool :=
  match chain with
  | [] => false
  | c :: rest =>
      match own_init c with
      | BaseInit => true
      | ObjectInit => false
      | _ => reaches_base rest
      end
  end.

(** Whether [key] names something an instance of [k] with dictionary
    [d] has, and the dictionary the loop of [BaseEntity.__init__]
    builds when every test and every binding goes through. *)
Definition has_name (k : pyclass) (d : gmap string value) (key : string) : bool :=
  match d !! key with
  | Some _ => true
  | None => match class_lookup k key with Some _ => true | None => false end
  end.

Fixpoint bind_kwargs (k : pyclass) (kwargs : list (string * value))
    (d : gmap string value) : gmap string value :=
  match kwargs with
  | [] => d
  | (key, v) :: rest =>
      bind_kwargs k rest (if has_name k d key then <[key := v]> d else d)
  end.

(** A keyword a caller may pass without tripping over the [tags]
    property or a reserved name. *)
Definition plain_key (k : pyclass) (key : string) : bool :=
  negb (reserved key) && negb (String.eqb key "_required") &&
  match class_lookup k key with Some TagsProperty => false | _ => true end.

(** Values of the same Python type; a dictionary keeps the keys of the
    default. *)
Definition same_type (v d : value) : bool :=
  match v, d with
  | VNone, VNone | VBool _, VBool _ | VInt _, VInt _ | VStr _, VStr _
  | VList _, VList _ | VDateTime _, VDateTime _ => true
  | VDict a, VDict b => forallb (fun key => mem_string key (map fst a)) (map fst b)
  | _, _ => false
  end.

(** A keyword argument that supplies a declared field with a value of
    the type of its default, or that names nothing. *)
Definition field_kwarg (k : pyclass) (kw : string * value) : bool :=
  match class_lookup k (fst kw) with
  | Some (Data d) => is_public (fst kw) && same_type (snd kw) d
  | Some _ => false
  | None => negb (reserved (fst kw)) && negb (String.eqb (fst kw) "_required")
  end.

(** An instance whose dictionary holds fields of its class, each with
    a value of the declared type, besides [_required]. *)
Definition well_typed (self : instance) : Prop :=
  ∀ n v, dict_of self !! n = Some v →
    n = "_required" ∨
    (is_public n = true ∧
     ∃ d, class_lookup (class_of self) n = Some (Data d) ∧ same_type v d = true).

(** The [validate_<attr>] methods that [validate] meets on a class, in
    the order of [dir]. *)
Definition rule_of (k : pyclass) (attr : string) : option rule :=
  match class_lookup k ("validate_" ++ attr) with
  | Some (Validator r) => Some r
  | _ => None
  end.

Definition rules_of (k : pyclass) : list rule :=
  omap (rule_of k) (List.filter is_public (sort_dedup (class_names k))).

Fixpoint run_rules (self : instance) (rs : list rule) : result unit :=
  match rs with
  | [] => Ok tt
  | r :: rest => _ ← run_rule r self; run_rules self rest
  end.

(** The condition under which [validate_guid] raises. *)
Definition guid_too_short (g : string) : bool :=
  negb (String.eqb g "") && Nat.ltb (String.length g) 16.

(** The outcome of a rule: it passes, or it reports the field. *)
Definition passes_or_reports (m : result unit) : Prop :=
  m = Ok tt ∨ ∃ field msg, m = Error (InvalidField field msg).

(** Sorted without repetition, as the result of [dir] is. *)
Fixpoint sorted_names (l : list string) : bool :=
  match l with
  | [] => true
  | x :: l' => forallb (String.ltb x) l' && sorted_names l'
  end.

(** The element names of each protocol kind, in wire order. *)
Definition wire_tags (k : pyclass) : list string :=
  match k with
  | DiasporaPost =>
      ["raw_message"; "guid"; "diaspora_handle"; "public"; "created_at"]
  | DiasporaComment =>
      ["guid"; "parent_guid"; "author_signature"; "text"; "diaspora_handle"]
  | DiasporaLike =>
      ["target_type"; "guid"; "parent_guid"; "author_signature"; "positive";
       "diaspora_handle"]
  | DiasporaRequest => ["sender_handle"; "recipient_handle"]
  | DiasporaProfile =>
      ["diaspora_handle"; "first_name"; "last_name"; "image_url";
       "image_url_small"; "image_url_medium"; "gender"; "bio"; "location";
       "searchable"; "nsfw"; "tag_string"]
  | _ => []
  end.

Definition leaf (tag text : string) : Element := mkElement tag text [].

(** A token without its first character. *)
Definition drop_first (w : string) : string :=
  match w with
  | String _ rest => rest
  | EmptyString => EmptyString
  end.

(** In the spec's words: the set of unique [#word] tokens found in the
    text, stripped of the [#] prefix. *)
Definition tags_spec (text : string) : gset string :=
  list_to_set (map drop_first (List.filter (startswith "#") (split text))).






(** The instance a successful construction returns. *)
Definition the (r : result instance) : instance :=
  match r with
  | Ok i => i
  | Error _ => mkInstance PyObject ∅
  end.

(** ** Validity, stated on the values of the fields *)

(** The string an attribute holds, the empty string when it holds none. *)
Definition text_field (self : instance) (n : string) : string :=
  match getattr self n with
  | Ok (OData (VStr s)) => s
  | _ => ""
  end.

(** What each rule demands, as a condition on the fields. *)
Definition accepts (r : rule) (self : instance) : bool :=
  match r with
  | RGuid => negb (guid_too_short (text_field self "guid"))
  | RHandle => email_is_valid (text_field self "handle")
  | REmail =>
      String.eqb (text_field self "email") "" || email_is_valid (text_field self "email")
  | RTargetHandle => email_is_valid (text_field self "target_handle")
  | RParticipation =>
      mem_string (text_field self "participation") ["reaction"; "subscription"; "comment"]
  | RReaction => mem_string (text_field self "reaction") ["like"]
  | RRelationship =>
      mem_string (text_field self "relationship")
        ["sharing"; "following"; "ignoring"; "blocking"]
  end.

(** The public names [validate] collects in [attributes] on an
    instance whose dictionary holds names of its class only. *)
Definition public_names (k : pyclass) : list string :=
  List.filter is_public (sort_dedup (class_names k)).

(** The list [_required] ends up as when [BaseEntity.__init__] leaves
    it at [start]. *)
Fixpoint required_from (start : list string) (chain : list pyclass) : result (list string) :=
  match chain with
  | [] => Ok start
  | c :: rest =>
      match own_init c with
      | Inherited => required_from start rest
      | ObjectInit | BaseInit => Ok start
      | SuperThen (Extend names) => l ← required_from start rest; Ok (l ++ names)
      | SuperThen (Discard name) =>
          l ← required_from start rest;
          if mem_string name l then Ok (remove_first name l)
          else raise (ValueError "list.remove(x): x not in list")
      end
  end.

(** The checks of [validate] over the attributes [attrs] when the
    instance holds [v] under the name of the validator of [field]: a
    true [v] is called, which data does not admit, a false [v] is
    passed over; the other fields have their rules. *)
Fixpoint run_shadowed (self : instance) (field : string) (v : value)
    (attrs : list string) : result unit :=
  match attrs with
  | [] => Ok tt
  | attr :: rest =>
      _ ← (if String.eqb attr field
           then if truthy v then raise (TypeError "object is not callable") else Ok tt
           else match rule_of (class_of self) attr with
                | Some r => run_rule r self
                | None => Ok tt
                end);
      run_shadowed self field v rest
  end.

End Entities.

(** ** A reference environment *)

Fixpoint count_char (c : ascii) (s : string) : nat :=
  match s with
  | EmptyString => 0
  | String a s' => (if Ascii.eqb a c then 1 else 0) + count_char c s'
  end.

Fixpoint before_char (c : ascii) (s : string) : string :=
  match s with
  | EmptyString => EmptyString
  | String a s' => if Ascii.eqb a c then EmptyString else String a (before_char c s')
  end.

Fixpoint after_char (c : ascii) (s : string) : string :=
  match s with
  | EmptyString => EmptyString
  | String a s' => if Ascii.eqb a c then s' else after_char c s'
  end.

Fixpoint has_space (s : string) : bool :=
  match s with
  | EmptyString => false
  | String a s' => is_space a || has_space s'
  end.

(** Modelled from the spec: the [Email] validator belongs to the
    external package [dirty_validators].  A handle must match an
    e-mail address grammar; ["not-an-email"] fails and
    ["alice@example.org"] passes.  This stand-in accepts
    [local@domain] with one [@], no white space, a non-empty local
    part and a dotted domain whose first and last labels are not
    empty. *)
Definition simple_email (s : string) : bool :=
  let domain := after_char "@" s in
  Nat.eqb (count_char "@" s) 1
  && negb (has_space s)
  && negb (String.eqb (before_char "@" s) "")
  && Nat.ltb 0 (count_char "." domain)
  && negb (String.eqb (before_char "." domain) "")
  && negb (String.eqb (strip "." domain) "")
  && String.eqb (rstrip "." domain) domain.

(** The module loaded on 1 January 2016 at noon, with the stand-in
    validator. *)
Definition reference_env : Environment := {|
  loaded_at := mkDatetime 2016 1 1 12 0 0;
  email_is_valid := simple_email
|}.

(** ** Notions on strings used in the statements *)

(** A tag that survives the trip through a tag string: it holds no
    white space and no [#] at either end. *)
Definition clean_tag (t : string) : Prop :=
  has_space t = false ∧ strip "#" t = t.

(** A string that does not begin with [c]. *)
Definition no_head (c : ascii) (w : string) : Prop :=
  match w with
  | EmptyString => True
  | String a _ => Ascii.eqb a c = false
  end.

(** The first of the three image sizes, in the order [large], [small],
    [medium], that the dictionary lacks. *)
Definition missing_size (urls : list (string * string)) : option string :=
  List.find (fun key => negb (mem_string key (map fst urls))) ["large"; "small"; "medium"].

(** * Properties *)

Section Properties.
Context `{Environment}.

(** ** The result monad and lookups *)

Lemma bind_Ok {A B} (m : result A) (f : A → result B) (b : B) :
  m ≫= f = Ok b → ∃ a, m = Ok a ∧ f a = Ok b.
Proof. destruct m as [a|e]; simpl; [eauto | discriminate]. Qed.

Lemma assoc_In {A} (n : string) (l : list (string * A)) (a : A) :
  assoc n l = Some a → In (n, a) l.
Proof.
  induction l as [|[k b] l IH]; simpl; [discriminate|].
  destruct (String.eqb n k) eqn:E.
  - apply String.eqb_eq in E. intros [= ->]. left. now subst.
  - intros Hl. right. auto.
Qed.

Lemma lookup_along_In (chain : list pyclass) (n : string) (m : member) :
  lookup_along chain n = Some m → In (n, m) (flat_map own_members chain).
Proof.
  induction chain as [|c chain IH]; simpl; [discriminate|].
  destruct (assoc n (own_members c)) eqn:E.
  - intros [= ->]. apply in_or_app. left. now apply assoc_In.
  - intros Hl. apply in_or_app. right. auto.
Qed.

Lemma required_no_property (c : pyclass) :
  class_lookup c "_required" ≠ Some TagsProperty.
Proof. destruct c; vm_compute; discriminate. Qed.

Lemma setattr_Ok (s : instance) (n : string) (v : value) :
  reserved n = false →
  class_lookup (class_of s) n ≠ Some TagsProperty →
  setattr s n v = Ok (mkInstance (class_of s) (<[n := v]> (dict_of s))).
Proof.
  intros Hr Hp. unfold setattr. rewrite Hr.
  destruct (class_lookup (class_of s) n) as [[]|]; try reflexivity. congruence.
Qed.

Lemma setattr_inv (s s' : instance) (n : string) (v : value) :
  setattr s n v = Ok s' →
  s' = mkInstance (class_of s) (<[n := v]> (dict_of s)).
Proof.
  unfold setattr, raise. destruct (reserved n); [discriminate|].
  destruct (class_lookup (class_of s) n) as [[]|]; intros; congruence.
Qed.

(** ** Construction *)

Lemma set_kwargs_frame (kwargs : list (string * value)) (s s' : instance) :
  set_kwargs kwargs s = Ok s' →
  class_of s' = class_of s ∧
  ∀ n, ¬ In n (map fst kwargs) → dict_of s' !! n = dict_of s !! n.
Proof.
  revert s. induction kwargs as [|[key v] rest IH]; simpl; intros s Hs.
  - injection Hs as <-. auto.
  - apply bind_Ok in Hs as (b & Hb & Hs).
    apply bind_Ok in Hs as (s1 & Hs1 & Hs).
    apply IH in Hs as [Hc Hd].
    assert (class_of s1 = class_of s ∧
            ∀ n, n ≠ key → dict_of s1 !! n = dict_of s !! n) as [Hc1 Hd1].
    { destruct b.
      - apply setattr_inv in Hs1 as ->. simpl. split; [done|].
        intros n Hn. now rewrite lookup_insert_ne.
      - injection Hs1 as <-. auto. }
    split; [congruence|].
    intros n Hn. rewrite Hd by tauto. apply Hd1. intros ->. tauto.
Qed.

Lemma BaseEntity_init_required (kwargs : list (string * value)) (s i0 : instance) :
  ¬ In "_required" (map fst kwargs) →
  BaseEntity_init kwargs s = Ok i0 →
  class_of i0 = class_of s ∧ dict_of i0 !! "_required" = Some (VList []).
Proof.
  intros Hk Hi. unfold BaseEntity_init in Hi.
  apply bind_Ok in Hi as (s1 & Hs1 & Hi).
  apply setattr_inv in Hs1 as ->.
  apply set_kwargs_frame in Hi as [Hc Hd]. split; [exact Hc|].
  rewrite Hd by assumption. simpl. apply lookup_insert_eq.
Qed.

Lemma iadd_required_Ok (c : pyclass) (d : gmap string value) (l names : list string) :
  d !! "_required" = Some (VList l) →
  iadd_required names (mkInstance c d)
  = Ok (mkInstance c (<["_required" := VList (l ++ names)]> d)).
Proof.
  intros Hl. unfold iadd_required. simpl. rewrite Hl.
  rewrite setattr_Ok; [reflexivity | reflexivity | apply required_no_property].
Qed.

Lemma remove_required_eq (c : pyclass) (d : gmap string value) (l : list string) (name : string) :
  d !! "_required" = Some (VList l) →
  remove_required name (mkInstance c d)
  = if mem_string name l
    then Ok (mkInstance c (<["_required" := VList (remove_first name l)]> d))
    else raise (ValueError "list.remove(x): x not in list").
Proof. intros Hl. unfold remove_required. simpl. now rewrite Hl. Qed.

(** [__init__] along a chain that reaches [BaseEntity.__init__]: the
    keyword arguments are bound first, then [_required] is rebuilt. *)
Lemma run_init_eq (chain : list pyclass) (kwargs : list (string * value)) (s : instance) :
  reaches_base chain = true →
  ¬ In "_required" (map fst kwargs) →
  run_init chain kwargs s =
  (i0 ← BaseEntity_init kwargs s;
   l ← required_along chain;
   Ok (mkInstance (class_of s) (<["_required" := VList l]> (dict_of i0)))).
Proof.
  intros Hb Hk. induction chain as [|c chain IH]; simpl in *; [discriminate|].
  destruct (own_init c) as [| | |[names|name]] eqn:Ec; try discriminate.
  - auto.
  - destruct (BaseEntity_init kwargs s) as [i0|e] eqn:Ei; simpl; [|reflexivity].
    destruct (BaseEntity_init_required _ _ _ Hk Ei) as [Hc Hd].
    destruct i0 as [c0 d0]; simpl in *. subst c0. now rewrite insert_id.
  - rewrite IH by assumption.
    destruct (BaseEntity_init kwargs s) as [i0|e]; simpl; [|reflexivity].
    destruct (required_along chain) as [l|e]; simpl; [|reflexivity].
    rewrite (iadd_required_Ok _ _ l) by apply lookup_insert_eq.
    now rewrite insert_insert_eq.
  - rewrite IH by assumption.
    destruct (BaseEntity_init kwargs s) as [i0|e]; simpl; [|reflexivity].
    destruct (required_along chain) as [l|e]; simpl; [|reflexivity].
    rewrite (remove_required_eq _ _ l) by apply lookup_insert_eq.
    destruct (mem_string name l); simpl; [|reflexivity].
    now rewrite insert_insert_eq.
Qed.

Ltac each_kind Hk :=
  unfold entity_kinds, generic_kinds, protocol_classes in Hk; simpl in Hk;
  repeat (destruct Hk as [<-|Hk]); [..|contradiction].

Lemma entity_reaches_base (k : pyclass) :
  In k entity_kinds → reaches_base (mro k) = true.
Proof. intros Hk. each_kind Hk; reflexivity. Qed.

Lemma entity_required_along (k : pyclass) :
  In k entity_kinds →
  ∃ l, required_along (mro k) = Ok l ∧
       list_to_set l = union_of_units k ∖ waiver k.
Proof.
  intros Hk.
  each_kind Hk; (eexists; split; [vm_compute; reflexivity | compute_done]).
Qed.

Lemma getattr_dict (s : instance) (n : string) (v : value) :
  dict_of s !! n = Some v →
  class_lookup (class_of s) n ≠ Some TagsProperty →
  getattr s n = Ok (OData v).
Proof.
  intros Hd Hp. unfold getattr, plain_getattr. rewrite Hd.
  destruct (class_lookup (class_of s) n) as [[]|]; congruence.
Qed.

(** Instantiating an entity kind: [BaseEntity.__init__] binds the
    keyword arguments, then the mixins rebuild [_required]. *)
Lemma construct_eq (k : pyclass) (kwargs : list (string * value)) :
  In k entity_kinds →
  ¬ In "_required" (map fst kwargs) →
  ∃ l, required_along (mro k) = Ok l ∧
       list_to_set l = union_of_units k ∖ waiver k ∧
       construct k kwargs =
       (i0 ← BaseEntity_init kwargs (mkInstance k ∅);
        Ok (mkInstance k (<["_required" := VList l]> (dict_of i0)))).
Proof.
  intros Hk Hr. destruct (entity_required_along k Hk) as (l & Hl & Hs).
  exists l. split; [exact Hl|]. split; [exact Hs|].
  unfold construct. rewrite run_init_eq by auto using entity_reaches_base.
  rewrite Hl. reflexivity.
Qed.

(** What each capability unit contributes. *)
Lemma unit_requirement_table :
  map (fun c => (c, unit_requirement c))
    [GUIDMixin; HandleMixin; CreatedAtMixin; RawContentMixin; ParticipationMixin;
     Relationship; Image; Reaction]
  = [(GUIDMixin, ["guid"]); (HandleMixin, ["handle"]);
     (CreatedAtMixin, ["created_at"]); (RawContentMixin, ["raw_content"]);
     (ParticipationMixin, ["target_guid"; "participation"]);
     (Relationship, ["relationship"; "target_handle"]);
     (Image, ["remote_path"; "remote_name"]); (Reaction, ["reaction"])].
Proof. reflexivity. Qed.

(** C2.  For every entity kind, generic or protocol, the set of
    required fields of an instance built from keyword arguments (none
    of which rebinds [_required] itself) is the union of what the
    [__init__] of every composed unit adds, less what is waived; the
    one waiver is Profile's, of [guid]; every unit adds exactly the
    names the catalogue declares for it ([guid] for Identity, [handle]
    for Authorship, [created_at] for Timestamp, [raw_content] for
    TextBody, [target_guid] and [participation] for ParticipationRef,
    [relationship] and [target_handle] for RelationshipRef,
    [remote_path] and [remote_name] for Image, [reaction] for
    Reaction, nothing for any other class); and so the set is the one
    the catalogue gives for the kind. *)
Theorem required_is_union_of_units (k : pyclass) (kwargs : list (string * value))
    (inst : instance) :
  In k entity_kinds →
  ¬ In "_required" (map fst kwargs) →
  construct k kwargs = Ok inst →
  required_set inst = Ok (union_of_units k ∖ waiver k) ∧
  waiver k = (if bool_decide (Profile ∈ mro k) then {["guid"]} else ∅) ∧
  (∀ c, unit_requirement c = declared_requirement c) ∧
  required_set inst = Ok (list_to_set (kind_requirement k)).
Proof.
  intros Hk Hr Hc.
  destruct (construct_eq k kwargs Hk Hr) as (l & Hl & Hs & He).
  rewrite He in Hc. apply bind_Ok in Hc as (i0 & _ & [= <-]).
  assert (required_set (mkInstance k (<["_required" := VList l]> (dict_of i0)))
          = Ok (union_of_units k ∖ waiver k)) as Hset.
  { unfold required_set.
    rewrite (getattr_dict _ _ (VList l)); simpl;
      [ now rewrite Hs | apply lookup_insert_eq | apply required_no_property ]. }
  split; [exact Hset|]. split; [|split].
  - each_kind Hk; compute_done.
  - intros c. now destruct c.
  - rewrite Hset. f_equal. clear -Hk. each_kind Hk; compute_done.
Qed.

(** ** Keyword arguments *)

Lemma plain_key_inv (k : pyclass) (key : string) :
  plain_key k key = true →
  reserved key = false ∧ key ≠ "_required" ∧
  class_lookup k key ≠ Some TagsProperty.
Proof.
  unfold plain_key. intros Hp.
  apply andb_true_iff in Hp as [Hp Ht]. apply andb_true_iff in Hp as [Hr Hq].
  apply negb_true_iff in Hr, Hq. apply String.eqb_neq in Hq.
  repeat split; [exact Hr | exact Hq |].
  intros E. rewrite E in Ht. discriminate.
Qed.

Lemma hasattr_plain (k : pyclass) (d : gmap string value) (key : string) :
  reserved key = false →
  class_lookup k key ≠ Some TagsProperty →
  hasattr (mkInstance k d) key = Ok (has_name k d key).
Proof.
  intros Hr Hp. unfold hasattr, getattr, plain_getattr, has_name. rewrite Hr. simpl.
  destruct (class_lookup k key) as [[]|]; try congruence;
    destruct (d !! key); reflexivity.
Qed.

Lemma set_kwargs_bind (k : pyclass) (kwargs : list (string * value)) (d : gmap string value) :
  Forall (fun kw => plain_key k (fst kw) = true) kwargs →
  set_kwargs kwargs (mkInstance k d) = Ok (mkInstance k (bind_kwargs k kwargs d)).
Proof.
  intros Hp. revert d. induction Hp as [|[key v] rest Hkey _ IH]; intros d; simpl.
  - reflexivity.
  - simpl in Hkey. apply plain_key_inv in Hkey as (Hr & _ & Ht).
    rewrite hasattr_plain by assumption. simpl.
    destruct (has_name k d key); simpl.
    + rewrite setattr_Ok by assumption. simpl. apply IH.
    + apply IH.
Qed.

Lemma bind_kwargs_frame (k : pyclass) (kwargs : list (string * value))
    (d : gmap string value) (n : string) :
  ¬ In n (map fst kwargs) → bind_kwargs k kwargs d !! n = d !! n.
Proof.
  revert d. induction kwargs as [|[key v] rest IH]; intros d Hn; simpl in *.
  - reflexivity.
  - rewrite IH by tauto.
    destruct (has_name k d key); [|reflexivity].
    apply lookup_insert_ne. intros ->. tauto.
Qed.

Lemma bind_kwargs_bound (k : pyclass) (kwargs : list (string * value))
    (d : gmap string value) (key : string) (v : value) :
  NoDup (map fst kwargs) → In (key, v) kwargs → is_Some (class_lookup k key) →
  bind_kwargs k kwargs d !! key = Some v.
Proof.
  intros Hnd Hin [m Hm]. revert d.
  induction kwargs as [|[key' v'] rest IH]; intros d; simpl in *; [contradiction|].
  apply NoDup_cons in Hnd as [Hnotin Hnd].
  destruct Hin as [[= -> ->]|Hin].
  - rewrite bind_kwargs_frame by (now rewrite <- list_elem_of_In).
    unfold has_name. rewrite Hm.
    destruct (d !! key); apply lookup_insert_eq.
  - now apply IH.
Qed.

(** Only names of the class enter the dictionary. *)
Lemma bind_kwargs_keys (k : pyclass) (kwargs : list (string * value))
    (d : gmap string value) (n : string) :
  is_Some (bind_kwargs k kwargs d !! n) →
  is_Some (d !! n) ∨ is_Some (class_lookup k n).
Proof.
  revert d. induction kwargs as [|[key v] rest IH]; intros d Hn; simpl in *.
  - now left.
  - apply IH in Hn. destruct Hn as [Hn|Hn]; [|now right].
    unfold has_name in Hn.
    destruct (d !! key) as [w|] eqn:Ed.
    + destruct (decide (n = key)) as [->|Hne].
      * left. rewrite Ed. eauto.
      * rewrite lookup_insert_ne in Hn by congruence. now left.
    + destruct (class_lookup k key) as [m|] eqn:Ec.
      * destruct (decide (n = key)) as [->|Hne].
        -- right. rewrite Ec. eauto.
        -- rewrite lookup_insert_ne in Hn by congruence. now left.
      * now left.
Qed.

Lemma bind_kwargs_ignores (k : pyclass) (l1 l2 : list (string * value))
    (d : gmap string value) (key : string) (v : value) :
  d !! key = None → class_lookup k key = None →
  bind_kwargs k (l1 ++ (key, v) :: l2) d = bind_kwargs k (l1 ++ l2) d.
Proof.
  intros Hd Hc. revert d Hd.
  induction l1 as [|[key' v'] l1 IH]; intros d Hd; simpl.
  - unfold has_name. now rewrite Hd, Hc.
  - apply IH.
    destruct (has_name k d key') eqn:Eh; [|exact Hd].
    apply lookup_insert_None. split; [exact Hd|].
    intros ->. unfold has_name in Eh. rewrite Hd, Hc in Eh. discriminate.
Qed.

(** An entity kind built from plain keywords. *)
Lemma construct_plain (k : pyclass) (kwargs : list (string * value)) :
  In k entity_kinds →
  Forall (fun kw => plain_key k (fst kw) = true) kwargs →
  ∃ l, required_along (mro k) = Ok l ∧
       list_to_set l = union_of_units k ∖ waiver k ∧
       construct k kwargs =
       Ok (mkInstance k
             (<["_required" := VList l]>
                (bind_kwargs k kwargs {["_required" := VList []]}))).
Proof.
  intros Hk Hp.
  assert (¬ In "_required" (map fst kwargs)) as Hr.
  { intros Hin. apply in_map_iff in Hin as ([key v] & Hkey & Hin). simpl in Hkey. subst key.
    rewrite List.Forall_forall in Hp. apply Hp in Hin. simpl in Hin.
    apply plain_key_inv in Hin as (_ & Hne & _). now apply Hne. }
  destruct (construct_eq k kwargs Hk Hr) as (l & Hl & Hs & He).
  exists l. split; [exact Hl|]. split; [exact Hs|].
  rewrite He. unfold BaseEntity_init.
  rewrite setattr_Ok by (try reflexivity; apply required_no_property). simpl.
  rewrite insert_empty.
  rewrite set_kwargs_bind by assumption. reflexivity.
Qed.

(** Construction from plain keywords succeeds; the keywords that name
    an attribute are bound, the others leave no trace. *)
Lemma construct_binds_keywords (k : pyclass) (kwargs : list (string * value)) :
  In k entity_kinds →
  Forall (fun kw => plain_key k (fst kw) = true) kwargs →
  ∃ inst, construct k kwargs = Ok inst ∧
    (∀ key v, NoDup (map fst kwargs) → In (key, v) kwargs →
       is_Some (class_lookup k key) → getattr inst key = Ok (OData v)) ∧
    (∀ l1 l2 key v, kwargs = l1 ++ l2 → reserved key = false →
       class_lookup k key = None →
       construct k (l1 ++ (key, v) :: l2) = Ok inst).
Proof.
  intros Hk Hp.
  destruct (construct_plain k kwargs Hk Hp) as (l & Hl & _ & He).
  eexists. split; [exact He|]. split.
  - intros key v Hnd Hin Hsome.
    assert (plain_key k key = true) as Hkey.
    { rewrite List.Forall_forall in Hp. now apply (Hp (key, v)). }
    apply plain_key_inv in Hkey as (_ & Hne & Ht).
    apply getattr_dict; simpl; [|exact Ht].
    rewrite lookup_insert_ne by congruence.
    now apply bind_kwargs_bound.
  - intros l1 l2 key v -> Hres Hc.
    assert (key ≠ "_required") as Hne.
    { intros ->. each_kind Hk; vm_compute in Hc; discriminate. }
    assert (plain_key k key = true) as Hkey.
    { unfold plain_key. rewrite Hres, Hc. simpl.
      apply String.eqb_neq in Hne. now rewrite Hne. }
    assert (Forall (fun kw => plain_key k (fst kw) = true) (l1 ++ (key, v) :: l2)) as Hp'.
    { apply Forall_app in Hp as [Hp1 Hp2].
      apply Forall_app. split; [exact Hp1|]. constructor; assumption. }
    destruct (construct_plain k _ Hk Hp') as (l' & Hl' & _ & He').
    rewrite He'. rewrite Hl in Hl'. injection Hl' as <-.
    rewrite bind_kwargs_ignores; [reflexivity | | exact Hc].
    now apply lookup_singleton_ne.
Qed.

(** C10, as amended.  For every entity kind, construction from
    keywords none of which is a reserved name, [_required], or the
    read-only [tags] property never raises; a keyword that names an
    attribute of the kind binds it to the value supplied, and a keyword
    that names no attribute is ignored: the instance is the one built
    without it. *)
Theorem construct_accepts_plain_keywords (k : pyclass) (kwargs : list (string * value)) :
  In k entity_kinds →
  Forall (fun kw => plain_key k (fst kw) = true) kwargs →
  ∃ inst, construct k kwargs = Ok inst ∧
    (∀ key v, NoDup (map fst kwargs) → In (key, v) kwargs →
       is_Some (class_lookup k key) → getattr inst key = Ok (OData v)) ∧
    (∀ l1 l2 key v, kwargs = l1 ++ l2 → reserved key = false →
       class_lookup k key = None →
       construct k (l1 ++ (key, v) :: l2) = Ok inst).
Proof. exact (construct_binds_keywords k kwargs). Qed.

(** ** Instances built from typed fields *)

Lemma prefix_cons (c a : ascii) (p s : string) :
  String.prefix (String c p) (String a s)
  = if ascii_dec c a then String.prefix p s else false.
Proof. reflexivity. Qed.

Lemma public_not_reserved (n : string) :
  is_public n = true → reserved n = false ∧ n ≠ "_required".
Proof.
  unfold is_public, reserved, startswith. intros Hp. apply negb_true_iff in Hp.
  destruct n as [|a n]; [split; [reflexivity | discriminate]|].
  rewrite prefix_cons in *.
  destruct (ascii_dec "_" a) as [<-|Hne].
  - destruct n; discriminate.
  - split; [reflexivity|]. intros [= -> _]. now apply Hne.
Qed.

Lemma field_kwarg_plain (k : pyclass) (kw : string * value) :
  field_kwarg k kw = true → plain_key k (fst kw) = true.
Proof.
  unfold field_kwarg, plain_key. destruct kw as [key v]; simpl.
  destruct (class_lookup k key) as [[d| | |]|]; try discriminate.
  - intros Hf. apply andb_true_iff in Hf as [Hp _].
    apply public_not_reserved in Hp as [-> Hne].
    apply String.eqb_neq in Hne. now rewrite Hne.
  - intros Hf. now rewrite Hf.
Qed.

Lemma bind_kwargs_typed (k : pyclass) (kwargs : list (string * value))
    (d : gmap string value) :
  Forall (fun kw => field_kwarg k kw = true) kwargs →
  well_typed (mkInstance k d) →
  well_typed (mkInstance k (bind_kwargs k kwargs d)).
Proof.
  intros Hf. revert d. induction Hf as [|[key v] rest Hkey _ IH]; intros d Hd; simpl.
  - exact Hd.
  - apply IH. unfold has_name.
    unfold field_kwarg in Hkey. simpl in Hkey.
    destruct (class_lookup k key) as [[d0| | |]|] eqn:Ec; try discriminate.
    + apply andb_true_iff in Hkey as [Hp Hs].
      assert (well_typed (mkInstance k (<[key := v]> d))) as Hins.
      { intros n w. simpl. destruct (decide (n = key)) as [->|Hne].
        - rewrite lookup_insert_eq. intros [= <-]. right. eauto.
        - rewrite lookup_insert_ne by congruence. apply Hd. }
      destruct (d !! key); exact Hins.
    + apply andb_true_iff in Hkey as [_ Hq].
      apply negb_true_iff, String.eqb_neq in Hq.
      destruct (d !! key) as [w|] eqn:Ed; [|exact Hd].
      destruct (Hd key w Ed) as [->|(_ & d0 & Hd0 & _)]; simpl in *; congruence.
Qed.

(** An entity kind built from typed fields: the dictionary and its
    typing. *)
Lemma construct_typed (k : pyclass) (kwargs : list (string * value)) :
  In k entity_kinds →
  Forall (fun kw => field_kwarg k kw = true) kwargs →
  ∃ l d, required_along (mro k) = Ok l ∧
         construct k kwargs = Ok (mkInstance k d) ∧
         d !! "_required" = Some (VList l) ∧
         well_typed (mkInstance k d).
Proof.
  intros Hk Hf.
  assert (Forall (fun kw => plain_key k (fst kw) = true) kwargs) as Hp.
  { eapply Forall_impl; [exact Hf|]. intros kw. apply field_kwarg_plain. }
  destruct (construct_plain k kwargs Hk Hp) as (l & Hl & _ & He).
  eexists l, _. split; [exact Hl|]. split; [exact He|]. split.
  - apply lookup_insert_eq.
  - assert (well_typed (mkInstance k (bind_kwargs k kwargs {["_required" := VList []]}))) as Hw.
    { apply bind_kwargs_typed; [exact Hf|]. intros n v. simpl.
      intros Hn. apply lookup_singleton_Some in Hn as [<- _]. now left. }
    intros n v. simpl. destruct (decide (n = "_required")) as [->|Hne]; [now left|].
    rewrite lookup_insert_ne by congruence. apply Hw.
Qed.

(** ** The names [dir] lists *)

Lemma ltb_asym (x y : string) : String.ltb x y = true → String.ltb y x = false.
Proof.
  unfold String.ltb. rewrite (String.compare_antisym x y).
  destruct (String.compare y x); simpl; congruence.
Qed.

Lemma In_insert_sorted (x y : string) (l : list string) :
  In x (insert_sorted y l) ↔ x = y ∨ In x l.
Proof.
  induction l as [|z l IH]; simpl; [intuition|].
  destruct (String.eqb y z) eqn:E.
  - apply String.eqb_eq in E. subst z. simpl. intuition.
  - destruct (String.ltb y z); simpl; [intuition|]. rewrite IH. intuition.
Qed.

Lemma In_sort_dedup (x : string) (l : list string) :
  In x (sort_dedup l) ↔ In x l.
Proof.
  unfold sort_dedup. induction l as [|y l IH]; simpl; [tauto|].
  rewrite In_insert_sorted, IH. intuition.
Qed.

Lemma insert_present (x : string) (l : list string) :
  sorted_names l = true → In x l → insert_sorted x l = l.
Proof.
  induction l as [|y l IH]; simpl; [contradiction|].
  intros Hs Hin. apply andb_true_iff in Hs as [Hy Hs].
  destruct (String.eqb x y) eqn:E; [reflexivity|].
  destruct Hin as [->|Hin]; [now rewrite String.eqb_refl in E|].
  rewrite forallb_forall in Hy. specialize (Hy x Hin).
  rewrite (ltb_asym _ _ Hy). f_equal. auto.
Qed.

Lemma fold_insert_present (base keys : list string) :
  sorted_names base = true → (∀ n, In n keys → In n base) →
  fold_right insert_sorted base keys = base.
Proof.
  intros Hs. induction keys as [|key keys IH]; simpl; intros Hin; [reflexivity|].
  rewrite IH by auto. apply insert_present; auto.
Qed.

Lemma dir_of_class (k : pyclass) (d : gmap string value) :
  sorted_names (sort_dedup (class_names k)) = true →
  (∀ n, is_Some (d !! n) → In n (class_names k)) →
  dir (mkInstance k d) = sort_dedup (class_names k).
Proof.
  intros Hs Hd. unfold dir, sort_dedup. simpl. rewrite fold_right_app.
  apply fold_insert_present; [exact Hs|].
  intros n Hn. apply In_sort_dedup, Hd.
  apply in_map_iff in Hn as ([n' v] & <- & Hn). simpl.
  apply list_elem_of_In, elem_of_map_to_list in Hn. eauto.
Qed.

Lemma entity_names_sorted (k : pyclass) :
  In k entity_kinds → sorted_names (sort_dedup (class_names k)) = true.
Proof. intros Hk. each_kind Hk; vm_compute; reflexivity. Qed.

Lemma class_lookup_names (k : pyclass) (n : string) (m : member) :
  class_lookup k n = Some m → In n (class_names k).
Proof.
  intros Hl. apply lookup_along_In in Hl. unfold class_names.
  apply in_flat_map in Hl as (c & Hc & Hl). apply in_flat_map.
  exists c. split; [exact Hc|]. apply in_map_iff. now exists (n, m).
Qed.

Lemma assoc_is_Some {A} (n : string) (l : list (string * A)) :
  In n (map fst l) → is_Some (assoc n l).
Proof.
  induction l as [|[key a] l IH]; simpl; [contradiction|].
  destruct (String.eqb n key) eqn:E; [eauto|].
  intros [->|Hin]; [now rewrite String.eqb_refl in E | auto].
Qed.

Lemma names_class_lookup (k : pyclass) (n : string) :
  In n (class_names k) → is_Some (class_lookup k n).
Proof.
  unfold class_names, class_lookup. induction (mro k) as [|c chain IH]; simpl; [contradiction|].
  intros Hin. apply in_app_or in Hin as [Hin|Hin].
  - apply assoc_is_Some in Hin as [m ->]. eauto.
  - destruct (assoc n (own_members c)); eauto.
Qed.

Lemma required_in_names (k : pyclass) :
  In k entity_kinds → In "_required" (class_names k).
Proof.
  intros Hk. apply (class_lookup_names k _ (Data (VList []))).
  each_kind Hk; reflexivity.
Qed.

Lemma well_typed_keys (k : pyclass) (d : gmap string value) :
  In k entity_kinds → well_typed (mkInstance k d) →
  ∀ n, is_Some (d !! n) → In n (class_names k).
Proof.
  intros Hk Hw n [v Hv]. destruct (Hw n v Hv) as [->|(_ & d0 & Hd0 & _)].
  - now apply required_in_names.
  - simpl in Hd0. eapply class_lookup_names, Hd0.
Qed.

(** ** What [validate] runs *)

Ltac members Hin :=
  vm_compute in Hin;
  repeat (destruct Hin as [Hin|Hin];
          [ first [ discriminate Hin | injection Hin as <- ] | ]);
  try contradiction.

(** The only members named [validate_...] are the rules. *)
Lemma validate_prefix (k : pyclass) (n : string) (m : member) :
  In k entity_kinds →
  class_lookup k ("validate_" ++ n) = Some m → ∃ r, m = Validator r.
Proof.
  intros Hk Hl. apply lookup_along_In in Hl.
  each_kind Hk; members Hl; eauto.
Qed.

Lemma tags_needs_raw_content (k : pyclass) (n : string) :
  In k entity_kinds →
  class_lookup k n = Some TagsProperty →
  class_lookup k "raw_content" = Some (Data (VStr "")).
Proof.
  intros Hk Hl. apply lookup_along_In in Hl.
  each_kind Hk; try reflexivity; members Hl.
Qed.

Lemma raw_content_default (k : pyclass) (d0 : value) :
  class_lookup k "raw_content" = Some (Data d0) → d0 = VStr "".
Proof. destruct k; vm_compute; congruence. Qed.

Lemma typed_raw_content (k : pyclass) (d : gmap string value) (v : value) :
  well_typed (mkInstance k d) → d !! "raw_content" = Some v → ∃ s, v = VStr s.
Proof.
  intros Hw Hv. destruct (Hw _ _ Hv) as [E|(_ & d0 & Hd0 & Hs)]; [discriminate E|].
  simpl in Hd0. apply raw_content_default in Hd0 as ->.
  destruct v; try discriminate. eauto.
Qed.

Lemma tags_total (k : pyclass) (d : gmap string value) :
  well_typed (mkInstance k d) →
  class_lookup k "raw_content" = Some (Data (VStr "")) →
  ∃ t, tags (mkInstance k d) = Ok t.
Proof.
  intros Hw Hc. unfold tags, plain_getattr. simpl.
  destruct (d !! "raw_content") as [v|] eqn:Ed.
  - destruct (typed_raw_content k d v Hw Ed) as [s ->]. simpl.
    destruct (negb (negb (String.eqb s ""))); eauto.
  - rewrite Hc. simpl. eauto.
Qed.

Lemma getattr_total (k : pyclass) (d : gmap string value) (attr : string) :
  In k entity_kinds → well_typed (mkInstance k d) →
  In attr (class_names k) → ∃ o, getattr (mkInstance k d) attr = Ok o.
Proof.
  intros Hk Hw Hin. apply names_class_lookup in Hin as [m Hm].
  unfold getattr. simpl. rewrite Hm.
  destruct m as [v| | |].
  4:{ destruct (tags_total k d Hw (tags_needs_raw_content k attr Hk Hm)) as [t ->].
      simpl. eauto. }
  all: unfold plain_getattr; simpl; rewrite Hm; destruct (d !! attr); eauto.
Qed.

Lemma validator_lookup (k : pyclass) (d : gmap string value) (attr : string) :
  In k entity_kinds → well_typed (mkInstance k d) →
  getattr_or_none (mkInstance k d) ("validate_" ++ attr)%string
  = Ok (OValidator <$> rule_of k attr).
Proof.
  intros Hk Hw. unfold getattr_or_none, getattr, plain_getattr, rule_of. simpl.
  assert (d !! ("validate_" ++ attr)%string = None) as ->.
  { destruct (d !! ("validate_" ++ attr)%string) as [v|] eqn:Ed; [|reflexivity].
    destruct (Hw _ _ Ed) as [E|(_ & d0 & Hd0 & _)]; [discriminate E|].
    simpl in Hd0. apply validate_prefix in Hd0 as [r Hr]; [discriminate Hr | exact Hk]. }
  destruct (class_lookup k ("validate_" ++ attr)%string) as [m|] eqn:Ec; [|reflexivity].
  destruct (validate_prefix k attr m Hk Ec) as [r ->]. reflexivity.
Qed.

(** On a typed instance the loop of [validate] runs the rules of the
    class, one after the other, and collects every public name. *)
Lemma visit_typed (k : pyclass) (d : gmap string value) (names : list string) :
  In k entity_kinds → well_typed (mkInstance k d) →
  (∀ n, In n names → In n (class_names k)) →
  visit (mkInstance k d) names
  = (_ ← run_rules (mkInstance k d) (omap (rule_of k) (List.filter is_public names));
     Ok (List.filter is_public names)).
Proof.
  intros Hk Hw. induction names as [|attr rest IH]; intros Hin; [reflexivity|].
  simpl. rewrite IH by (intros n Hn; apply Hin; now right).
  destruct (is_public attr); [|reflexivity].
  destruct (getattr_total k d attr Hk Hw (Hin attr (or_introl eq_refl))) as [o ->].
  simpl. rewrite validator_lookup by assumption. simpl.
  destruct (rule_of k attr) as [r|]; simpl.
  - destruct (run_rule r (mkInstance k d)) as [[]|e]; simpl; [|reflexivity].
    destruct (run_rules _ _) as [[]|e]; reflexivity.
  - destruct (run_rules _ _) as [[]|e]; reflexivity.
Qed.

Lemma entity_required_public (k : pyclass) (l : list string) :
  In k entity_kinds → required_along (mro k) = Ok l →
  forallb (fun r => mem_string r (List.filter is_public (sort_dedup (class_names k)))) l
  = true.
Proof.
  intros Hk Hl.
  each_kind Hk; vm_compute in Hl; injection Hl as <-; vm_compute; reflexivity.
Qed.

(** [validate] on a typed instance of an entity kind is the sequence of
    its rules: the completeness check that follows never fails. *)
Lemma validate_typed (k : pyclass) (d : gmap string value) (l : list string) :
  In k entity_kinds → well_typed (mkInstance k d) →
  required_along (mro k) = Ok l → d !! "_required" = Some (VList l) →
  validate (mkInstance k d) = run_rules (mkInstance k d) (rules_of k).
Proof.
  intros Hk Hw Hl Hd. unfold validate.
  rewrite dir_of_class by eauto using entity_names_sorted, well_typed_keys.
  rewrite visit_typed by (try assumption; intros n; apply In_sort_dedup).
  fold (rules_of k).
  destruct (run_rules (mkInstance k d) (rules_of k)) as [[]|e]; simpl; [|reflexivity].
  rewrite (getattr_dict _ _ (VList l)) by (try exact Hd; apply required_no_property).
  simpl. now rewrite entity_required_public.
Qed.

(** The rules of each entity kind, in the order [validate] meets them. *)
Lemma rules_of_entity_kinds :
  map rules_of entity_kinds =
  [ [RGuid; RHandle]; [RGuid; RHandle];
    [RGuid; RHandle; RParticipation];
    [RGuid; RHandle; RParticipation; RReaction];
    [RHandle; RRelationship; RTargetHandle];
    [REmail; RGuid; RHandle];
    [RGuid; RHandle; RParticipation];
    [RGuid; RHandle];
    [RGuid; RHandle; RParticipation; RReaction];
    [RHandle; RRelationship; RTargetHandle];
    [REmail; RGuid; RHandle] ].
Proof. vm_compute. reflexivity. Qed.

(** An entity built from typed fields exists, and validating it runs
    the rules of its kind and nothing else. *)
Theorem validate_runs_rules (k : pyclass) (kwargs : list (string * value)) :
  In k entity_kinds →
  Forall (fun kw => field_kwarg k kw = true) kwargs →
  ∃ inst, construct k kwargs = Ok inst ∧ class_of inst = k ∧ well_typed inst ∧
          validate inst = run_rules inst (rules_of k).
Proof.
  intros Hk Hf. destruct (construct_typed k kwargs Hk Hf) as (l & d & Hl & Hc & Hd & Hw).
  exists (mkInstance k d). repeat split; try assumption.
  now apply (validate_typed k d l).
Qed.

(** ** The rules on typed instances *)

Lemma same_type_refl (v : value) : same_type v v = true.
Proof.
  destruct v; try reflexivity. simpl.
  apply forallb_forall. intros key Hkey. unfold mem_string.
  apply existsb_exists. exists key. split; [exact Hkey | apply String.eqb_refl].
Qed.

(** Reading a declared data attribute of a typed instance. *)
Lemma getattr_field (k : pyclass) (d : gmap string value) (n : string) (d0 : value) :
  well_typed (mkInstance k d) →
  class_lookup k n = Some (Data d0) → n ≠ "_required" →
  ∃ v, getattr (mkInstance k d) n = Ok (OData v) ∧ same_type v d0 = true ∧
       (is_public n = false → v = d0).
Proof.
  intros Hw Hc Hne. unfold getattr, plain_getattr. simpl. rewrite Hc.
  destruct (d !! n) as [v|] eqn:Ed.
  - exists v. destruct (Hw _ _ Ed) as [E|(Hp & d1 & Hd1 & Hs)]; [contradiction|].
    simpl in Hd1. rewrite Hc in Hd1. injection Hd1 as <-.
    repeat split; [exact Hs | congruence].
  - exists d0. repeat split. apply same_type_refl.
Qed.

Lemma validate_guid_eq (self : instance) (g : string) :
  getattr self "guid" = Ok (OData (VStr g)) →
  validate_guid self =
  if guid_too_short g
  then Error (InvalidField "guid" "GUID must be at least 16 characters")
  else Ok tt.
Proof.
  intros Hg. unfold validate_guid, guid_too_short. rewrite Hg. simpl.
  destruct (String.eqb g ""); simpl; [reflexivity|].
  destruct (Nat.ltb (String.length g) 16); reflexivity.
Qed.

Lemma validate_enum_typed (k : pyclass) (d : gmap string value)
    (field domain : string) (d0 : string) (valid : list string) :
  well_typed (mkInstance k d) →
  class_lookup k field = Some (Data (VStr d0)) → field ≠ "_required" →
  class_lookup k domain = Some (Data (VList valid)) → is_public domain = false →
  domain ≠ "_required" →
  ∃ x, getattr (mkInstance k d) field = Ok (OData (VStr x)) ∧
       validate_enum field domain (mkInstance k d) =
       if mem_string x valid then Ok tt
       else Error (InvalidField field (field ++ " should be one of: " ++ join ", " valid)).
Proof.
  intros Hw Hf Hnf Hd Hp Hnd.
  destruct (getattr_field k d field _ Hw Hf Hnf) as (v & Hv & Hs & _).
  destruct v; try discriminate Hs. exists s. split; [exact Hv|].
  destruct (getattr_field k d domain _ Hw Hd Hnd) as (w & Hw' & _ & Hprivate).
  rewrite (Hprivate Hp) in Hw'.
  unfold validate_enum. rewrite Hv. simpl. rewrite Hw'. simpl.
  destruct (mem_string s valid); reflexivity.
Qed.

Lemma validate_email_like_typed (k : pyclass) (d : gmap string value) (n : string) :
  well_typed (mkInstance k d) →
  class_lookup k n = Some (Data (VStr "")) → n ≠ "_required" →
  ∃ x, getattr (mkInstance k d) n = Ok (OData (VStr x)).
Proof.
  intros Hw Hc Hne.
  destruct (getattr_field k d n _ Hw Hc Hne) as (v & Hv & Hs & _).
  destruct v; try discriminate Hs. eauto.
Qed.

Ltac string_field Hw n x Hx :=
  match type of Hw with
  | well_typed (mkInstance ?k _) =>
      destruct (validate_email_like_typed k _ n Hw
                  ltac:(vm_compute; reflexivity) ltac:(discriminate)) as [x Hx]
  end.

Ltac enum_field Hw field domain x Hx He :=
  match type of Hw with
  | well_typed (mkInstance ?k _) =>
      let cf := eval vm_compute in (class_lookup k field) in
      let cd := eval vm_compute in (class_lookup k domain) in
      match cf with
      | Some (Data (VStr ?d0)) =>
          match cd with
          | Some (Data (VList ?valid)) =>
              destruct (validate_enum_typed k _ field domain d0 valid Hw
                          ltac:(vm_compute; reflexivity) ltac:(discriminate)
                          ltac:(vm_compute; reflexivity) eq_refl
                          ltac:(discriminate)) as (x & Hx & He)
          end
      end
  end.

Lemma rule_outcome (k : pyclass) (d : gmap string value) (r : rule) :
  In k entity_kinds → well_typed (mkInstance k d) → In r (rules_of k) →
  passes_or_reports (run_rule r (mkInstance k d)).
Proof.
  intros Hk Hw Hr. unfold passes_or_reports.
  each_kind Hk; vm_compute in Hr;
    repeat (destruct Hr as [<-|Hr]); try contradiction; simpl run_rule.
  all: try (string_field Hw "guid" g Hg; rewrite (validate_guid_eq _ g Hg);
            destruct (guid_too_short g); eauto).
  all: try (string_field Hw "handle" x Hx; unfold validate_handle; rewrite Hx; simpl;
            destruct (email_is_valid x); simpl; eauto).
  all: try (string_field Hw "target_handle" x Hx; unfold validate_target_handle;
            rewrite Hx; simpl; destruct (email_is_valid x); simpl; eauto).
  all: try (string_field Hw "email" x Hx; unfold validate_email; rewrite Hx; simpl;
            destruct (negb (String.eqb x "")); simpl; eauto;
            destruct (email_is_valid x); simpl; eauto).
  all: try (enum_field Hw "participation" "_participation_valid_values" x Hx He;
            unfold validate_participation; rewrite He;
            match goal with |- context [if ?b then _ else _] => destruct b end;
            eauto).
  all: try (enum_field Hw "reaction" "_reaction_valid_values" x Hx He;
            unfold validate_reaction; rewrite He;
            match goal with |- context [if ?b then _ else _] => destruct b end;
            eauto).
  all: try (enum_field Hw "relationship" "_relationship_valid_values" x Hx He;
            unfold validate_relationship; rewrite He;
            match goal with |- context [if ?b then _ else _] => destruct b end;
            eauto).
Qed.

Lemma run_rules_outcome (s : instance) (rs : list rule) :
  (∀ r, In r rs → passes_or_reports (run_rule r s)) →
  passes_or_reports (run_rules s rs).
Proof.
  induction rs as [|r rs IH]; intros Hrs; simpl; [now left|].
  destruct (Hrs r (or_introl eq_refl)) as [->|(f & m & ->)]; simpl.
  - apply IH. intros r' Hr'. apply Hrs. now right.
  - right. eauto.
Qed.

Lemma run_rules_fails (s : instance) (rs : list rule) (r : rule) (e : exn) :
  (∀ r, In r rs → passes_or_reports (run_rule r s)) →
  In r rs → run_rule r s = Error e →
  ∃ field msg, run_rules s rs = Error (InvalidField field msg).
Proof.
  intros Hrs Hin He.
  destruct (run_rules_outcome s rs Hrs) as [Hok|Hbad]; [|exact Hbad].
  exfalso. clear Hrs. induction rs as [|r' rs IH]; simpl in *; [contradiction|].
  destruct (run_rule r' s) as [[]|e'] eqn:Er; simpl in Hok; [|discriminate].
  destruct Hin as [->|Hin]; [congruence | auto].
Qed.

Lemma run_rules_passes (s : instance) (rs : list rule) (r : rule) :
  run_rules s rs = Ok tt → In r rs → run_rule r s = Ok tt.
Proof.
  induction rs as [|r' rs IH]; simpl; [contradiction|].
  intros Hok Hin. destruct (run_rule r' s) as [[]|e'] eqn:Er; simpl in Hok; [|discriminate].
  destruct Hin as [->|Hin]; auto.
Qed.

(** C5.  On every entity whose guid is a string, the identifier rule
    raises its [ValueError] exactly when the guid is non-empty and
    shorter than 16 characters, and passes exactly when it is empty or
    at least 16 characters long. *)
Theorem guid_rule_length (self : instance) (g : string) :
  getattr self "guid" = Ok (OData (VStr g)) →
  (validate_guid self = Error (InvalidField "guid" "GUID must be at least 16 characters")
   ↔ g ≠ "" ∧ (String.length g < 16)%nat) ∧
  (validate_guid self = Ok tt ↔ g = "" ∨ (16 ≤ String.length g)%nat).
Proof.
  intros Hg. rewrite (validate_guid_eq self g Hg). unfold guid_too_short.
  destruct (String.eqb_spec g "") as [->|Hne]; simpl.
  - split; split.
    + discriminate.
    + intros [Hc _]. now contradiction Hc.
    + intros _. now left.
    + reflexivity.
  - destruct (Nat.ltb_spec (String.length g) 16) as [Hlt|Hge]; split; split.
    + intros _. now split.
    + reflexivity.
    + discriminate.
    + intros [Hc|Hc]; [contradiction | lia].
    + discriminate.
    + intros [_ Hc]. lia.
    + intros _. now right.
    + reflexivity.
Qed.

(** On a typed entity whose kind includes the identity unit, the rule
    is part of [validate]: a short guid makes [validate] report a
    field, and [validate] passes only with a guid the rule accepts. *)
Theorem validate_enforces_guid_rule (k : pyclass) (kwargs : list (string * value)) :
  In k entity_kinds → In RGuid (rules_of k) →
  Forall (fun kw => field_kwarg k kw = true) kwargs →
  ∃ inst g, construct k kwargs = Ok inst ∧
    getattr inst "guid" = Ok (OData (VStr g)) ∧
    (guid_too_short g = true →
       ∃ field msg, validate inst = Error (InvalidField field msg)) ∧
    (validate inst = Ok tt → guid_too_short g = false).
Proof.
  intros Hk Hr Hf.
  destruct (construct_typed k kwargs Hk Hf) as (l & d & Hl & Hc & Hd & Hw).
  assert (∃ g, getattr (mkInstance k d) "guid" = Ok (OData (VStr g))) as [g Hg].
  { each_kind Hk; try (string_field Hw "guid" g Hg; exists g; exact Hg);
      exfalso; vm_compute in Hr;
      repeat (destruct Hr as [Hr|Hr]; [discriminate Hr|]); exact Hr. }
  exists (mkInstance k d), g. split; [exact Hc|]. split; [exact Hg|].
  rewrite (validate_typed k d l) by assumption.
  pose proof (validate_guid_eq _ g Hg) as Hv. split.
  - intros Hs. rewrite Hs in Hv.
    eapply (run_rules_fails _ _ RGuid); [|exact Hr|exact Hv].
    intros r. now apply rule_outcome.
  - intros Hok. apply (run_rules_passes _ _ RGuid) in Hok; [|exact Hr].
    simpl in Hok. rewrite Hv in Hok. destruct (guid_too_short g); [discriminate|reflexivity].
Qed.

(** The completeness check of [validate] never fires on an entity
    built from typed fields: the outcome is that of the rules. *)
Theorem validate_never_reports_missing (k : pyclass) (kwargs : list (string * value)) :
  In k entity_kinds →
  Forall (fun kw => field_kwarg k kw = true) kwargs →
  ∃ inst, construct k kwargs = Ok inst ∧
    validate inst = run_rules inst (rules_of k) ∧
    passes_or_reports (validate inst) ∧
    ∀ required, validate inst ≠ Error (MissingRequired required).
Proof.
  intros Hk Hf.
  destruct (construct_typed k kwargs Hk Hf) as (l & d & Hl & Hc & Hd & Hw).
  exists (mkInstance k d). split; [exact Hc|].
  rewrite (validate_typed k d l) by assumption. split; [reflexivity|].
  assert (passes_or_reports (run_rules (mkInstance k d) (rules_of k))) as Ho.
  { apply run_rules_outcome. intros r. now apply rule_outcome. }
  split; [exact Ho|].
  intros required. destruct Ho as [->|(f & m & ->)]; discriminate.
Qed.

(** C4.  An entity of any kind can be built with any string as its
    reaction or relationship kind, and holds the string supplied.  On
    a Reaction the rule [validate_reaction] passes for ["like"] and
    raises for every other string, and then [validate] fails with the
    [ValueError] of a field rule; the same holds on a Relationship for
    the four relationship kinds. *)
Theorem enumerated_kinds_checked_at_validation
    (k : pyclass) (kwargs : list (string * value)) :
  In k entity_kinds →
  Forall (fun kw => field_kwarg k kw = true) kwargs →
  ∃ inst, construct k kwargs = Ok inst ∧
    (In k [Reaction; DiasporaLike] →
       ∃ x, getattr inst "reaction" = Ok (OData (VStr x)) ∧
         (∀ y, NoDup (map fst kwargs) → In ("reaction", VStr y) kwargs → x = y) ∧
         validate_reaction inst =
           (if mem_string x ["like"] then Ok tt
            else Error (InvalidField "reaction" "reaction should be one of: like")) ∧
         (mem_string x ["like"] = false →
            ∃ field msg, validate inst = Error (InvalidField field msg))) ∧
    (In k [Relationship; DiasporaRequest] →
       ∃ x, getattr inst "relationship" = Ok (OData (VStr x)) ∧
         (∀ y, NoDup (map fst kwargs) → In ("relationship", VStr y) kwargs → x = y) ∧
         validate_relationship inst =
           (if mem_string x ["sharing"; "following"; "ignoring"; "blocking"] then Ok tt
            else Error (InvalidField "relationship"
                   "relationship should be one of: sharing, following, ignoring, blocking")) ∧
         (mem_string x ["sharing"; "following"; "ignoring"; "blocking"] = false →
            ∃ field msg, validate inst = Error (InvalidField field msg))).
Proof.
  intros Hk Hf.
  destruct (construct_typed k kwargs Hk Hf) as (l & d & Hl & Hc & Hd & Hw).
  assert (Forall (fun kw => plain_key k (fst kw) = true) kwargs) as Hp.
  { eapply Forall_impl; [exact Hf|]. intros kw. apply field_kwarg_plain. }
  destruct (construct_binds_keywords k kwargs Hk Hp) as (inst & Hc' & Hset & _).
  rewrite Hc in Hc'. injection Hc' as <-.
  exists (mkInstance k d). split; [exact Hc|].
  assert (∀ r, In r (rules_of k) → passes_or_reports (run_rule r (mkInstance k d))) as Ho.
  { intros r. now apply rule_outcome. }
  rewrite (validate_typed k d l) by assumption.
  split; intros Hin; simpl in Hin.
  - assert (In RReaction (rules_of k)) as Hr
        by (destruct Hin as [<-|[<-|[]]]; vm_compute; tauto).
    assert (is_Some (class_lookup k "reaction")) as Hsome
        by (destruct Hin as [<-|[<-|[]]]; eexists; vm_compute; reflexivity).
    assert (∃ x, getattr (mkInstance k d) "reaction" = Ok (OData (VStr x)) ∧
                 validate_reaction (mkInstance k d) =
                 (if mem_string x ["like"] then Ok tt
                  else Error (InvalidField "reaction" "reaction should be one of: like")))
      as (x & Hx & He).
    { destruct Hin as [<-|[<-|[]]];
        enum_field Hw "reaction" "_reaction_valid_values" x Hx He;
        (exists x; split; [exact Hx | exact He]). }
    exists x. split; [exact Hx|]. split; [|split; [exact He|]].
    + intros y Hnd Hy. specialize (Hset "reaction" (VStr y) Hnd Hy Hsome).
      pose proof (eq_trans (eq_sym Hx) Hset) as E. now injection E.
    + intros Hm. rewrite Hm in He.
      exact (run_rules_fails _ _ RReaction _ Ho Hr He).
  - assert (In RRelationship (rules_of k)) as Hr
        by (destruct Hin as [<-|[<-|[]]]; vm_compute; tauto).
    assert (is_Some (class_lookup k "relationship")) as Hsome
        by (destruct Hin as [<-|[<-|[]]]; eexists; vm_compute; reflexivity).
    assert (∃ x, getattr (mkInstance k d) "relationship" = Ok (OData (VStr x)) ∧
                 validate_relationship (mkInstance k d) =
                 (if mem_string x ["sharing"; "following"; "ignoring"; "blocking"] then Ok tt
                  else Error (InvalidField "relationship"
                         "relationship should be one of: sharing, following, ignoring, blocking")))
      as (x & Hx & He).
    { destruct Hin as [<-|[<-|[]]];
        enum_field Hw "relationship" "_relationship_valid_values" x Hx He;
        (exists x; split; [exact Hx | exact He]). }
    exists x. split; [exact Hx|]. split; [|split; [exact He|]].
    + intros y Hnd Hy. specialize (Hset "relationship" (VStr y) Hnd Hy Hsome).
      pose proof (eq_trans (eq_sym Hx) Hset) as E. now injection E.
    + intros Hm. rewrite Hm in He.
      exact (run_rules_fails _ _ RRelationship _ Ho Hr He).
Qed.

(** ** Serialisation *)

(** C3.  The protocol Post of the end-to-end example serialises to a
    [status_message] whose children are, in this order, [raw_message],
    [guid], [diaspora_handle], [public] and [created_at]; the [public]
    element holds ["false"] when the flag is false and ["true"] when
    it is true. *)
Theorem post_serialises_in_wire_order (public : bool) :
  (post ← construct DiasporaPost
            [("guid", VStr "a0a0a0a0a0a0a0a0");
             ("handle", VStr "alice@alice.example.org");
             ("public", VBool public);
             ("raw_content", VStr "((status message))");
             ("created_at", VDateTime (mkDatetime 2011 7 20 1 36 7))];
   to_xml post)
  = Ok (mkElement "status_message" ""
          [leaf "raw_message" "((status message))";
           leaf "guid" "a0a0a0a0a0a0a0a0";
           leaf "diaspora_handle" "alice@alice.example.org";
           leaf "public" (if public then "true" else "false");
           leaf "created_at" "2011-07-20 01:36:07 UTC"]).
Proof. destruct public; vm_compute; reflexivity. Qed.


Lemma subscript_typed (a : list (string * string)) (key : string) :
  mem_string key (map fst a) = true →
  ∃ s, subscript (OData (VDict a)) key = Ok (str s).
Proof.
  unfold subscript, mem_string. induction a as [|[k0 s0] a IH]; simpl; [discriminate|].
  destruct (String.eqb key k0); simpl; [eauto | exact IH].
Qed.

Lemma bind_Ok_l {A B} (a : A) (f : A → result B) : Ok a ≫= f = f a.
Proof. reflexivity. Qed.

(** Reads attribute [n] in the goal; [Hs] names what is known of the
    type of its value. *)
Ltac typed_attr Hw n Hs :=
  match type of Hw with
  | well_typed (mkInstance ?k ?d) =>
      let cf := eval vm_compute in (class_lookup k n) in
      match cf with
      | Some (Data ?d0) =>
          let v := fresh "v" in
          let Hv := fresh "Hv" in
          destruct (getattr_field k d n d0 Hw
                      ltac:(vm_compute; reflexivity) ltac:(discriminate))
            as (v & Hv & Hs & _);
          destruct v; try discriminate Hs; rewrite Hv; clear Hv;
          rewrite bind_Ok_l; cbv beta
      end
  end.

Ltac string_attr Hw n := let Hs := fresh "Hs" in typed_attr Hw n Hs; clear Hs.

(** Serialising a protocol entity built from typed fields succeeds
    and yields the elements of its kind in wire order, whether or not
    the entity would validate. *)
Lemma to_xml_typed (k : pyclass) (d : gmap string value) :
  In k protocol_classes → well_typed (mkInstance k d) →
  ∃ tree, to_xml (mkInstance k d) = Ok tree ∧
          map tag_of (children_of tree) = wire_tags k ∧
          Forall (fun c => children_of c = []) (children_of tree).
Proof.
  intros Hk Hw. unfold protocol_classes in Hk. simpl in Hk.
  destruct Hk as [<-|[<-|[<-|[<-|[<-|[]]]]]]; unfold to_xml; cbn [class_of].
  - unfold DiasporaComment_to_xml.
    string_attr Hw "guid". string_attr Hw "target_guid".
    string_attr Hw "author_signature". string_attr Hw "raw_content".
    string_attr Hw "handle".
    vm_compute. eexists. split; [reflexivity|]. split; [reflexivity|]. repeat constructor.
  - unfold DiasporaPost_to_xml.
    string_attr Hw "raw_content". string_attr Hw "guid". string_attr Hw "handle".
    string_attr Hw "public". string_attr Hw "created_at".
    vm_compute. eexists. split; [reflexivity|]. split; [reflexivity|]. repeat constructor.
  - unfold DiasporaLike_to_xml.
    string_attr Hw "guid". string_attr Hw "target_guid".
    string_attr Hw "author_signature". string_attr Hw "handle".
    vm_compute. eexists. split; [reflexivity|]. split; [reflexivity|]. repeat constructor.
  - unfold DiasporaRequest_to_xml.
    string_attr Hw "handle". string_attr Hw "target_handle".
    vm_compute. eexists. split; [reflexivity|]. split; [reflexivity|]. repeat constructor.
  - unfold DiasporaProfile_to_xml.
    string_attr Hw "handle". string_attr Hw "name".
    typed_attr Hw "image_urls" Hurls. cbn in Hurls.
    apply andb_true_iff in Hurls as [Hsmall Hurls].
    apply andb_true_iff in Hurls as [Hmedium Hurls].
    apply andb_true_iff in Hurls as [Hlarge _].
    destruct (subscript_typed _ _ Hlarge) as [large ->]. rewrite bind_Ok_l. cbv beta.
    destruct (subscript_typed _ _ Hsmall) as [small ->]. rewrite bind_Ok_l. cbv beta.
    destruct (subscript_typed _ _ Hmedium) as [medium ->]. rewrite bind_Ok_l. cbv beta.
    string_attr Hw "gender". string_attr Hw "raw_content". string_attr Hw "location".
    string_attr Hw "public". string_attr Hw "nsfw". string_attr Hw "tag_list".
    vm_compute. eexists. split; [reflexivity|]. split; [reflexivity|]. repeat constructor.
Qed.

(** ** Adaptation *)

Lemma fields_data (c : pyclass) (n : string) :
  In n (fields c) →
  is_public n = true ∧ ∃ d0, class_lookup c n = Some (Data d0).
Proof.
  unfold fields. intros Hin. apply filter_In in Hin as [_ Hn].
  apply andb_true_iff in Hn as [Hp Hd]. split; [exact Hp|].
  destruct (class_lookup c n) as [[d0| | |]|]; try discriminate. eauto.
Qed.

Lemma getattr_data (e : instance) (n : string) (d0 : value) :
  class_lookup (class_of e) n = Some (Data d0) →
  ∃ v, getattr e n = Ok (OData v).
Proof.
  intros Hc. unfold getattr, plain_getattr. rewrite Hc.
  destruct (dict_of e !! n); eauto.
Qed.

Lemma read_fields_spec (e : instance) (names : list string) :
  (∀ n, In n names → ∃ d0, class_lookup (class_of e) n = Some (Data d0)) →
  ∃ attrs, read_fields e names = Ok attrs ∧ map fst attrs = names ∧
           ∀ n v, In (n, v) attrs → getattr e n = Ok (OData v).
Proof.
  induction names as [|n names IH]; intros Hd; simpl.
  - exists []. repeat split. intros n v [].
  - destruct (Hd n (or_introl eq_refl)) as [d0 Hd0].
    destruct (getattr_data e n d0 Hd0) as [v Hv].
    destruct IH as (attrs & Hr & Hm & Hg); [intros m Hm; apply Hd; now right|].
    exists ((n, v) :: attrs). rewrite Hv, Hr. simpl. split; [reflexivity|].
    split; [now rewrite Hm|].
    intros m w [[= <- <-]|Hin]; [exact Hv | now apply Hg].
Qed.

Lemma tags_only (c : pyclass) (n : string) :
  class_lookup c n = Some TagsProperty → n = "tags".
Proof.
  intros Hl. apply lookup_along_In in Hl.
  destruct c; vm_compute in Hl;
    repeat (destruct Hl as [Hl|Hl]; [ first [ discriminate Hl | now injection Hl ] | ]);
    contradiction.
Qed.

Lemma tags_no_field (c : pyclass) : ¬ In "tags" (fields c).
Proof.
  intros Hin. apply fields_data in Hin as (_ & d0 & Hd0).
  destruct c; vm_compute in Hd0; discriminate.
Qed.

Lemma generic_fields_NoDup (c : pyclass) :
  In c generic_kinds → NoDup (fields c).
Proof.
  intros Hc. unfold generic_kinds in Hc. simpl in Hc.
  repeat (destruct Hc as [<-|Hc]); [..|contradiction];
    compute_done.
Qed.

Lemma generic_no_signature (c : pyclass) :
  In c generic_kinds → ¬ In "author_signature" (fields c).
Proof.
  intros Hc Hin. apply fields_data in Hin as (_ & d0 & Hd0).
  unfold generic_kinds in Hc. simpl in Hc.
  repeat (destruct Hc as [<-|Hc]); [..|contradiction]; vm_compute in Hd0; discriminate.
Qed.

(** C8.  Adapting a generic entity, whatever its dictionary holds, to
    a protocol class never fails and runs no validation: the result is
    an instance of the protocol class in which every field declared by
    the generic entity's class (and known to the protocol class) reads
    as it does on the entity, nothing else is bound, and
    [author_signature], where the protocol class has it, is at its
    default, the empty string. *)
Theorem from_base_copies_declared_fields (cls : pyclass) (entity : instance) :
  In cls protocol_classes → In (class_of entity) generic_kinds →
  ∃ adapted, from_base cls entity = Ok adapted ∧ class_of adapted = cls ∧
    (∀ n, In n (fields (class_of entity)) → is_Some (class_lookup cls n) →
       getattr adapted n = getattr entity n) ∧
    (∀ n, ¬ In n (fields (class_of entity)) → n ≠ "_required" →
       dict_of adapted !! n = None) ∧
    (is_Some (class_lookup cls "author_signature") →
       getattr adapted "author_signature" = Ok (OData (VStr ""))).
Proof.
  intros Hcls Hgen.
  assert (In cls entity_kinds) as Hk by (apply in_or_app; now right).
  destruct (read_fields_spec entity (fields (class_of entity))) as (attrs & Hr & Hm & Hg).
  { intros n Hn. now apply fields_data in Hn as [_ Hd]. }
  assert (Forall (fun kw => plain_key cls (fst kw) = true) attrs) as Hp.
  { apply List.Forall_forall. intros [n v] Hin. simpl.
    assert (In n (fields (class_of entity))) as Hn.
    { rewrite <- Hm. apply in_map_iff. now exists (n, v). }
    pose proof Hn as Hn'. apply fields_data in Hn' as [Hpub _].
    apply public_not_reserved in Hpub as [Hres Hne].
    unfold plain_key. rewrite Hres. apply String.eqb_neq in Hne. rewrite Hne. simpl.
    destruct (class_lookup cls n) as [[]|] eqn:Ec; try reflexivity.
    apply tags_only in Ec as ->. now apply tags_no_field in Hn. }
  destruct (construct_plain cls attrs Hk Hp) as (l & Hl & _ & He).
  destruct (construct_binds_keywords cls attrs Hk Hp) as (adapted & Hc & Hset & _).
  exists adapted. unfold from_base, get_base_attributes. rewrite Hr. simpl.
  split; [exact Hc|].
  rewrite He in Hc. injection Hc as <-. split; [reflexivity|].
  assert (NoDup (map fst attrs)) as Hnd by (rewrite Hm; now apply generic_fields_NoDup).
  split; [|split].
  - intros n Hn Hsome.
    assert (∃ v, In (n, v) attrs) as [v Hv].
    { rewrite <- Hm in Hn. apply in_map_iff in Hn as ([n' v] & <- & Hin). eauto. }
    rewrite (Hg n v Hv). now apply Hset.
  - intros n Hn Hne. simpl. rewrite lookup_insert_ne by congruence.
    rewrite bind_kwargs_frame by now rewrite Hm.
    now apply lookup_singleton_ne.
  - intros [m Hsig].
    assert (class_lookup cls "author_signature" = Some (Data (VStr ""))) as Hdef.
    { unfold protocol_classes in Hcls. simpl in Hcls.
      repeat (destruct Hcls as [<-|Hcls]); [..|contradiction];
        first [ reflexivity | vm_compute in Hsig; discriminate ]. }
    unfold getattr, plain_getattr. simpl. rewrite Hdef.
    rewrite lookup_insert_ne by discriminate.
    rewrite bind_kwargs_frame, lookup_singleton_ne; [reflexivity | discriminate |].
    rewrite Hm. now apply generic_no_signature.
Qed.

(** C9, as the code has it.  An entity built without a creation time
    reads as created when the module was loaded: the default is the
    class attribute, and nothing in the construction consults a clock. *)
Theorem created_at_defaults_to_load_time (k : pyclass) (kwargs : list (string * value)) :
  In k entity_kinds →
  Forall (fun kw => plain_key k (fst kw) = true) kwargs →
  ¬ In "created_at" (map fst kwargs) →
  ∃ inst, construct k kwargs = Ok inst ∧
          getattr inst "created_at" = Ok (OData (VDateTime loaded_at)).
Proof.
  intros Hk Hp Hn.
  destruct (construct_plain k kwargs Hk Hp) as (l & Hl & _ & He).
  eexists. split; [exact He|].
  assert (class_lookup k "created_at" = Some (Data (VDateTime loaded_at))) as Hc
      by (each_kind Hk; reflexivity).
  unfold getattr, plain_getattr. simpl. rewrite Hc.
  rewrite lookup_insert_ne by discriminate.
  rewrite bind_kwargs_frame by assumption.
  now rewrite lookup_singleton_ne by discriminate.
Qed.

(** ** Tags *)

Lemma getattr_raw_content (self : instance) :
  getattr self "raw_content" = plain_getattr self "raw_content".
Proof.
  unfold getattr.
  assert (class_lookup (class_of self) "raw_content" ≠ Some TagsProperty) as Hn
      by (destruct (class_of self); vm_compute; discriminate).
  destruct (class_lookup (class_of self) "raw_content") as [[]|]; congruence.
Qed.

Lemma tags_of_text (self : instance) (text : string) :
  getattr self "raw_content" = Ok (OData (VStr text)) →
  tags self = Ok (list_to_set (map (strip "#") (List.filter (startswith "#") (split text)))).
Proof.
  rewrite getattr_raw_content. intros Hr. unfold tags. rewrite Hr. simpl.
  destruct (String.eqb_spec text "") as [->|Hne]; reflexivity.
Qed.

(** C6, as amended.  The tags of an entity are the tokens of its text
    (split at white space) that start with [#], each stripped of every
    [#] at either end; an empty text has no tags; and where no such
    token has a second [#] in front or one behind, this is the set of
    [#word] tokens without their [#] prefix. *)
Theorem tags_strip_hashes (self : instance) (text : string) :
  getattr self "raw_content" = Ok (OData (VStr text)) →
  ∃ T, tags self = Ok T ∧
    (∀ t, t ∈ T ↔ ∃ w, In w (split text) ∧ startswith "#" w = true ∧ t = strip "#" w) ∧
    (text = "" → T = ∅) ∧
    (Forall (fun w => startswith "#" w = true → strip "#" w = drop_first w) (split text) →
     T = tags_spec text).
Proof.
  intros Hr. eexists. split; [exact (tags_of_text self text Hr)|]. split; [|split].
  - intros t. rewrite elem_of_list_to_set, list_elem_of_In, in_map_iff. split.
    + intros (w & <- & Hw). apply filter_In in Hw as [Hin Hs]. eauto.
    + intros (w & Hin & Hs & ->). exists w. split; [reflexivity|]. now apply filter_In.
  - intros ->. reflexivity.
  - intros Hclean. unfold tags_spec. f_equal. apply map_ext_in.
    intros w Hw. apply filter_In in Hw as [Hin Hs].
    rewrite List.Forall_forall in Hclean. now apply Hclean.
Qed.

(** ** Validity of typed entities *)

Lemma text_field_eq (self : instance) (n x : string) :
  getattr self n = Ok (OData (VStr x)) → text_field self n = x.
Proof. intros Hx. unfold text_field. now rewrite Hx. Qed.

Lemma rule_accepts (k : pyclass) (d : gmap string value) (r : rule) :
  In k entity_kinds → well_typed (mkInstance k d) → In r (rules_of k) →
  (run_rule r (mkInstance k d) = Ok tt ↔ accepts r (mkInstance k d) = true).
Proof.
  intros Hk Hw Hr.
  each_kind Hk; vm_compute in Hr;
    repeat (destruct Hr as [<-|Hr]); try contradiction; simpl run_rule; unfold accepts.
  all: try (string_field Hw "guid" g Hg; rewrite (validate_guid_eq _ g Hg);
            rewrite (text_field_eq _ _ _ Hg);
            destruct (guid_too_short g); simpl; split; congruence).
  all: try (string_field Hw "handle" x Hx; unfold validate_handle; rewrite Hx;
            rewrite (text_field_eq _ _ _ Hx); simpl;
            destruct (email_is_valid x); simpl; unfold raise; split; congruence).
  all: try (string_field Hw "target_handle" x Hx; unfold validate_target_handle;
            rewrite Hx; rewrite (text_field_eq _ _ _ Hx); simpl;
            destruct (email_is_valid x); simpl; unfold raise; split; congruence).
  all: try (string_field Hw "email" x Hx; unfold validate_email; rewrite Hx;
            rewrite (text_field_eq _ _ _ Hx); simpl;
            destruct (String.eqb x ""); simpl; unfold raise; [split; congruence|];
            destruct (email_is_valid x); simpl; unfold raise; split; congruence).
  all: try (enum_field Hw "participation" "_participation_valid_values" x Hx He;
            unfold validate_participation; rewrite He;
            rewrite (text_field_eq _ _ _ Hx);
            match goal with |- context [if ?b then _ else _] => destruct b end;
            split; congruence).
  all: try (enum_field Hw "reaction" "_reaction_valid_values" x Hx He;
            unfold validate_reaction; rewrite He;
            rewrite (text_field_eq _ _ _ Hx);
            match goal with |- context [if ?b then _ else _] => destruct b end;
            split; congruence).
  all: try (enum_field Hw "relationship" "_relationship_valid_values" x Hx He;
            unfold validate_relationship; rewrite He;
            rewrite (text_field_eq _ _ _ Hx);
            match goal with |- context [if ?b then _ else _] => destruct b end;
            split; congruence).
Qed.

Lemma run_rules_Ok_iff (s : instance) (rs : list rule) :
  run_rules s rs = Ok tt ↔ ∀ r, In r rs → run_rule r s = Ok tt.
Proof.
  induction rs as [|r rs IH]; simpl.
  - split; [intros _ r [] | reflexivity].
  - destruct (run_rule r s) as [[]|e] eqn:Er; simpl.
    + rewrite IH. split; [intros Hrs r' [<-|Hr']; auto | intros Hrs r' Hr'; auto].
    + split; [discriminate|]. intros Hrs. specialize (Hrs r (or_introl eq_refl)). congruence.
Qed.

Lemma run_rules_first_error (s : instance) (rs : list rule) (e : exn) :
  run_rules s rs = Error e →
  ∃ before r after, rs = before ++ r :: after ∧
    (∀ r', In r' before → run_rule r' s = Ok tt) ∧ run_rule r s = Error e.
Proof.
  induction rs as [|r rs IH]; simpl; [discriminate|].
  destruct (run_rule r s) as [[]|e'] eqn:Er; simpl.
  - intros He. destruct (IH He) as (before & r0 & after & -> & Hb & Hr0).
    exists (r :: before), r0, after. split; [reflexivity|]. split; [|exact Hr0].
    intros r' [<-|Hr']; auto.
  - intros [= ->]. exists [], r, rs. split; [reflexivity|]. split; [intros r' []|exact Er].
Qed.

(** An entity built from typed fields is valid exactly when every rule
    of its kind accepts the values of its fields; otherwise [validate]
    raises the error of the first rule, in the order of [dir], that
    does not. *)
Theorem validate_accepts_iff (k : pyclass) (kwargs : list (string * value)) :
  In k entity_kinds →
  Forall (fun kw => field_kwarg k kw = true) kwargs →
  ∃ inst, construct k kwargs = Ok inst ∧
    (validate inst = Ok tt ↔ forallb (fun r => accepts r inst) (rules_of k) = true) ∧
    (∀ e, validate inst = Error e →
       ∃ before r after, rules_of k = before ++ r :: after ∧
         forallb (fun r' => accepts r' inst) before = true ∧
         accepts r inst = false ∧ run_rule r inst = Error e).
Proof.
  intros Hk Hf.
  destruct (construct_typed k kwargs Hk Hf) as (l & d & Hl & Hc & Hd & Hw).
  exists (mkInstance k d). split; [exact Hc|].
  rewrite (validate_typed k d l) by assumption. split.
  - rewrite run_rules_Ok_iff, forallb_forall. split; intros Hrs r Hr.
    + apply (rule_accepts k d r Hk Hw Hr). auto.
    + apply (rule_accepts k d r Hk Hw Hr). auto.
  - intros e He. destruct (run_rules_first_error _ _ _ He) as (before & r & after & Hrs & Hb & Hr).
    exists before, r, after. split; [exact Hrs|].
    assert (∀ r', In r' (before ++ r :: after) → In r' (rules_of k)) as Hin
        by (intros r'; now rewrite Hrs).
    split; [|split; [|exact Hr]].
    + apply forallb_forall. intros r' Hr'.
      apply (rule_accepts k d r' Hk Hw); [apply Hin, in_or_app; now left | auto].
    + destruct (accepts r (mkInstance k d)) eqn:Ea; [|reflexivity].
      apply (rule_accepts k d r Hk Hw) in Ea; [congruence|].
      apply Hin, in_or_app. right. now left.
Qed.

(** Every entity kind carries the handle rule, and the rule has no
    exemption for an empty handle: where the validator rejects the
    empty string, an entity that was given no handle does not
    validate. *)
Theorem unset_handle_fails_validation (k : pyclass) (kwargs : list (string * value)) :
  In k entity_kinds →
  Forall (fun kw => field_kwarg k kw = true) kwargs →
  ¬ In "handle" (map fst kwargs) →
  email_is_valid "" = false →
  ∃ inst, construct k kwargs = Ok inst ∧
    getattr inst "handle" = Ok (OData (VStr "")) ∧
    validate_handle inst = Error (InvalidField "handle" "Handle is not valid") ∧
    ∃ field msg, validate inst = Error (InvalidField field msg).
Proof.
  intros Hk Hf Hn Hv.
  assert (Forall (fun kw => plain_key k (fst kw) = true) kwargs) as Hp.
  { eapply Forall_impl; [exact Hf|]. intros kw. apply field_kwarg_plain. }
  destruct (construct_typed k kwargs Hk Hf) as (l & d & Hl & Hc & Hd & Hw).
  destruct (construct_plain k kwargs Hk Hp) as (l' & Hl' & _ & He).
  rewrite He in Hc. injection Hc as Hdict.
  assert (getattr (mkInstance k d) "handle" = Ok (OData (VStr ""))) as Hh.
  { assert (class_lookup k "handle" = Some (Data (VStr ""))) as Hcl
        by (each_kind Hk; reflexivity).
    unfold getattr, plain_getattr. simpl. rewrite Hcl, <- Hdict.
    rewrite lookup_insert_ne by discriminate.
    rewrite bind_kwargs_frame by assumption.
    now rewrite lookup_singleton_ne by discriminate. }
  assert (validate_handle (mkInstance k d)
          = Error (InvalidField "handle" "Handle is not valid")) as Hr.
  { unfold validate_handle. rewrite Hh. simpl. now rewrite Hv. }
  exists (mkInstance k d). split; [now rewrite He, Hdict|]. split; [exact Hh|].
  split; [exact Hr|].
  rewrite (validate_typed k d l) by assumption.
  eapply (run_rules_fails _ _ RHandle); [| |exact Hr].
  - intros r. now apply rule_outcome.
  - each_kind Hk; vm_compute; tauto.
Qed.

(** ** Defaults of the class bodies *)

(** A field no keyword supplied reads as the class declares it. *)
Lemma unset_field_reads_default (k : pyclass) (kwargs : list (string * value))
    (n : string) (d0 : value) :
  In k entity_kinds →
  Forall (fun kw => plain_key k (fst kw) = true) kwargs →
  ¬ In n (map fst kwargs) → n ≠ "_required" →
  class_lookup k n = Some (Data d0) →
  ∃ inst, construct k kwargs = Ok inst ∧ getattr inst n = Ok (OData d0).
Proof.
  intros Hk Hp Hn Hne Hc.
  destruct (construct_plain k kwargs Hk Hp) as (l & Hl & _ & He).
  eexists. split; [exact He|].
  unfold getattr, plain_getattr. simpl. rewrite Hc.
  rewrite lookup_insert_ne by congruence.
  rewrite bind_kwargs_frame by assumption.
  now rewrite lookup_singleton_ne by congruence.
Qed.

Lemma typed_plain (k : pyclass) (kwargs : list (string * value)) :
  Forall (fun kw => field_kwarg k kw = true) kwargs →
  Forall (fun kw => plain_key k (fst kw) = true) kwargs.
Proof. intros Hf. eapply Forall_impl; [exact Hf|]. intros kw. apply field_kwarg_plain. Qed.

(** The participation kind of a Comment or a Reaction is a default of
    the class, not a fixed value: left out, it is ["comment"] or
    ["reaction"] and passes its rule; supplied, any of the three kinds
    passes and every other string is refused. *)
Theorem participation_defaults_to_the_kind (k : pyclass) (kwargs : list (string * value)) :
  In k [Comment; Reaction; DiasporaComment; DiasporaLike] →
  Forall (fun kw => field_kwarg k kw = true) kwargs →
  ∃ inst x, construct k kwargs = Ok inst ∧
    getattr inst "participation" = Ok (OData (VStr x)) ∧
    (validate_participation inst = Ok tt
     ↔ x = "reaction" ∨ x = "subscription" ∨ x = "comment") ∧
    (¬ In "participation" (map fst kwargs) →
       x = (if bool_decide (Comment ∈ mro k) then "comment" else "reaction"))
    ∧ (∀ y, NoDup (map fst kwargs) → In ("participation", VStr y) kwargs → x = y).
Proof.
  intros Hk Hf.
  assert (In k entity_kinds) as Hk'.
  { simpl in Hk. unfold entity_kinds, generic_kinds, protocol_classes. simpl. tauto. }
  destruct (construct_typed k kwargs Hk' Hf) as (l & d & Hl & Hc & Hd & Hw).
  destruct (construct_binds_keywords k kwargs Hk' (typed_plain k kwargs Hf))
    as (inst & Hc' & Hset & _).
  rewrite Hc in Hc'. injection Hc' as <-.
  assert (∃ x, getattr (mkInstance k d) "participation" = Ok (OData (VStr x)) ∧
               validate_participation (mkInstance k d) =
               (if mem_string x ["reaction"; "subscription"; "comment"] then Ok tt
                else Error (InvalidField "participation"
                       "participation should be one of: reaction, subscription, comment")))
    as (x & Hx & He).
  { simpl in Hk. destruct Hk as [<-|[<-|[<-|[<-|[]]]]];
      enum_field Hw "participation" "_participation_valid_values" x Hx He;
      (exists x; split; [exact Hx | exact He]). }
  exists (mkInstance k d), x. split; [exact Hc|]. split; [exact Hx|]. split; [|split].
  - rewrite He. unfold mem_string. simpl.
    destruct (String.eqb_spec x "reaction"); [split; auto|].
    destruct (String.eqb_spec x "subscription"); [split; auto|].
    destruct (String.eqb_spec x "comment"); [split; auto|].
    simpl. split; [discriminate | intuition].
  - intros Hn.
    assert (∃ d0, class_lookup k "participation" = Some (Data (VStr d0)) ∧
                  d0 = (if bool_decide (Comment ∈ mro k) then "comment" else "reaction"))
      as (d0 & Hd0 & ->).
    { simpl in Hk. destruct Hk as [<-|[<-|[<-|[<-|[]]]]];
        (eexists; split; [vm_compute; reflexivity | vm_compute; reflexivity]). }
    destruct (unset_field_reads_default k kwargs "participation" _ Hk'
                (typed_plain k kwargs Hf) Hn ltac:(discriminate) Hd0) as (inst & Hi & Hg).
    rewrite Hc in Hi. injection Hi as <-.
    pose proof (eq_trans (eq_sym Hx) Hg) as E. now injection E.
  - intros y Hnd Hy.
    assert (is_Some (class_lookup k "participation")) as Hsome.
    { simpl in Hk. destruct Hk as [<-|[<-|[<-|[<-|[]]]]]; eexists; vm_compute; reflexivity. }
    specialize (Hset "participation" (VStr y) Hnd Hy Hsome).
    pose proof (eq_trans (eq_sym Hx) Hset) as E. now injection E.
Qed.

(** The protocol classes redeclare the enumerated kind with a value of
    the domain: a Diaspora like built without a reaction passes the
    reaction rule and a Diaspora request built without a relationship
    passes the relationship rule, while the generic Reaction and
    Relationship, whose default is empty, are refused by theirs. *)
Theorem protocol_defaults_satisfy_their_rules (k : pyclass) (kwargs : list (string * value)) :
  In k [Reaction; DiasporaLike; Relationship; DiasporaRequest] →
  Forall (fun kw => field_kwarg k kw = true) kwargs →
  ¬ In "reaction" (map fst kwargs) → ¬ In "relationship" (map fst kwargs) →
  ∃ inst, construct k kwargs = Ok inst ∧
    (k = DiasporaLike → getattr inst "reaction" = Ok (OData (VStr "like")) ∧
                         validate_reaction inst = Ok tt) ∧
    (k = Reaction → getattr inst "reaction" = Ok (OData (VStr "")) ∧
                    validate_reaction inst =
                    Error (InvalidField "reaction" "reaction should be one of: like")) ∧
    (k = DiasporaRequest → getattr inst "relationship" = Ok (OData (VStr "sharing")) ∧
                            validate_relationship inst = Ok tt) ∧
    (k = Relationship → getattr inst "relationship" = Ok (OData (VStr "")) ∧
                        validate_relationship inst =
                        Error (InvalidField "relationship"
                          "relationship should be one of: sharing, following, ignoring, blocking")).
Proof.
  intros Hk Hf Hn1 Hn2.
  assert (In k entity_kinds) as Hk'.
  { simpl in Hk. unfold entity_kinds, generic_kinds, protocol_classes. simpl. tauto. }
  destruct (construct_typed k kwargs Hk' Hf) as (l & d & Hl & Hc & Hd & Hw).
  exists (mkInstance k d). split; [exact Hc|].
  assert (∀ n d0, ¬ In n (map fst kwargs) → n ≠ "_required" →
            class_lookup k n = Some (Data d0) →
            getattr (mkInstance k d) n = Ok (OData d0)) as Hdef.
  { intros n d0 Hn Hne Hcl.
    destruct (unset_field_reads_default k kwargs n d0 Hk' (typed_plain k kwargs Hf)
                Hn Hne Hcl) as (inst & Hi & Hg).
    rewrite Hc in Hi. now injection Hi as <-. }
  split; [|split; [|split]]; intros ->; split.
  - apply Hdef; [assumption | discriminate | vm_compute; reflexivity].
  - enum_field Hw "reaction" "_reaction_valid_values" x Hx He.
    rewrite (Hdef "reaction" (VStr "like")) in Hx by first [assumption | discriminate | vm_compute; reflexivity].
    injection Hx as <-. exact He.
  - apply Hdef; [assumption | discriminate | vm_compute; reflexivity].
  - enum_field Hw "reaction" "_reaction_valid_values" x Hx He.
    rewrite (Hdef "reaction" (VStr "")) in Hx by first [assumption | discriminate | vm_compute; reflexivity].
    injection Hx as <-. exact He.
  - apply Hdef; [assumption | discriminate | vm_compute; reflexivity].
  - enum_field Hw "relationship" "_relationship_valid_values" x Hx He.
    rewrite (Hdef "relationship" (VStr "sharing")) in Hx
      by first [assumption | discriminate | vm_compute; reflexivity].
    injection Hx as <-. exact He.
  - apply Hdef; [assumption | discriminate | vm_compute; reflexivity].
  - enum_field Hw "relationship" "_relationship_valid_values" x Hx He.
    rewrite (Hdef "relationship" (VStr "")) in Hx
      by first [assumption | discriminate | vm_compute; reflexivity].
    injection Hx as <-. exact He.
Qed.

(** ** What the remaining serialisers render *)

(** A Diaspora request renders its two handles and nothing else: the
    relationship kind and every other field leave no trace in the
    element. *)
Theorem request_renders_its_handles (kwargs : list (string * value)) :
  Forall (fun kw => field_kwarg DiasporaRequest kw = true) kwargs →
  ∃ inst sender recipient, construct DiasporaRequest kwargs = Ok inst ∧
    getattr inst "handle" = Ok (OData (VStr sender)) ∧
    getattr inst "target_handle" = Ok (OData (VStr recipient)) ∧
    to_xml inst = Ok (mkElement "request" ""
                        [leaf "sender_handle" sender; leaf "recipient_handle" recipient]).
Proof.
  intros Hf.
  destruct (construct_typed DiasporaRequest kwargs) as (l & d & Hl & Hc & Hd & Hw);
    [vm_compute; tauto | exact Hf |].
  string_field Hw "handle" sender Hs. string_field Hw "target_handle" recipient Hr.
  exists (mkInstance DiasporaRequest d), sender, recipient.
  split; [exact Hc|]. split; [exact Hs|]. split; [exact Hr|].
  unfold to_xml, DiasporaRequest_to_xml. cbn [class_of].
  rewrite Hs, bind_Ok_l. cbv beta. rewrite Hr, bind_Ok_l. reflexivity.
Qed.

(** A Diaspora like renders its guid, the guid of its target, the
    author signature and the handle; [target_type] is always ["Post"]
    and [positive] always ["true"], whatever the reaction and the
    participation of the entity are. *)
Theorem like_renders_a_positive_post_reaction (kwargs : list (string * value)) :
  Forall (fun kw => field_kwarg DiasporaLike kw = true) kwargs →
  ∃ inst guid parent signature handle, construct DiasporaLike kwargs = Ok inst ∧
    getattr inst "guid" = Ok (OData (VStr guid)) ∧
    getattr inst "target_guid" = Ok (OData (VStr parent)) ∧
    getattr inst "author_signature" = Ok (OData (VStr signature)) ∧
    getattr inst "handle" = Ok (OData (VStr handle)) ∧
    to_xml inst = Ok (mkElement "like" ""
                        [leaf "target_type" "Post"; leaf "guid" guid;
                         leaf "parent_guid" parent; leaf "author_signature" signature;
                         leaf "positive" "true"; leaf "diaspora_handle" handle]).
Proof.
  intros Hf.
  destruct (construct_typed DiasporaLike kwargs) as (l & d & Hl & Hc & Hd & Hw);
    [vm_compute; tauto | exact Hf |].
  string_field Hw "guid" guid Hg. string_field Hw "target_guid" parent Hp.
  string_field Hw "author_signature" signature Hs. string_field Hw "handle" handle Hh.
  exists (mkInstance DiasporaLike d), guid, parent, signature, handle.
  split; [exact Hc|]. repeat (split; [assumption|]).
  unfold to_xml, DiasporaLike_to_xml. cbn [class_of].
  rewrite Hg, bind_Ok_l. cbv beta. rewrite Hp, bind_Ok_l. cbv beta.
  rewrite Hs, bind_Ok_l. cbv beta. rewrite Hh, bind_Ok_l. reflexivity.
Qed.

Lemma subscript_missing (urls : list (string * string)) (key : string) :
  mem_string key (map fst urls) = false →
  subscript (OData (VDict urls)) key = Error (KeyError key).
Proof.
  unfold subscript, mem_string. induction urls as [|[k0 s0] urls IH]; simpl; [reflexivity|].
  destruct (String.eqb key k0); simpl; [discriminate | exact IH].
Qed.

Lemma mem_string_true_or_false (key : string) (l : list string) :
  negb (mem_string key l) = false → mem_string key l = true.
Proof. destruct (mem_string key l); [reflexivity | discriminate]. Qed.

(** Serialising a Diaspora profile whose [image_urls] dictionary lacks
    one of the three sizes raises [KeyError] for the first size
    missing, in the order [large], [small], [medium], whatever the
    other fields hold. *)
Theorem profile_without_image_size_raises (d : gmap string value)
    (urls : list (string * string)) (key : string) :
  getattr (mkInstance DiasporaProfile d) "image_urls" = Ok (OData (VDict urls)) →
  missing_size urls = Some key →
  to_xml (mkInstance DiasporaProfile d) = Error (KeyError key).
Proof.
  intros Hu Hm. unfold to_xml, DiasporaProfile_to_xml. cbn [class_of].
  destruct (getattr_data (mkInstance DiasporaProfile d) "handle" (VStr "") eq_refl) as [h ->].
  rewrite bind_Ok_l. cbv beta.
  destruct (getattr_data (mkInstance DiasporaProfile d) "name" (VStr "") eq_refl) as [n ->].
  rewrite bind_Ok_l. cbv beta. rewrite Hu, bind_Ok_l. cbv beta.
  unfold missing_size in Hm. cbn [List.find] in Hm.
  destruct (negb (mem_string "large" (map fst urls))) eqn:El.
  { injection Hm as <-. apply negb_true_iff in El.
    now rewrite (subscript_missing urls "large" El). }
  apply mem_string_true_or_false in El.
  destruct (subscript_typed urls "large" El) as [large ->]. rewrite bind_Ok_l. cbv beta.
  destruct (negb (mem_string "small" (map fst urls))) eqn:Es.
  { injection Hm as <-. apply negb_true_iff in Es.
    now rewrite (subscript_missing urls "small" Es). }
  apply mem_string_true_or_false in Es.
  destruct (subscript_typed urls "small" Es) as [small ->]. rewrite bind_Ok_l. cbv beta.
  destruct (negb (mem_string "medium" (map fst urls))) eqn:Em; [|discriminate].
  injection Hm as <-. apply negb_true_iff in Em.
  now rewrite (subscript_missing urls "medium" Em).
Qed.

(** ** Splitting, stripping and tags *)

Lemma split_go_word (w : string) (cur : list ascii) :
  has_space w = false → (cur ≠ [] ∨ w ≠ "") →
  split_go cur w = [string_of_list_ascii (rev cur ++ list_ascii_of_string w)].
Proof.
  revert cur. induction w as [|a w IH]; intros cur Hs Hne; simpl.
  - destruct Hne as [Hne|Hne]; [|contradiction].
    rewrite app_nil_r. destruct cur; [contradiction | reflexivity].
  - simpl in Hs. apply orb_false_iff in Hs as [Ha Hs]. rewrite Ha.
    rewrite IH by (try assumption; left; discriminate).
    simpl. now rewrite <- app_assoc.
Qed.

Lemma split_go_then (w rest : string) (cur : list ascii) :
  has_space w = false →
  split_go cur (w ++ rest) = split_go (rev (list_ascii_of_string w) ++ cur) rest.
Proof.
  revert cur. induction w as [|a w IH]; intros cur Hs; simpl; [reflexivity|].
  simpl in Hs. apply orb_false_iff in Hs as [Ha Hs]. rewrite Ha.
  rewrite IH by assumption. simpl. now rewrite <- app_assoc.
Qed.

Lemma split_go_join (ws : list string) (w : string) (cur : list ascii) :
  Forall (fun w => has_space w = false ∧ w ≠ "") (w :: ws) →
  split_go cur (join " " (w :: ws))
  = string_of_list_ascii (rev cur ++ list_ascii_of_string w) :: ws.
Proof.
  revert w cur. induction ws as [|w2 ws IH]; intros w cur Hok.
  - apply Forall_cons in Hok as [[Hs Hne] _]. simpl.
    apply split_go_word; [exact Hs | now right].
  - apply Forall_cons in Hok as [[Hs Hne] Hok].
    change (join " " (w :: w2 :: ws)) with (w ++ String " " (join " " (w2 :: ws)))%string.
    rewrite split_go_then by exact Hs.
    destruct w as [|a w]; [contradiction|].
    cbn [split_go]. change (is_space " ") with true. cbv iota.
    destruct (rev (list_ascii_of_string (String a w)) ++ cur) as [|b l] eqn:El.
    { apply app_eq_nil in El as [El _]. simpl in El.
      now apply app_eq_nil in El as [_ El]. }
    rewrite <- El, rev_app_distr, rev_involutive.
    rewrite (IH w2 [] Hok). simpl. now rewrite string_of_list_ascii_of_string.
Qed.

(** Splitting what [" ".join] made of words gives the words back. *)
Lemma split_join (ws : list string) :
  Forall (fun w => has_space w = false ∧ w ≠ "") ws → split (join " " ws) = ws.
Proof.
  destruct ws as [|w ws]; intros Hok; [reflexivity|].
  unfold split. rewrite split_go_join by exact Hok. simpl.
  now rewrite string_of_list_ascii_of_string.
Qed.

Lemma hash_token (t : string) :
  startswith "#" ("#" ++ t) = true ∧ strip "#" ("#" ++ t) = strip "#" t.
Proof. split; [now destruct t | reflexivity]. Qed.

(** The tag string of a list of clean tags reads back, as the text of
    an entity, as the set of these tags. *)
Lemma tags_of_tag_string (self : instance) (l : list string) :
  Forall clean_tag l →
  getattr self "raw_content"
    = Ok (OData (VStr (join " " (map (fun tag => ("#" ++ tag)%string) l)))) →
  tags self = Ok (list_to_set l).
Proof.
  intros Hclean Hr. rewrite (tags_of_text self _ Hr). clear Hr. f_equal. f_equal.
  rewrite split_join.
  - induction Hclean as [|t l [_ Ht] _ IH]; [reflexivity|].
    cbn [map]. destruct (hash_token t) as [Hs Hstrip].
    cbn [List.filter]. rewrite Hs. cbn [map]. rewrite Hstrip, Ht. now rewrite IH.
  - induction Hclean as [|t l [Hsp _] _ IH]; constructor; [|exact IH].
    split; [|discriminate]. simpl. exact Hsp.
Qed.

(** *** No tag holds white space or a hash at either end *)

Lemma has_space_of_list (l : list ascii) :
  has_space (string_of_list_ascii l) = existsb is_space l.
Proof. induction l as [|a l IH]; simpl; [reflexivity | now rewrite IH]. Qed.

Lemma existsb_rev {A} (f : A → bool) (l : list A) :
  existsb f (rev l) = existsb f l.
Proof.
  induction l as [|a l IH]; simpl; [reflexivity|].
  rewrite existsb_app, IH. simpl. rewrite orb_false_r. apply orb_comm.
Qed.

Lemma split_go_no_space (s : string) (cur : list ascii) :
  existsb is_space cur = false →
  Forall (fun w => has_space w = false) (split_go cur s).
Proof.
  revert cur. induction s as [|a s IH]; intros cur Hc; simpl.
  - destruct cur; constructor; [|constructor].
    rewrite has_space_of_list, existsb_rev. exact Hc.
  - destruct (is_space a) eqn:Ea.
    + destruct cur; [now apply IH|]. constructor; [|now apply IH].
      rewrite has_space_of_list, existsb_rev. exact Hc.
    + apply IH. simpl. now rewrite Ea.
Qed.

Lemma lstrip_no_space (c : ascii) (w : string) :
  has_space w = false → has_space (lstrip c w) = false.
Proof.
  induction w as [|a w IH]; simpl; [reflexivity|]. intros Hs.
  destruct (Ascii.eqb a c); [|exact Hs].
  apply IH. now apply orb_false_iff in Hs as [_ Hs].
Qed.

Lemma rstrip_no_space (c : ascii) (w : string) :
  has_space w = false → has_space (rstrip c w) = false.
Proof.
  induction w as [|a w IH]; simpl; [reflexivity|]. intros Hs.
  apply orb_false_iff in Hs as [Ha Hs]. specialize (IH Hs).
  destruct (rstrip c w) as [|b r].
  - destruct (Ascii.eqb a c); simpl; [reflexivity | now rewrite Ha].
  - simpl in *. now rewrite Ha.
Qed.

Lemma rstrip_cons (c a : ascii) (s : string) :
  rstrip c (String a s)
  = match rstrip c s with
    | EmptyString => if Ascii.eqb a c then EmptyString else String a EmptyString
    | r => String a r
    end.
Proof. reflexivity. Qed.

Lemma rstrip_idempotent (c : ascii) (w : string) :
  rstrip c (rstrip c w) = rstrip c w.
Proof.
  induction w as [|a w IH]; simpl; [reflexivity|].
  destruct (rstrip c w) as [|b r] eqn:Er.
  - destruct (Ascii.eqb a c) eqn:Ea; simpl; [reflexivity | now rewrite Ea].
  - rewrite (rstrip_cons c a (String b r)), IH. reflexivity.
Qed.

Lemma lstrip_no_head (c : ascii) (w : string) : no_head c (lstrip c w).
Proof.
  induction w as [|a w IH]; simpl; [exact I|].
  destruct (Ascii.eqb a c) eqn:Ea; [exact IH | exact Ea].
Qed.

Lemma rstrip_keeps_no_head (c : ascii) (w : string) :
  no_head c w → no_head c (rstrip c w) ∧ lstrip c (rstrip c w) = rstrip c w.
Proof.
  destruct w as [|a w]; simpl; [auto|]. intros Ha.
  destruct (rstrip c w) as [|b r]; rewrite ?Ha; simpl; rewrite Ha; auto.
Qed.

Lemma strip_idempotent (c : ascii) (w : string) :
  strip c (strip c w) = strip c w.
Proof.
  unfold strip.
  destruct (rstrip_keeps_no_head c (lstrip c w) (lstrip_no_head c w)) as [_ ->].
  apply rstrip_idempotent.
Qed.

(** The tags of an entity are clean: not one of them holds white
    space, and not one begins or ends with [#]. *)
Theorem tags_are_clean (self : instance) (T : gset string) :
  tags self = Ok T → ∀ t, t ∈ T → clean_tag t.
Proof.
  unfold tags. destruct (plain_getattr self "raw_content") as [o|e]; simpl; [|discriminate].
  destruct (negb (truthy_obj o)).
  { intros [= <-] t Ht. now apply not_elem_of_empty in Ht. }
  destruct o as [[]| | |]; try discriminate.
  intros [= <-] t Ht.
  rewrite elem_of_list_to_set, list_elem_of_In, in_map_iff in Ht.
  destruct Ht as (w & <- & Hw). apply filter_In in Hw as [Hin _].
  split; [|apply strip_idempotent].
  unfold strip. apply rstrip_no_space, lstrip_no_space.
  pose proof (split_go_no_space s [] eq_refl) as Hall.
  rewrite List.Forall_forall in Hall. now apply Hall.
Qed.

(** ** The tag string of a profile *)

(** The tag string a Diaspora profile renders, the last element of
    its tree, is its tags joined by spaces, each behind a [#]; where
    the tags are clean, an entity with this string as its text has
    exactly these tags. *)
Theorem profile_tag_string_reads_back (kwargs : list (string * value)) (l : list string) :
  Forall (fun kw => field_kwarg DiasporaProfile kw = true) kwargs →
  NoDup (map fst kwargs) → In ("tag_list", VList l) kwargs →
  ∃ inst tree s, construct DiasporaProfile kwargs = Ok inst ∧
    to_xml inst = Ok tree ∧
    last (children_of tree) = Some (leaf "tag_string" s) ∧
    s = join " " (map (fun tag => ("#" ++ tag)%string) l) ∧
    (Forall clean_tag l →
     ∀ self, getattr self "raw_content" = Ok (OData (VStr s)) →
             tags self = Ok (list_to_set l)).
Proof.
  intros Hf Hnd Hin.
  assert (In DiasporaProfile entity_kinds) as Hk by (vm_compute; tauto).
  destruct (construct_typed DiasporaProfile kwargs Hk Hf) as (r & d & Hr & Hc & Hd & Hw).
  destruct (construct_binds_keywords DiasporaProfile kwargs Hk
              (typed_plain DiasporaProfile kwargs Hf)) as (inst & Hc' & Hset & _).
  rewrite Hc in Hc'. injection Hc' as <-.
  specialize (Hset "tag_list" (VList l) Hnd Hin ltac:(eexists; vm_compute; reflexivity)).
  remember (join " " (map (fun tag => ("#" ++ tag)%string) l)) as s eqn:Es.
  assert (∃ tree, to_xml (mkInstance DiasporaProfile d) = Ok tree ∧
                  last (children_of tree) = Some (leaf "tag_string" s)) as (tree & Ht & Hlast).
  { unfold to_xml, DiasporaProfile_to_xml. cbn [class_of].
    string_attr Hw "handle". string_attr Hw "name".
    typed_attr Hw "image_urls" Hurls. cbn in Hurls.
    apply andb_true_iff in Hurls as [Hsmall Hurls].
    apply andb_true_iff in Hurls as [Hmedium Hurls].
    apply andb_true_iff in Hurls as [Hlarge _].
    destruct (subscript_typed _ _ Hlarge) as [large ->]. rewrite bind_Ok_l. cbv beta.
    destruct (subscript_typed _ _ Hsmall) as [small ->]. rewrite bind_Ok_l. cbv beta.
    destruct (subscript_typed _ _ Hmedium) as [medium ->]. rewrite bind_Ok_l. cbv beta.
    string_attr Hw "gender". string_attr Hw "raw_content". string_attr Hw "location".
    string_attr Hw "public". string_attr Hw "nsfw".
    rewrite Hset, bind_Ok_l. cbv beta. cbn [iter_obj py_iter].
    rewrite bind_Ok_l. cbv beta. rewrite <- Es.
    vm_compute. eexists. split; reflexivity. }
  exists (mkInstance DiasporaProfile d), tree, s.
  split; [exact Hc|]. split; [exact Ht|]. split; [exact Hlast|]. split; [reflexivity|].
  intros Hclean self Hself. subst s. now apply tags_of_tag_string.
Qed.

(** ** Keywords that construction cannot bind *)

Lemma set_kwargs_app (l1 l2 : list (string * value)) (s : instance) :
  set_kwargs (l1 ++ l2) s = (s' ← set_kwargs l1 s; set_kwargs l2 s').
Proof.
  revert s. induction l1 as [|[key v] l1 IH]; intros s; simpl; [reflexivity|].
  destruct (hasattr s key) as [b|e]; simpl; [|reflexivity].
  destruct (if b then setattr s key v else Ok s) as [s1|e]; simpl; [apply IH | reflexivity].
Qed.

(** An error of [BaseEntity.__init__] passes through every
    [__init__] that called it by [super()]. *)
Lemma run_init_error (chain : list pyclass) (kwargs : list (string * value))
    (s : instance) (e : exn) :
  reaches_base chain = true →
  BaseEntity_init kwargs s = Error e → run_init chain kwargs s = Error e.
Proof.
  intros Hb He. induction chain as [|c chain IH]; simpl in *; [discriminate|].
  destruct (own_init c) as [| | |after]; try discriminate; auto.
  now rewrite IH.
Qed.

Lemma singleton_required_typed (k : pyclass) :
  well_typed (mkInstance k {["_required" := VList []]}).
Proof.
  intros n v Hn. simpl in Hn. apply lookup_singleton_Some in Hn as [<- _]. now left.
Qed.

(** The [tags] keyword is refused on every kind that has the property:
    [hasattr] finds the property, and [setattr] cannot bind it because
    it has no setter.  Keywords that follow are never looked at. *)
Theorem tags_keyword_is_refused (k : pyclass) (before after : list (string * value))
    (v : value) :
  In k entity_kinds →
  class_lookup k "tags" = Some TagsProperty →
  Forall (fun kw => field_kwarg k kw = true) before →
  construct k (before ++ ("tags", v) :: after)
  = Error (AttributeError "can't set attribute").
Proof.
  intros Hk Ht Hf. unfold construct.
  apply run_init_error; [now apply entity_reaches_base|].
  unfold BaseEntity_init.
  rewrite setattr_Ok by (try reflexivity; apply required_no_property).
  rewrite bind_Ok_l. cbv beta. cbn [class_of dict_of].
  rewrite insert_empty, set_kwargs_app.
  rewrite (set_kwargs_bind k before) by now apply typed_plain.
  rewrite bind_Ok_l. cbv beta. cbn [set_kwargs].
  assert (well_typed (mkInstance k (bind_kwargs k before {["_required" := VList []]}))) as Hw
      by (apply bind_kwargs_typed; [exact Hf | apply singleton_required_typed]).
  destruct (tags_total k _ Hw (tags_needs_raw_content k "tags" Hk Ht)) as [t Htags].
  unfold hasattr, getattr. cbn [class_of]. rewrite Ht, Htags.
  change (reserved "tags") with false. cbv iota. simpl.
  unfold setattr. cbn [class_of]. rewrite Ht. reflexivity.
Qed.

Lemma run_init_ext (chain : list pyclass) (kw1 kw2 : list (string * value)) (s : instance) :
  reaches_base chain = true →
  BaseEntity_init kw1 s = BaseEntity_init kw2 s →
  run_init chain kw1 s = run_init chain kw2 s.
Proof.
  intros Hb He. induction chain as [|c chain IH]; simpl in *; [discriminate|].
  destruct (own_init c) as [| | |after]; try discriminate; auto.
  now rewrite IH.
Qed.

(** Where the text of the entity is a true value that is no string,
    reading the property raises [AttributeError], [hasattr] answers no,
    and the [tags] keyword is passed over like an unknown name. *)
Theorem tags_keyword_is_skipped_over_odd_text (k : pyclass)
    (before after : list (string * value)) (w v : value) :
  In k entity_kinds →
  class_lookup k "tags" = Some TagsProperty →
  Forall (fun kw => plain_key k (fst kw) = true) before →
  NoDup (map fst before) → In ("raw_content", w) before →
  truthy w = true → (∀ s, w ≠ VStr s) →
  construct k (before ++ ("tags", v) :: after) = construct k (before ++ after).
Proof.
  intros Hk Ht Hp Hnd Hin Hw Hns. unfold construct.
  apply run_init_ext; [now apply entity_reaches_base|].
  unfold BaseEntity_init.
  rewrite setattr_Ok by (try reflexivity; apply required_no_property).
  rewrite !bind_Ok_l. cbv beta. cbn [class_of dict_of].
  rewrite !set_kwargs_app.
  rewrite (set_kwargs_bind k before) by exact Hp.
  rewrite !bind_Ok_l. cbv beta. cbn [set_kwargs].
  assert (hasattr (mkInstance k (bind_kwargs k before (<["_required" := VList []]> ∅))) "tags"
          = Ok false) as ->; [|reflexivity].
  unfold hasattr, getattr, tags, plain_getattr. cbn [class_of dict_of]. rewrite Ht.
  rewrite (bind_kwargs_bound k before _ "raw_content" w Hnd Hin)
    by (rewrite (tags_needs_raw_content k "tags" Hk Ht); eauto).
  change (reserved "tags") with false. cbv iota. rewrite bind_Ok_l. cbv beta.
  cbn [truthy_obj]. rewrite Hw. cbn [negb].
  destruct w; try reflexivity. now destruct (Hns s).
Qed.

(** ** The [_required] keyword *)

Lemma typed_no_required (k : pyclass) (kwargs : list (string * value)) :
  Forall (fun kw => field_kwarg k kw = true) kwargs →
  ¬ In "_required" (map fst kwargs).
Proof.
  intros Hf Hin. apply in_map_iff in Hin as ([key v] & Hkey & Hin). simpl in Hkey. subst key.
  rewrite List.Forall_forall in Hf. apply Hf, field_kwarg_plain in Hin. simpl in Hin.
  apply plain_key_inv in Hin as (_ & Hne & _). now apply Hne.
Qed.

Lemma insert_required_typed (k : pyclass) (d : gmap string value) (v : value) :
  well_typed (mkInstance k d) → well_typed (mkInstance k (<["_required" := v]> d)).
Proof.
  intros Hw n w. simpl. destruct (decide (n = "_required")) as [->|Hne]; [now left|].
  rewrite lookup_insert_ne by congruence. apply Hw.
Qed.

(** [__init__] along a chain that reaches [BaseEntity.__init__], when
    the keyword arguments have left a list in [_required]. *)
Lemma run_init_seeded (chain : list pyclass) (kwargs : list (string * value))
    (s i0 : instance) (start : list string) :
  reaches_base chain = true →
  BaseEntity_init kwargs s = Ok i0 →
  dict_of i0 !! "_required" = Some (VList start) →
  run_init chain kwargs s =
  (l ← required_from start chain;
   Ok (mkInstance (class_of i0) (<["_required" := VList l]> (dict_of i0)))).
Proof.
  intros Hb Hi Hd. induction chain as [|c chain IH]; simpl in *; [discriminate|].
  destruct (own_init c) as [| | |[names|name]] eqn:Ec; try discriminate.
  - auto.
  - rewrite Hi. simpl. destruct i0 as [c0 d0]; simpl in *. now rewrite insert_id.
  - rewrite IH by assumption.
    destruct (required_from start chain) as [l|e]; simpl; [|reflexivity].
    rewrite (iadd_required_Ok _ _ l) by apply lookup_insert_eq.
    now rewrite insert_insert_eq.
  - rewrite IH by assumption.
    destruct (required_from start chain) as [l|e]; simpl; [|reflexivity].
    rewrite (remove_required_eq _ _ l) by apply lookup_insert_eq.
    destruct (mem_string name l); simpl; [|reflexivity].
    now rewrite insert_insert_eq.
Qed.

(** [validate] on a typed instance with any list in [_required]: the
    rules, then the test that every required name is among the public
    names of the class. *)
Lemma validate_seeded (k : pyclass) (d : gmap string value) (l : list string) :
  In k entity_kinds → well_typed (mkInstance k d) →
  d !! "_required" = Some (VList l) →
  validate (mkInstance k d)
  = (_ ← run_rules (mkInstance k d) (rules_of k);
     if forallb (fun r => mem_string r (public_names k)) l then Ok tt
     else Error (MissingRequired l)).
Proof.
  intros Hk Hw Hd. unfold validate.
  rewrite dir_of_class by eauto using entity_names_sorted, well_typed_keys.
  rewrite visit_typed by (try assumption; intros n; apply In_sort_dedup).
  fold (rules_of k). fold (public_names k).
  destruct (run_rules (mkInstance k d) (rules_of k)) as [[]|e]; simpl; [|reflexivity].
  rewrite (getattr_dict _ _ (VList l)) by (try exact Hd; apply required_no_property).
  reflexivity.
Qed.

Lemma mem_string_In (x : string) (l : list string) : mem_string x l = true ↔ In x l.
Proof.
  unfold mem_string. rewrite existsb_exists. split.
  - intros (y & Hy & E). apply String.eqb_eq in E. now subst.
  - intros Hx. exists x. split; [exact Hx | apply String.eqb_refl].
Qed.

Lemma In_remove_first (x n : string) (l : list string) :
  In n (remove_first x l) → In n l.
Proof.
  induction l as [|y l IH]; simpl; [tauto|].
  destruct (String.eqb x y); simpl; tauto.
Qed.

Lemma In_remove_first_other (x n : string) (l : list string) :
  In n l → n ≠ x → In n (remove_first x l).
Proof.
  induction l as [|y l IH]; simpl; [tauto|]. intros [->|Hn] Hne.
  - destruct (String.eqb_spec x n); [congruence | now left].
  - destruct (String.eqb x y); [exact Hn | right; auto].
Qed.

Lemma remove_first_app (x : string) (l1 l2 : list string) :
  remove_first x (l1 ++ l2)
  = if mem_string x l1 then remove_first x l1 ++ l2 else l1 ++ remove_first x l2.
Proof.
  unfold mem_string. induction l1 as [|y l1 IH]; simpl; [reflexivity|].
  destruct (String.eqb x y); simpl; [reflexivity|].
  rewrite IH. now destruct (existsb (String.eqb x) l1).
Qed.

(** The names the keyword gives come first; the units of the kind add
    theirs as they do without it. *)
Lemma entity_required_from (k : pyclass) (names : list string) :
  In k entity_kinds →
  ∃ required l, required_from names (mro k) = Ok required ∧
    required_along (mro k) = Ok l ∧
    ∀ n, In n required ↔ In n names ∨ In n l.
Proof.
  intros Hk.
  assert (∀ l0, ∃ required,
            (if mem_string "guid" (names ++ "guid" :: l0)
             then Ok (remove_first "guid" (names ++ "guid" :: l0))
             else raise (ValueError "list.remove(x): x not in list")) = Ok required ∧
            ∀ n, In n required ↔ In n names ∨ In n l0) as Hprofile.
  { intros l0.
    assert (mem_string "guid" (names ++ "guid" :: l0) = true) as ->
        by (apply mem_string_In, in_or_app; right; now left).
    eexists. split; [reflexivity|]. intros n. rewrite remove_first_app.
    destruct (mem_string "guid" names) eqn:Eg.
    - apply mem_string_In in Eg. rewrite in_app_iff. simpl. split.
      + intros [Hn|[<-|Hn]]; [left; eapply In_remove_first, Hn | now left | now right].
      + intros [Hn|Hn]; [|right; now right].
        destruct (String.eqb_spec n "guid") as [->|Hne]; [right; now left|].
        left. now apply In_remove_first_other.
    - simpl. rewrite in_app_iff. tauto. }
  each_kind Hk;
    match goal with
    | |- context [mro ?k] =>
        let m := eval vm_compute in (mro k) in change (mro k) with m
    end;
    cbn [required_from own_init]; repeat (rewrite bind_Ok_l; cbv beta).
  all: try (eexists _, _; split; [reflexivity|]; split; [vm_compute; reflexivity|];
            intros n; rewrite !in_app_iff; simpl; tauto).
  all: rewrite <- !app_assoc; cbn [app];
    destruct (Hprofile ["raw_content"; "handle"; "created_at"]) as (required & -> & Hn);
    exists required; eexists; split; [reflexivity|]; split; [vm_compute; reflexivity|];
    exact Hn.
Qed.

Lemma forallb_same (p : string → bool) (l1 l2 l : list string) :
  (∀ n, In n l1 ↔ In n l2 ∨ In n l) → forallb p l = true →
  forallb p l1 = forallb p l2.
Proof.
  intros Hn Hl. apply eq_true_iff_eq. rewrite forallb_forall in Hl.
  rewrite !forallb_forall. split; intros Hall n Hin.
  - apply Hall, Hn. now left.
  - apply Hn in Hin as [Hin|Hin]; auto.
Qed.

(** The keyword [_required] is taken up like a field: the list it
    gives replaces the empty list [BaseEntity.__init__] has just
    bound, and the units of the kind add their names to it.  This is
    how the completeness check of [validate] comes to raise: when the
    rules pass and the keyword names something that is no public
    attribute of the class. *)
Theorem required_keyword_seeds_the_requirements (k : pyclass)
    (before after : list (string * value)) (names : list string) :
  In k entity_kinds →
  Forall (fun kw => field_kwarg k kw = true) before →
  Forall (fun kw => field_kwarg k kw = true) after →
  ∃ inst required l,
    construct k (before ++ ("_required", VList names) :: after) = Ok inst ∧
    getattr inst "_required" = Ok (OData (VList required)) ∧
    required_along (mro k) = Ok l ∧
    (∀ n, In n required ↔ In n names ∨ In n l) ∧
    validate inst
    = (_ ← run_rules inst (rules_of k);
       if forallb (fun n => mem_string n (public_names k)) names then Ok tt
       else Error (MissingRequired required)).
Proof.
  intros Hk Hb Ha.
  destruct (entity_required_from k names Hk) as (required & l & Hfrom & Hl & Hn).
  set (d1 := bind_kwargs k before {["_required" := VList []]}).
  set (d2 := bind_kwargs k after (<["_required" := VList names]> d1)).
  assert (well_typed (mkInstance k d2)) as Hw.
  { apply bind_kwargs_typed; [exact Ha|]. apply insert_required_typed.
    apply bind_kwargs_typed; [exact Hb | apply singleton_required_typed]. }
  assert (d2 !! "_required" = Some (VList names)) as Hd2.
  { unfold d2. rewrite bind_kwargs_frame by now apply (typed_no_required k).
    apply lookup_insert_eq. }
  assert (BaseEntity_init (before ++ ("_required", VList names) :: after) (mkInstance k ∅)
          = Ok (mkInstance k d2)) as Hi.
  { unfold BaseEntity_init.
    rewrite setattr_Ok by (try reflexivity; apply required_no_property).
    rewrite bind_Ok_l. cbv beta. cbn [class_of dict_of].
    rewrite insert_empty, set_kwargs_app.
    rewrite (set_kwargs_bind k before) by now apply typed_plain.
    rewrite bind_Ok_l. cbv beta. cbn [set_kwargs]. fold d1.
    rewrite hasattr_plain by (try reflexivity; apply required_no_property).
    rewrite bind_Ok_l. cbv beta.
    assert (has_name k d1 "_required" = true) as ->.
    { unfold has_name, d1. rewrite bind_kwargs_frame by now apply (typed_no_required k).
      now rewrite lookup_singleton_eq. }
    rewrite setattr_Ok by (try reflexivity; apply required_no_property).
    rewrite bind_Ok_l. cbv beta. cbn [class_of dict_of].
    apply set_kwargs_bind. now apply typed_plain. }
  exists (mkInstance k (<["_required" := VList required]> d2)), required, l.
  split.
  { unfold construct.
    rewrite (run_init_seeded _ _ _ _ names (entity_reaches_base k Hk) Hi Hd2).
    now rewrite Hfrom. }
  split.
  { apply getattr_dict; [apply lookup_insert_eq | apply required_no_property]. }
  split; [exact Hl|]. split; [exact Hn|].
  rewrite (validate_seeded k _ required Hk (insert_required_typed _ _ _ Hw))
    by apply lookup_insert_eq.
  rewrite (forallb_same _ required names l Hn); [reflexivity|].
  exact (entity_required_public k l Hk Hl).
Qed.

(** A [_required] keyword that is no list makes construction fail: the
    first [+=] of a mixin cannot extend it. *)
Theorem required_keyword_of_other_type_raises (k : pyclass)
    (before after : list (string * value)) (w : value) :
  In k entity_kinds →
  Forall (fun kw => field_kwarg k kw = true) before →
  Forall (fun kw => field_kwarg k kw = true) after →
  (∀ names, w ≠ VList names) →
  construct k (before ++ ("_required", w) :: after)
  = Error (TypeError "unsupported operand type(s) for +=").
Proof.
  intros Hk Hb Ha Hw.
  set (d1 := bind_kwargs k before {["_required" := VList []]}).
  set (d2 := bind_kwargs k after (<["_required" := w]> d1)).
  assert (d2 !! "_required" = Some w) as Hd2.
  { unfold d2. rewrite bind_kwargs_frame by now apply (typed_no_required k).
    apply lookup_insert_eq. }
  assert (BaseEntity_init (before ++ ("_required", w) :: after) (mkInstance k ∅)
          = Ok (mkInstance k d2)) as Hi.
  { unfold BaseEntity_init.
    rewrite setattr_Ok by (try reflexivity; apply required_no_property).
    rewrite bind_Ok_l. cbv beta. cbn [class_of dict_of].
    rewrite insert_empty, set_kwargs_app.
    rewrite (set_kwargs_bind k before) by now apply typed_plain.
    rewrite bind_Ok_l. cbv beta. cbn [set_kwargs]. fold d1.
    rewrite hasattr_plain by (try reflexivity; apply required_no_property).
    rewrite bind_Ok_l. cbv beta.
    assert (has_name k d1 "_required" = true) as ->.
    { unfold has_name, d1. rewrite bind_kwargs_frame by now apply (typed_no_required k).
      now rewrite lookup_singleton_eq. }
    rewrite setattr_Ok by (try reflexivity; apply required_no_property).
    rewrite bind_Ok_l. cbv beta. cbn [class_of dict_of].
    apply set_kwargs_bind. now apply typed_plain. }
  unfold construct. clearbody d2. clear d1 Hb Ha.
  revert Hi. generalize (before ++ ("_required", w) :: after). intros kwargs Hi.
  each_kind Hk;
    match goal with
    | |- context [mro ?k] =>
        let m := eval vm_compute in (mro k) in change (mro k) with m
    end;
    cbn [run_init own_init]; rewrite Hi, bind_Ok_l; cbv beta;
    unfold run_action, iadd_required; cbn [dict_of]; rewrite Hd2;
    destruct w; try reflexivity; now destruct (Hw l).
Qed.

(** ** Keywords named after a validator *)

Lemma getattr_insert_ne (k : pyclass) (d : gmap string value) (n attr : string) (v : value) :
  attr ≠ n → n ≠ "raw_content" →
  getattr (mkInstance k (<[n := v]> d)) attr = getattr (mkInstance k d) attr.
Proof.
  intros Ha Hn. unfold getattr, tags, plain_getattr. simpl.
  now rewrite !lookup_insert_ne by congruence.
Qed.

(** No rule reads an attribute named after a validator. *)
Lemma run_rule_shadowed (k : pyclass) (d : gmap string value) (field : string)
    (v : value) (r : rule) :
  run_rule r (mkInstance k (<[("validate_" ++ field)%string := v]> d))
  = run_rule r (mkInstance k d).
Proof.
  destruct r; simpl;
    unfold validate_guid, validate_handle, validate_participation, validate_reaction,
      validate_target_handle, validate_relationship, validate_email, validate_enum;
    now rewrite !getattr_insert_ne by discriminate.
Qed.

Lemma append_cancel (p a b : string) : (p ++ a = p ++ b)%string → a = b.
Proof. induction p as [|c p IH]; simpl; [tauto|]. intros [= E]. auto. Qed.

Lemma shadow_lookup (k : pyclass) (d : gmap string value) (field attr : string)
    (r : rule) (v : value) :
  In k entity_kinds → well_typed (mkInstance k d) → rule_of k field = Some r →
  getattr_or_none (mkInstance k (<[("validate_" ++ field)%string := v]> d))
    ("validate_" ++ attr)%string
  = if String.eqb attr field then Ok (Some (OData v))
    else Ok (OValidator <$> rule_of k attr).
Proof.
  intros Hk Hw Hr. destruct (String.eqb_spec attr field) as [->|Hne].
  - unfold getattr_or_none, getattr, plain_getattr. simpl.
    unfold rule_of in Hr.
    destruct (class_lookup k ("validate_" ++ field)%string) as [[]|]; try discriminate.
    now rewrite lookup_insert_eq.
  - unfold getattr_or_none.
    rewrite getattr_insert_ne; [|intros E; now apply append_cancel in E|discriminate].
    apply (validator_lookup k d attr Hk Hw).
Qed.

Lemma getattr_shadow_total (k : pyclass) (d : gmap string value) (field attr : string)
    (r : rule) (v : value) :
  In k entity_kinds → well_typed (mkInstance k d) → rule_of k field = Some r →
  In attr (class_names k) →
  ∃ o, getattr (mkInstance k (<[("validate_" ++ field)%string := v]> d)) attr = Ok o.
Proof.
  intros Hk Hw Hr Hin.
  destruct (decide (attr = ("validate_" ++ field)%string)) as [->|Hne].
  - unfold getattr, plain_getattr. simpl. unfold rule_of in Hr.
    destruct (class_lookup k ("validate_" ++ field)%string) as [[]|]; try discriminate.
    rewrite lookup_insert_eq. eauto.
  - rewrite getattr_insert_ne; [|exact Hne|discriminate].
    now apply getattr_total.
Qed.

Lemma visit_shadowed (k : pyclass) (d : gmap string value) (field : string)
    (r : rule) (v : value) (names : list string) :
  In k entity_kinds → well_typed (mkInstance k d) → rule_of k field = Some r →
  (∀ n, In n names → In n (class_names k)) →
  visit (mkInstance k (<[("validate_" ++ field)%string := v]> d)) names
  = (_ ← run_shadowed (mkInstance k (<[("validate_" ++ field)%string := v]> d))
           field v (List.filter is_public names);
     Ok (List.filter is_public names)).
Proof.
  intros Hk Hw Hr. induction names as [|attr rest IH]; intros Hin; [reflexivity|].
  cbn [visit List.filter]. rewrite IH by (intros n Hn; apply Hin; now right).
  destruct (is_public attr); [|reflexivity].
  destruct (getattr_shadow_total k d field attr r v Hk Hw Hr (Hin attr (or_introl eq_refl)))
    as [o ->].
  rewrite bind_Ok_l. cbv beta. rewrite (shadow_lookup k d field attr r v Hk Hw Hr).
  cbn [run_shadowed class_of].
  destruct (String.eqb attr field).
  - rewrite bind_Ok_l. cbv beta. cbn [truthy_obj call].
    destruct (truthy v); simpl; [reflexivity|].
    now destruct (run_shadowed _ _ _ _) as [[]|e].
  - rewrite bind_Ok_l. cbv beta.
    destruct (rule_of k attr) as [r'|]; simpl.
    + destruct (run_rule r' _) as [[]|e]; simpl; [|reflexivity].
      now destruct (run_shadowed _ _ _ _) as [[]|e].
    + now destruct (run_shadowed _ _ _ _) as [[]|e].
Qed.

Lemma run_shadowed_elsewhere (self : instance) (field : string) (v : value)
    (attrs : list string) :
  ¬ In field attrs →
  run_shadowed self field v attrs = run_rules self (omap (rule_of (class_of self)) attrs).
Proof.
  induction attrs as [|a attrs IH]; intros Hn; simpl in *; [reflexivity|].
  destruct (String.eqb_spec a field) as [->|Hne]; [tauto|].
  destruct (rule_of (class_of self) a) as [r|]; simpl; rewrite IH by tauto; reflexivity.
Qed.

Lemma run_shadowed_app (self : instance) (field : string) (v : value)
    (l1 l2 : list string) :
  run_shadowed self field v (l1 ++ l2)
  = (_ ← run_shadowed self field v l1; run_shadowed self field v l2).
Proof.
  induction l1 as [|a l1 IH]; simpl; [reflexivity|].
  destruct (if String.eqb a field then _ else _) as [[]|e]; simpl; [exact IH | reflexivity].
Qed.

Lemma run_rules_app (self : instance) (l1 l2 : list rule) :
  run_rules self (l1 ++ l2) = (_ ← run_rules self l1; run_rules self l2).
Proof.
  induction l1 as [|r l1 IH]; simpl; [reflexivity|].
  destruct (run_rule r self) as [[]|e]; simpl; [exact IH | reflexivity].
Qed.

(** The field of a rule is a public attribute of the kind. *)
Lemma rule_field_public (k : pyclass) (field : string) (r : rule) :
  In k entity_kinds → rule_of k field = Some r → In field (public_names k).
Proof.
  intros Hk Hr. unfold rule_of in Hr.
  destruct (class_lookup k ("validate_" ++ field)%string) as [[]|] eqn:Hl; try discriminate.
  apply lookup_along_In in Hl.
  each_kind Hk; vm_compute in Hl;
    repeat (destruct Hl as [Hl|Hl];
            [ first [ discriminate Hl | injection Hl as <- <- ] | ]);
    try contradiction; vm_compute; tauto.
Qed.

Lemma public_names_NoDup (k : pyclass) : In k entity_kinds → NoDup (public_names k).
Proof. intros Hk. each_kind Hk; compute_done. Qed.

Lemma has_name_insert_ne (k : pyclass) (d : gmap string value) (n key : string) (v : value) :
  key ≠ n → has_name k (<[n := v]> d) key = has_name k d key.
Proof. intros Hne. unfold has_name. now rewrite lookup_insert_ne by congruence. Qed.

Lemma bind_kwargs_insert (k : pyclass) (kwargs : list (string * value))
    (d : gmap string value) (n : string) (v : value) :
  ¬ In n (map fst kwargs) →
  bind_kwargs k kwargs (<[n := v]> d) = <[n := v]> (bind_kwargs k kwargs d).
Proof.
  revert d. induction kwargs as [|[key w] rest IH]; intros d Hn; simpl in *; [reflexivity|].
  rewrite has_name_insert_ne by (intros ->; tauto).
  destruct (has_name k d key); [|apply IH; tauto].
  rewrite insert_insert_ne by (intros ->; tauto). apply IH. tauto.
Qed.

Lemma bind_kwargs_app (k : pyclass) (l1 l2 : list (string * value)) (d : gmap string value) :
  bind_kwargs k (l1 ++ l2) d = bind_kwargs k l2 (bind_kwargs k l1 d).
Proof.
  revert d. induction l1 as [|[key w] l1 IH]; intros d; simpl; [reflexivity | apply IH].
Qed.

Lemma typed_no_validator (k : pyclass) (kwargs : list (string * value))
    (field : string) (r : rule) :
  Forall (fun kw => field_kwarg k kw = true) kwargs → rule_of k field = Some r →
  ¬ In ("validate_" ++ field)%string (map fst kwargs).
Proof.
  intros Hf Hr Hin. apply in_map_iff in Hin as ([key v] & Hkey & Hin). simpl in Hkey. subst key.
  rewrite List.Forall_forall in Hf. apply Hf in Hin.
  unfold field_kwarg, rule_of in *. simpl in Hin.
  destruct (class_lookup k ("validate_" ++ field)%string) as [[]|]; discriminate.
Qed.

(** A keyword named after a validator is bound on the instance and
    hides the method.  [validate] then finds the value where it looks
    for the method: a false value switches the rule off, the other
    rules running as before; a true value is called and raises
    [TypeError] once the rules of the fields before it have passed. *)
Theorem keyword_shadows_validator (k : pyclass) (before after : list (string * value))
    (field : string) (r : rule) (v : value) :
  In k entity_kinds →
  Forall (fun kw => field_kwarg k kw = true) before →
  Forall (fun kw => field_kwarg k kw = true) after →
  rule_of k field = Some r →
  ∃ inst earlier later,
    construct k (before ++ (("validate_" ++ field)%string, v) :: after) = Ok inst ∧
    getattr inst ("validate_" ++ field)%string = Ok (OData v) ∧
    rules_of k = earlier ++ r :: later ∧
    validate inst
    = (_ ← run_rules inst earlier;
       if truthy v then Error (TypeError "object is not callable")
       else run_rules inst later).
Proof.
  intros Hk Hb Ha Hr.
  set (vf := ("validate_" ++ field)%string).
  assert (Forall (fun kw => field_kwarg k kw = true) (before ++ after)) as Hba
      by (apply Forall_app; now split).
  destruct (construct_typed k (before ++ after) Hk Hba) as (l & d & Hl & Hc & Hd & Hw).
  assert (is_Some (class_lookup k vf)) as Hsome.
  { unfold rule_of in Hr. fold vf in Hr. destruct (class_lookup k vf); [eauto | discriminate]. }
  assert (plain_key k vf = true) as Hpk.
  { unfold plain_key. unfold rule_of in Hr. fold vf in Hr.
    destruct (class_lookup k vf) as [[]|]; try discriminate. reflexivity. }
  assert (construct k (before ++ (vf, v) :: after) = Ok (mkInstance k (<[vf := v]> d))) as Hc'.
  { destruct (construct_plain k (before ++ (vf, v) :: after) Hk) as (l' & Hl' & _ & He).
    { apply Forall_app. split; [now apply typed_plain|].
      constructor; [exact Hpk | now apply typed_plain]. }
    rewrite He. f_equal. f_equal.
    destruct (construct_plain k (before ++ after) Hk (typed_plain _ _ Hba)) as (l'' & Hl'' & _ & He').
    rewrite Hc in He'. injection He' as ->.
    rewrite Hl' in Hl''. injection Hl'' as <-.
    rewrite !bind_kwargs_app. cbn [bind_kwargs].
    assert (has_name k (bind_kwargs k before {["_required" := VList []]}) vf = true) as ->.
    { unfold has_name. destruct Hsome as [m ->]. now destruct (_ !! vf). }
    rewrite bind_kwargs_insert by now apply (typed_no_validator k after field r).
    apply insert_insert_ne. discriminate. }
  destruct (in_split _ _ (rule_field_public k field r Hk Hr)) as (n1 & n2 & Hsplit).
  pose proof (public_names_NoDup k Hk) as Hnd. rewrite Hsplit in Hnd.
  apply NoDup_app in Hnd as (_ & Hn1 & Hnd). apply NoDup_cons in Hnd as [Hn2 _].
  exists (mkInstance k (<[vf := v]> d)), (omap (rule_of k) n1), (omap (rule_of k) n2).
  split; [exact Hc'|]. split.
  { apply getattr_dict; [apply lookup_insert_eq|].
    unfold rule_of in Hr. fold vf in Hr. simpl.
    destruct (class_lookup k vf) as [[]|]; discriminate. }
  split.
  { unfold rules_of. fold (public_names k). rewrite Hsplit, omap_app. simpl. now rewrite Hr. }
  unfold validate.
  rewrite dir_of_class; [|now apply entity_names_sorted|].
  2:{ intros n [w Hn]. simpl in Hn. destruct (decide (n = vf)) as [->|Hne].
      - destruct Hsome as [m Hm]. eapply class_lookup_names, Hm.
      - rewrite lookup_insert_ne in Hn by congruence.
        eapply well_typed_keys; eauto. }
  rewrite (visit_shadowed k d field r v) by (try assumption; intros n; apply In_sort_dedup).
  fold (public_names k). rewrite Hsplit, run_shadowed_app. cbn [run_shadowed].
  rewrite String.eqb_refl.
  rewrite !run_shadowed_elsewhere.
  2,3: first [ rewrite <- list_elem_of_In; exact Hn2
             | intros Hin; apply (Hn1 field); [now apply list_elem_of_In | left] ].
  cbn [class_of].
  destruct (run_rules _ (omap (rule_of k) n1)) as [[]|e]; simpl; [|reflexivity].
  destruct (truthy v); simpl; [reflexivity|].
  destruct (run_rules _ (omap (rule_of k) n2)) as [[]|e]; simpl; [|reflexivity].
  rewrite (getattr_dict _ _ (VList l)).
  2:{ simpl. rewrite lookup_insert_ne by discriminate. exact Hd. }
  2:{ apply required_no_property. }
  simpl. rewrite <- Hsplit. unfold public_names. now rewrite entity_required_public.
Qed.

(** ** What the serialisers of posts, comments and profiles render *)

(** Reads field [n] of a typed instance: [Hv] states its value, of the
    type of the default. *)
Ltac typed_field Hw n Hv :=
  match type of Hw with
  | well_typed (mkInstance ?k ?d) =>
      let cf := eval vm_compute in (class_lookup k n) in
      match cf with
      | Some (Data ?d0) =>
          let v := fresh "v" in
          let Hs := fresh "Hs" in
          destruct (getattr_field k d n d0 Hw
                      ltac:(vm_compute; reflexivity) ltac:(discriminate))
            as (v & Hv & Hs & _);
          destruct v; try discriminate Hs; clear Hs
      end
  end.

(** A Diaspora post renders its text as [raw_message], then the guid,
    the handle, the flag [public] as ["true"] or ["false"], and the
    creation time in the format of the wire; the provider name, the
    location and the photos are not rendered. *)
Theorem post_renders_its_fields (kwargs : list (string * value)) :
  Forall (fun kw => field_kwarg DiasporaPost kw = true) kwargs →
  ∃ inst text guid handle public created, construct DiasporaPost kwargs = Ok inst ∧
    getattr inst "raw_content" = Ok (OData (VStr text)) ∧
    getattr inst "guid" = Ok (OData (VStr guid)) ∧
    getattr inst "handle" = Ok (OData (VStr handle)) ∧
    getattr inst "public" = Ok (OData (VBool public)) ∧
    getattr inst "created_at" = Ok (OData (VDateTime created)) ∧
    to_xml inst = Ok (mkElement "status_message" ""
                        [leaf "raw_message" text; leaf "guid" guid;
                         leaf "diaspora_handle" handle;
                         leaf "public" (if public then "true" else "false");
                         leaf "created_at" (format_datetime created)]).
Proof.
  intros Hf.
  destruct (construct_typed DiasporaPost kwargs) as (l & d & Hl & Hc & Hd & Hw);
    [vm_compute; tauto | exact Hf |].
  typed_field Hw "raw_content" Ht. typed_field Hw "guid" Hg. typed_field Hw "handle" Hh.
  typed_field Hw "public" Hp. typed_field Hw "created_at" Hcr.
  eexists (mkInstance DiasporaPost d), _, _, _, _, _.
  split; [exact Hc|]. repeat (split; [eassumption|]).
  unfold to_xml, DiasporaPost_to_xml. cbn [class_of].
  rewrite Ht, bind_Ok_l. cbv beta. rewrite Hg, bind_Ok_l. cbv beta.
  rewrite Hh, bind_Ok_l. cbv beta. rewrite Hp, bind_Ok_l. cbv beta.
  rewrite Hcr, bind_Ok_l. cbv beta. cbn [format_dt]. rewrite bind_Ok_l. cbv beta.
  now destruct b.
Qed.

(** A Diaspora comment renders its guid, the guid of its target as
    [parent_guid], the author signature, its text and the handle; the
    participation kind and the creation time are not rendered. *)
Theorem comment_renders_its_fields (kwargs : list (string * value)) :
  Forall (fun kw => field_kwarg DiasporaComment kw = true) kwargs →
  ∃ inst guid parent signature text handle, construct DiasporaComment kwargs = Ok inst ∧
    getattr inst "guid" = Ok (OData (VStr guid)) ∧
    getattr inst "target_guid" = Ok (OData (VStr parent)) ∧
    getattr inst "author_signature" = Ok (OData (VStr signature)) ∧
    getattr inst "raw_content" = Ok (OData (VStr text)) ∧
    getattr inst "handle" = Ok (OData (VStr handle)) ∧
    to_xml inst = Ok (mkElement "comment" ""
                        [leaf "guid" guid; leaf "parent_guid" parent;
                         leaf "author_signature" signature; leaf "text" text;
                         leaf "diaspora_handle" handle]).
Proof.
  intros Hf.
  destruct (construct_typed DiasporaComment kwargs) as (l & d & Hl & Hc & Hd & Hw);
    [vm_compute; tauto | exact Hf |].
  typed_field Hw "guid" Hg. typed_field Hw "target_guid" Hp.
  typed_field Hw "author_signature" Hs. typed_field Hw "raw_content" Ht.
  typed_field Hw "handle" Hh.
  eexists (mkInstance DiasporaComment d), _, _, _, _, _.
  split; [exact Hc|]. repeat (split; [eassumption|]).
  unfold to_xml, DiasporaComment_to_xml. cbn [class_of].
  rewrite Hg, bind_Ok_l. cbv beta. rewrite Hp, bind_Ok_l. cbv beta.
  rewrite Hs, bind_Ok_l. cbv beta. rewrite Ht, bind_Ok_l. cbv beta.
  rewrite Hh, bind_Ok_l. reflexivity.
Qed.

(** A Diaspora profile renders the handle, the name as [first_name],
    an empty [last_name], the three image addresses in the order
    large, small, medium, then gender, the text as [bio], the location,
    the flags [public] (as [searchable]) and [nsfw] as ["true"] or
    ["false"], and the tags as [tag_string]; the email, the guid, the
    public key and the creation time are not rendered. *)
Theorem profile_renders_its_fields (kwargs : list (string * value)) :
  Forall (fun kw => field_kwarg DiasporaProfile kw = true) kwargs →
  ∃ inst handle name urls large small medium gender bio location public nsfw tag_list,
    construct DiasporaProfile kwargs = Ok inst ∧
    getattr inst "handle" = Ok (OData (VStr handle)) ∧
    getattr inst "name" = Ok (OData (VStr name)) ∧
    getattr inst "image_urls" = Ok (OData (VDict urls)) ∧
    subscript (OData (VDict urls)) "large" = Ok (str large) ∧
    subscript (OData (VDict urls)) "small" = Ok (str small) ∧
    subscript (OData (VDict urls)) "medium" = Ok (str medium) ∧
    getattr inst "gender" = Ok (OData (VStr gender)) ∧
    getattr inst "raw_content" = Ok (OData (VStr bio)) ∧
    getattr inst "location" = Ok (OData (VStr location)) ∧
    getattr inst "public" = Ok (OData (VBool public)) ∧
    getattr inst "nsfw" = Ok (OData (VBool nsfw)) ∧
    getattr inst "tag_list" = Ok (OData (VList tag_list)) ∧
    to_xml inst
    = Ok (mkElement "profile" ""
            [leaf "diaspora_handle" handle; leaf "first_name" name; leaf "last_name" "";
             leaf "image_url" large; leaf "image_url_small" small;
             leaf "image_url_medium" medium; leaf "gender" gender; leaf "bio" bio;
             leaf "location" location;
             leaf "searchable" (if public then "true" else "false");
             leaf "nsfw" (if nsfw then "true" else "false");
             leaf "tag_string" (join " " (map (fun tag => ("#" ++ tag)%string) tag_list))]).
Proof.
  intros Hf.
  destruct (construct_typed DiasporaProfile kwargs) as (l & d & Hl & Hc & Hd & Hw);
    [vm_compute; tauto | exact Hf |].
  typed_field Hw "handle" Hh. typed_field Hw "name" Hn.
  destruct (getattr_field DiasporaProfile d "image_urls"
              (VDict [("small", ""); ("medium", ""); ("large", "")]) Hw
              ltac:(vm_compute; reflexivity) ltac:(discriminate)) as (u & Hu & Hurls & _).
  destruct u as [| | | | |urls|]; try discriminate Hurls. cbn in Hurls.
  apply andb_true_iff in Hurls as [Hsmall Hurls].
  apply andb_true_iff in Hurls as [Hmedium Hurls].
  apply andb_true_iff in Hurls as [Hlarge _].
  destruct (subscript_typed _ _ Hlarge) as [large Hla].
  destruct (subscript_typed _ _ Hsmall) as [small Hsm].
  destruct (subscript_typed _ _ Hmedium) as [medium Hme].
  typed_field Hw "gender" Hg. typed_field Hw "raw_content" Hb.
  typed_field Hw "location" Hlo. typed_field Hw "public" Hp. typed_field Hw "nsfw" Hns.
  typed_field Hw "tag_list" Ht.
  eexists (mkInstance DiasporaProfile d), _, _, urls, large, small, medium, _, _, _, _, _, _.
  split; [exact Hc|]. repeat (split; [eassumption|]).
  unfold to_xml, DiasporaProfile_to_xml. cbn [class_of].
  rewrite Hh, bind_Ok_l. cbv beta. rewrite Hn, bind_Ok_l. cbv beta.
  rewrite Hu, bind_Ok_l. cbv beta. rewrite Hla, bind_Ok_l. cbv beta.
  rewrite Hsm, bind_Ok_l. cbv beta. rewrite Hme, bind_Ok_l. cbv beta.
  rewrite Hg, bind_Ok_l. cbv beta. rewrite Hb, bind_Ok_l. cbv beta.
  rewrite Hlo, bind_Ok_l. cbv beta. rewrite Hp, bind_Ok_l. cbv beta.
  rewrite Hns, bind_Ok_l. cbv beta. rewrite Ht, bind_Ok_l. cbv beta.
  cbn [iter_obj py_iter]. rewrite bind_Ok_l. cbv beta.
  now destruct b, b0.
Qed.

(** ** The validators [validate] calls on each kind *)

Lemma bind_unit_r (m : result unit) : (_ ← m; Ok tt) = m.
Proof. now destruct m as [[]|e]. Qed.

(** On an entity built from typed fields, [validate] calls these
    [validate_<field>] methods and no others, in this order, stopping
    at the first that raises: guid and handle on a Post or an Image;
    guid, handle, participation on a Comment; guid, handle,
    participation, reaction on a Reaction; handle, relationship,
    target_handle on a Relationship; email, guid, handle on a
    Profile.  A protocol class has the validators of its generic
    kind. *)
Theorem validate_meets_the_rules_in_order (k : pyclass) (kwargs : list (string * value)) :
  In k entity_kinds →
  Forall (fun kw => field_kwarg k kw = true) kwargs →
  ∃ inst, construct k kwargs = Ok inst ∧
    (In k [Post; Image; DiasporaPost] →
     validate inst = (_ ← validate_guid inst; validate_handle inst)) ∧
    (In k [Comment; DiasporaComment] →
     validate inst
     = (_ ← validate_guid inst; _ ← validate_handle inst; validate_participation inst)) ∧
    (In k [Reaction; DiasporaLike] →
     validate inst
     = (_ ← validate_guid inst; _ ← validate_handle inst;
        _ ← validate_participation inst; validate_reaction inst)) ∧
    (In k [Relationship; DiasporaRequest] →
     validate inst
     = (_ ← validate_handle inst; _ ← validate_relationship inst;
        validate_target_handle inst)) ∧
    (In k [Profile; DiasporaProfile] →
     validate inst
     = (_ ← validate_email inst; _ ← validate_guid inst; validate_handle inst)).
Proof.
  intros Hk Hf.
  destruct (construct_typed k kwargs Hk Hf) as (l & d & Hl & Hc & Hd & Hw).
  exists (mkInstance k d). split; [exact Hc|].
  rewrite (validate_typed k d l Hk Hw Hl Hd). clear Hc Hl Hd Hw Hf Hk.
  repeat split; intros Hin; simpl in Hin;
    repeat (destruct Hin as [<-|Hin]); try contradiction;
    match goal with
    | |- context [rules_of ?c] =>
        let r := eval vm_compute in (rules_of c) in
        replace (rules_of c) with r by (vm_compute; reflexivity)
    end;
    cbn [run_rules run_rule]; now rewrite bind_unit_r.
Qed.

(** ** Serialisation of entities whose texts XML admits *)















End Properties.

(** * Instances at concrete inputs *)

#[local] Existing Instance reference_env.

Ltac typed_kwargs := repeat (constructor; [vm_compute; reflexivity|]); constructor.

(** C1, at a concrete entity.  A Post that was given a handle and
    nothing else has no guid and no text, both required, and yet
    [validate] returns normally: the completeness check looks for the
    names of the attributes, which the class always has, and not at
    their values. *)
Theorem validate_passes_with_required_fields_unset :
  let post := the (construct Post [("handle", VStr "alice@example.org")]) in
  construct Post [("handle", VStr "alice@example.org")] = Ok post ∧
  getattr post "guid" = Ok (OData (VStr "")) ∧
  getattr post "raw_content" = Ok (OData (VStr "")) ∧
  required_set post = Ok {["created_at"; "handle"; "guid"; "raw_content"]} ∧
  validate post = Ok tt.
Proof. cbv zeta. repeat split; compute_done. Qed.

Lemma validate_never_reports_missing_witness :
  ∃ inst, construct Image [("guid", VStr "a0a0a0a0a0a0a0a0")] = Ok inst ∧
    validate inst = run_rules inst (rules_of Image) ∧
    passes_or_reports (validate inst) ∧
    ∀ required, validate inst ≠ Error (MissingRequired required).
Proof.
  apply (validate_never_reports_missing Image [("guid", VStr "a0a0a0a0a0a0a0a0")]).
  - vm_compute. tauto.
  - typed_kwargs.
Defined.

Lemma required_is_union_of_units_witness :
  required_set (the (construct Profile [("handle", VStr "bob@example.com")]))
  = Ok (union_of_units Profile ∖ waiver Profile)
  ∧ waiver Profile = {["guid"]}
  ∧ (∀ c, unit_requirement c = declared_requirement c)
  ∧ required_set (the (construct Profile [("handle", VStr "bob@example.com")]))
    = Ok {["created_at"; "handle"; "raw_content"]}.
Proof.
  refine (required_is_union_of_units Profile
            [("handle", VStr "bob@example.com")] _ _ _ _).
  - vm_compute. tauto.
  - simpl. intros [E|[]]. discriminate E.
  - vm_compute. reflexivity.
Defined.

Definition disliked : list (string * value) :=
  [("guid", VStr "a0a0a0a0a0a0a0a0"); ("handle", VStr "alice@example.org");
   ("target_guid", VStr "b1b1b1b1b1b1b1b1"); ("reaction", VStr "dislike")].

Definition spying : list (string * value) :=
  [("handle", VStr "alice@example.org"); ("target_handle", VStr "bob@example.com");
   ("relationship", VStr "spying")].

Lemma enumerated_kinds_checked_at_validation_witness :
  (∃ inst, construct Reaction disliked = Ok inst ∧
     getattr inst "reaction" = Ok (OData (VStr "dislike")) ∧
     validate inst = Error (InvalidField "reaction" "reaction should be one of: like")) ∧
  (∃ inst, construct Relationship spying = Ok inst ∧
     getattr inst "relationship" = Ok (OData (VStr "spying")) ∧
     ∃ field msg, validate inst = Error (InvalidField field msg)).
Proof.
  split.
  - destruct (enumerated_kinds_checked_at_validation Reaction disliked) as (inst & Hc & Hr & _).
    + vm_compute. tauto.
    + typed_kwargs.
    + exists inst. split; [exact Hc|].
      assert (inst = the (construct Reaction disliked)) as -> by now rewrite Hc.
      split; compute_done.
  - destruct (enumerated_kinds_checked_at_validation Relationship spying) as (inst & Hc & _ & Hr).
    + vm_compute. tauto.
    + typed_kwargs.
    + exists inst. split; [exact Hc|].
      destruct Hr as (x & Hx & Hy & _ & Hfail); [vm_compute; tauto|].
      assert (x = "spying") as ->.
      { apply Hy; [compute_done | vm_compute; tauto]. }
      split; [exact Hx | apply Hfail; reflexivity].
Defined.

(** The values the spec names: ["like"] and ["blocking"] pass where
    ["dislike"] and ["spying"] fail. *)
Lemma enumerated_examples :
  (i ← construct Reaction disliked; validate i)
    = Error (InvalidField "reaction" "reaction should be one of: like") ∧
  (i ← construct Reaction (("reaction", VStr "like") :: removelast disliked); validate i)
    = Ok tt ∧
  (i ← construct Relationship spying; validate i)
    = Error (InvalidField "relationship"
               "relationship should be one of: sharing, following, ignoring, blocking") ∧
  (i ← construct Relationship (("relationship", VStr "blocking") :: removelast spying);
   validate i) = Ok tt.
Proof. repeat split; compute_done. Qed.

Lemma guid_rule_length_witness :
  let image := the (construct Image [("guid", VStr "too-short")]) in
  (validate_guid image = Error (InvalidField "guid" "GUID must be at least 16 characters")
   ↔ "too-short" ≠ "" ∧ (String.length "too-short" < 16)%nat) ∧
  (validate_guid image = Ok tt ↔ "too-short" = "" ∨ (16 ≤ String.length "too-short")%nat).
Proof.
  cbv zeta. apply guid_rule_length. vm_compute. reflexivity.
Defined.

Lemma validate_enforces_guid_rule_witness :
  ∃ inst g, construct Comment [("guid", VStr "too-short")] = Ok inst ∧
    getattr inst "guid" = Ok (OData (VStr g)) ∧
    (guid_too_short g = true →
       ∃ field msg, validate inst = Error (InvalidField field msg)) ∧
    (validate inst = Ok tt → guid_too_short g = false).
Proof.
  apply (validate_enforces_guid_rule Comment [("guid", VStr "too-short")]).
  - vm_compute. tauto.
  - vm_compute. tauto.
  - typed_kwargs.
Defined.

(** C6: where the claim fails.  The token [#done#] gives the tag
    [done]: the [#] behind it is stripped too, while the set of
    [#word] tokens less their [#] prefix holds [done#]. *)
Lemma tags_strip_trailing_hash :
  tags (the (construct Post [("raw_content", VStr "all #done#")])) = Ok {["done"]} ∧
  tags_spec "all #done#" = {["done#"]}.
Proof. split; compute_done. Qed.

Lemma tags_strip_hashes_witness :
  let post :=
    the (construct Post [("raw_content", VStr "hello #federation #socialfederation")]) in
  tags post = Ok {["federation"; "socialfederation"]} ∧
  tags post = Ok (tags_spec "hello #federation #socialfederation") ∧
  tags (the (construct Post [])) = Ok ∅.
Proof.
  cbv zeta.
  destruct (tags_strip_hashes
              (the (construct Post [("raw_content", VStr "hello #federation #socialfederation")]))
              "hello #federation #socialfederation")
    as (T & HT & _ & _ & Hspec); [vm_compute; reflexivity|].
  split; [compute_done|]. split; [|compute_done].
  rewrite HT. f_equal. apply Hspec.
  apply List.Forall_forall. intros w Hw. vm_compute in Hw.
  destruct Hw as [<-|[<-|[<-|[]]]]; intros Hs;
    first [ reflexivity | vm_compute in Hs; discriminate Hs ].
Defined.



Definition anonymous_comment : instance :=
  the (construct Comment
         [("guid", VStr "a0a0a0a0a0a0a0a0"); ("handle", VStr "not-an-email");
          ("raw_content", VStr "hello")]).

Lemma from_base_copies_declared_fields_witness :
  validate anonymous_comment = Error (InvalidField "handle" "Handle is not valid") ∧
  ∃ adapted, from_base DiasporaComment anonymous_comment = Ok adapted ∧
    class_of adapted = DiasporaComment ∧
    getattr adapted "handle" = Ok (OData (VStr "not-an-email")) ∧
    getattr adapted "author_signature" = Ok (OData (VStr "")) ∧
    dict_of adapted !! "author_signature" = None.
Proof.
  split; [vm_compute; reflexivity|].
  destruct (from_base_copies_declared_fields DiasporaComment anonymous_comment)
    as (adapted & Ha & Hc & Hcopy & Hrest & Hsig).
  - vm_compute. tauto.
  - vm_compute. tauto.
  - exists adapted. split; [exact Ha|]. split; [exact Hc|]. split; [|split].
    + rewrite Hcopy; [vm_compute; reflexivity | vm_compute; tauto | eexists; vm_compute; reflexivity].
    + apply Hsig. eexists. vm_compute. reflexivity.
    + apply Hrest; [|discriminate]. vm_compute. intuition discriminate.
Defined.

Lemma created_at_defaults_to_load_time_witness :
  ∃ inst, construct Post [("guid", VStr "a0a0a0a0a0a0a0a0")] = Ok inst ∧
          getattr inst "created_at" = Ok (OData (VDateTime (mkDatetime 2016 1 1 12 0 0))).
Proof.
  refine (created_at_defaults_to_load_time Post [("guid", VStr "a0a0a0a0a0a0a0a0")] _ _ _).
  - vm_compute. tauto.
  - repeat constructor.
  - vm_compute. intuition discriminate.
Defined.

(** C10: where the claim fails.  [tags] is an attribute of a Post, so
    the keyword is taken up, but it is a property without a setter and
    binding it raises [AttributeError]. *)
Lemma tags_keyword_raises :
  construct Post [("tags", VList ["federation"])]
  = Error (AttributeError "can't set attribute").
Proof. vm_compute. reflexivity. Qed.

Lemma construct_accepts_plain_keywords_witness :
  ∃ inst,
    construct Image [("guid", VStr "a0a0a0a0a0a0a0a0"); ("width", VInt 640)] = Ok inst ∧
    getattr inst "guid" = Ok (OData (VStr "a0a0a0a0a0a0a0a0")) ∧
    getattr inst "width" = Ok (OData (VInt 640)) ∧
    construct Image [("guid", VStr "a0a0a0a0a0a0a0a0"); ("colour", VStr "red");
                     ("width", VInt 640)] = Ok inst.
Proof.
  destruct (construct_accepts_plain_keywords Image
              [("guid", VStr "a0a0a0a0a0a0a0a0"); ("width", VInt 640)])
    as (inst & Hc & Hset & Hignored).
  - vm_compute. tauto.
  - repeat constructor.
  - exists inst. split; [exact Hc|]. split; [|split].
    + apply Hset; [compute_done | vm_compute; tauto | eexists; vm_compute; reflexivity].
    + apply Hset; [compute_done | vm_compute; tauto | eexists; vm_compute; reflexivity].
    + apply (Hignored [("guid", VStr "a0a0a0a0a0a0a0a0")] [("width", VInt 640)]);
        reflexivity.
Defined.

(** ** Instances of the further properties *)

Lemma validate_accepts_iff_witness :
  ∃ inst, construct Profile [("handle", VStr "alice@example.org"); ("email", VStr "nobody")]
          = Ok inst ∧
    (validate inst = Ok tt ↔ forallb (fun r => accepts r inst) (rules_of Profile) = true) ∧
    (∀ e, validate inst = Error e →
       ∃ before r after, rules_of Profile = before ++ r :: after ∧
         forallb (fun r' => accepts r' inst) before = true ∧
         accepts r inst = false ∧ run_rule r inst = Error e).
Proof.
  apply (validate_accepts_iff Profile
           [("handle", VStr "alice@example.org"); ("email", VStr "nobody")]).
  - vm_compute. tauto.
  - typed_kwargs.
Defined.

Lemma unset_handle_fails_validation_witness :
  ∃ inst, construct Image [("guid", VStr "a0a0a0a0a0a0a0a0")] = Ok inst ∧
    getattr inst "handle" = Ok (OData (VStr "")) ∧
    validate_handle inst = Error (InvalidField "handle" "Handle is not valid") ∧
    ∃ field msg, validate inst = Error (InvalidField field msg).
Proof.
  apply (unset_handle_fails_validation Image [("guid", VStr "a0a0a0a0a0a0a0a0")]).
  - vm_compute. tauto.
  - typed_kwargs.
  - vm_compute. intuition discriminate.
  - vm_compute. reflexivity.
Defined.

Lemma participation_defaults_to_the_kind_witness :
  ∃ inst x, construct DiasporaComment [("guid", VStr "a0a0a0a0a0a0a0a0")] = Ok inst ∧
    getattr inst "participation" = Ok (OData (VStr x)) ∧
    (validate_participation inst = Ok tt
     ↔ x = "reaction" ∨ x = "subscription" ∨ x = "comment") ∧
    (¬ In "participation" (map fst [("guid", VStr "a0a0a0a0a0a0a0a0")]) →
       x = (if bool_decide (Comment ∈ mro DiasporaComment) then "comment" else "reaction"))
    ∧ (∀ y, NoDup (map fst [("guid", VStr "a0a0a0a0a0a0a0a0")]) →
            In ("participation", VStr y) [("guid", VStr "a0a0a0a0a0a0a0a0")] → x = y).
Proof.
  apply (participation_defaults_to_the_kind DiasporaComment
           [("guid", VStr "a0a0a0a0a0a0a0a0")]).
  - vm_compute. tauto.
  - typed_kwargs.
Defined.

Lemma protocol_defaults_satisfy_their_rules_witness :
  ∃ inst, construct DiasporaLike [("target_guid", VStr "b1b1b1b1b1b1b1b1")] = Ok inst ∧
    getattr inst "reaction" = Ok (OData (VStr "like")) ∧
    validate_reaction inst = Ok tt.
Proof.
  destruct (protocol_defaults_satisfy_their_rules DiasporaLike
              [("target_guid", VStr "b1b1b1b1b1b1b1b1")])
    as (inst & Hc & Hlike & _).
  - vm_compute. tauto.
  - typed_kwargs.
  - vm_compute. intuition discriminate.
  - vm_compute. intuition discriminate.
  - exists inst. split; [exact Hc | exact (Hlike eq_refl)].
Defined.

Lemma request_renders_its_handles_witness :
  ∃ inst sender recipient,
    construct DiasporaRequest
      [("handle", VStr "alice@example.org"); ("target_handle", VStr "bob@example.com");
       ("relationship", VStr "following")] = Ok inst ∧
    getattr inst "handle" = Ok (OData (VStr sender)) ∧
    getattr inst "target_handle" = Ok (OData (VStr recipient)) ∧
    to_xml inst = Ok (mkElement "request" ""
                        [leaf "sender_handle" sender; leaf "recipient_handle" recipient]).
Proof.
  apply (request_renders_its_handles
           [("handle", VStr "alice@example.org"); ("target_handle", VStr "bob@example.com");
            ("relationship", VStr "following")]).
  typed_kwargs.
Defined.

Lemma like_renders_a_positive_post_reaction_witness :
  ∃ inst guid parent signature handle,
    construct DiasporaLike
      [("guid", VStr "a0a0a0a0a0a0a0a0"); ("target_guid", VStr "b1b1b1b1b1b1b1b1");
       ("handle", VStr "alice@example.org"); ("reaction", VStr "dislike")] = Ok inst ∧
    getattr inst "guid" = Ok (OData (VStr guid)) ∧
    getattr inst "target_guid" = Ok (OData (VStr parent)) ∧
    getattr inst "author_signature" = Ok (OData (VStr signature)) ∧
    getattr inst "handle" = Ok (OData (VStr handle)) ∧
    to_xml inst = Ok (mkElement "like" ""
                        [leaf "target_type" "Post"; leaf "guid" guid;
                         leaf "parent_guid" parent; leaf "author_signature" signature;
                         leaf "positive" "true"; leaf "diaspora_handle" handle]).
Proof.
  apply (like_renders_a_positive_post_reaction
           [("guid", VStr "a0a0a0a0a0a0a0a0"); ("target_guid", VStr "b1b1b1b1b1b1b1b1");
            ("handle", VStr "alice@example.org"); ("reaction", VStr "dislike")]).
  typed_kwargs.
Defined.

Lemma profile_without_image_size_raises_witness :
  to_xml (mkInstance DiasporaProfile
            {["image_urls" := VDict [("large", "l.png"); ("medium", "m.png")]]})
  = Error (KeyError "small").
Proof.
  apply (profile_without_image_size_raises _ [("large", "l.png"); ("medium", "m.png")]).
  - vm_compute. reflexivity.
  - vm_compute. reflexivity.
Defined.

Lemma tags_are_clean_witness :
  tags (the (construct Post [("raw_content", VStr "#one ##two# three #one")]))
  = Ok {["one"; "two"]} ∧
  clean_tag "two".
Proof.
  split; [compute_done|].
  apply (tags_are_clean
           (the (construct Post [("raw_content", VStr "#one ##two# three #one")]))
           {["one"; "two"]}); [compute_done | set_solver].
Defined.

Lemma profile_tag_string_reads_back_witness :
  ∃ inst tree s,
    construct DiasporaProfile
      [("handle", VStr "alice@example.org"); ("tag_list", VList ["rocq"; "proofs"])]
    = Ok inst ∧
    to_xml inst = Ok tree ∧
    last (children_of tree) = Some (leaf "tag_string" s) ∧
    s = "#rocq #proofs" ∧
    (Forall clean_tag ["rocq"; "proofs"] →
     ∀ self, getattr self "raw_content" = Ok (OData (VStr s)) →
             tags self = Ok (list_to_set ["rocq"; "proofs"])).
Proof.
  apply (profile_tag_string_reads_back
           [("handle", VStr "alice@example.org"); ("tag_list", VList ["rocq"; "proofs"])]
           ["rocq"; "proofs"]).
  - typed_kwargs.
  - compute_done.
  - vm_compute. tauto.
Defined.

Lemma tags_keyword_is_refused_witness :
  construct Post
    [("raw_content", VStr "hello #world"); ("tags", VList ["world"]); ("guid", VInt 3)]
  = Error (AttributeError "can't set attribute").
Proof.
  apply (tags_keyword_is_refused Post [("raw_content", VStr "hello #world")]
           [("guid", VInt 3)] (VList ["world"])).
  - vm_compute. tauto.
  - vm_compute. reflexivity.
  - typed_kwargs.
Defined.

Lemma tags_keyword_is_skipped_over_odd_text_witness :
  construct Post [("raw_content", VInt 7); ("tags", VList ["world"])]
  = construct Post [("raw_content", VInt 7)].
Proof.
  apply (tags_keyword_is_skipped_over_odd_text Post [("raw_content", VInt 7)] []
           (VInt 7) (VList ["world"])).
  - vm_compute. tauto.
  - vm_compute. reflexivity.
  - typed_kwargs.
  - compute_done.
  - now left.
  - reflexivity.
  - discriminate.
Defined.

Lemma required_keyword_seeds_the_requirements_witness :
  ∃ inst required l,
    construct Post
      [("guid", VStr "a0a0a0a0a0a0a0a0"); ("handle", VStr "alice@example.org");
       ("_required", VList ["signature"])] = Ok inst ∧
    getattr inst "_required" = Ok (OData (VList required)) ∧
    required_along (mro Post) = Ok l ∧
    (∀ n, In n required ↔ In n ["signature"] ∨ In n l) ∧
    validate inst
    = (_ ← run_rules inst (rules_of Post);
       if forallb (fun n => mem_string n (public_names Post)) ["signature"] then Ok tt
       else Error (MissingRequired required)).
Proof.
  apply (required_keyword_seeds_the_requirements Post
           [("guid", VStr "a0a0a0a0a0a0a0a0"); ("handle", VStr "alice@example.org")] []
           ["signature"]).
  - vm_compute. tauto.
  - typed_kwargs.
  - constructor.
Defined.

Lemma required_keyword_of_other_type_raises_witness :
  construct Image [("_required", VStr "guid"); ("width", VInt 640)]
  = Error (TypeError "unsupported operand type(s) for +=").
Proof.
  apply (required_keyword_of_other_type_raises Image [] [("width", VInt 640)] (VStr "guid")).
  - vm_compute. tauto.
  - constructor.
  - typed_kwargs.
  - discriminate.
Defined.

Lemma keyword_shadows_validator_witness :
  ∃ inst earlier later,
    construct Profile
      [("handle", VStr "alice@example.org"); ("guid", VStr "short");
       ("validate_guid", VNone)] = Ok inst ∧
    getattr inst "validate_guid" = Ok (OData VNone) ∧
    rules_of Profile = earlier ++ RGuid :: later ∧
    validate inst
    = (_ ← run_rules inst earlier;
       if truthy VNone then Error (TypeError "object is not callable")
       else run_rules inst later).
Proof.
  apply (keyword_shadows_validator Profile
           [("handle", VStr "alice@example.org"); ("guid", VStr "short")] []
           "guid" RGuid VNone).
  - vm_compute. tauto.
  - typed_kwargs.
  - constructor.
  - vm_compute. reflexivity.
Defined.

Lemma post_renders_its_fields_witness :
  ∃ inst text guid handle public created,
    construct DiasporaPost
      [("raw_content", VStr "hello #world"); ("public", VBool true);
       ("location", VStr "Helsinki")] = Ok inst ∧
    getattr inst "raw_content" = Ok (OData (VStr text)) ∧
    getattr inst "guid" = Ok (OData (VStr guid)) ∧
    getattr inst "handle" = Ok (OData (VStr handle)) ∧
    getattr inst "public" = Ok (OData (VBool public)) ∧
    getattr inst "created_at" = Ok (OData (VDateTime created)) ∧
    to_xml inst = Ok (mkElement "status_message" ""
                        [leaf "raw_message" text; leaf "guid" guid;
                         leaf "diaspora_handle" handle;
                         leaf "public" (if public then "true" else "false");
                         leaf "created_at" (format_datetime created)]).
Proof.
  apply (post_renders_its_fields
           [("raw_content", VStr "hello #world"); ("public", VBool true);
            ("location", VStr "Helsinki")]).
  typed_kwargs.
Defined.

Lemma comment_renders_its_fields_witness :
  ∃ inst guid parent signature text handle,
    construct DiasporaComment
      [("guid", VStr "a0a0a0a0a0a0a0a0"); ("target_guid", VStr "b1b1b1b1b1b1b1b1");
       ("raw_content", VStr "well said"); ("participation", VStr "subscription")]
    = Ok inst ∧
    getattr inst "guid" = Ok (OData (VStr guid)) ∧
    getattr inst "target_guid" = Ok (OData (VStr parent)) ∧
    getattr inst "author_signature" = Ok (OData (VStr signature)) ∧
    getattr inst "raw_content" = Ok (OData (VStr text)) ∧
    getattr inst "handle" = Ok (OData (VStr handle)) ∧
    to_xml inst = Ok (mkElement "comment" ""
                        [leaf "guid" guid; leaf "parent_guid" parent;
                         leaf "author_signature" signature; leaf "text" text;
                         leaf "diaspora_handle" handle]).
Proof.
  apply (comment_renders_its_fields
           [("guid", VStr "a0a0a0a0a0a0a0a0"); ("target_guid", VStr "b1b1b1b1b1b1b1b1");
            ("raw_content", VStr "well said"); ("participation", VStr "subscription")]).
  typed_kwargs.
Defined.

Lemma profile_renders_its_fields_witness :
  ∃ inst handle name urls large small medium gender bio location public nsfw tag_list,
    construct DiasporaProfile
      [("handle", VStr "alice@example.org"); ("name", VStr "Alice");
       ("image_urls", VDict [("large", "l.png"); ("medium", "m.png"); ("small", "s.png")]);
       ("nsfw", VBool true); ("tag_list", VList ["rocq"])] = Ok inst ∧
    getattr inst "handle" = Ok (OData (VStr handle)) ∧
    getattr inst "name" = Ok (OData (VStr name)) ∧
    getattr inst "image_urls" = Ok (OData (VDict urls)) ∧
    subscript (OData (VDict urls)) "large" = Ok (str large) ∧
    subscript (OData (VDict urls)) "small" = Ok (str small) ∧
    subscript (OData (VDict urls)) "medium" = Ok (str medium) ∧
    getattr inst "gender" = Ok (OData (VStr gender)) ∧
    getattr inst "raw_content" = Ok (OData (VStr bio)) ∧
    getattr inst "location" = Ok (OData (VStr location)) ∧
    getattr inst "public" = Ok (OData (VBool public)) ∧
    getattr inst "nsfw" = Ok (OData (VBool nsfw)) ∧
    getattr inst "tag_list" = Ok (OData (VList tag_list)) ∧
    to_xml inst
    = Ok (mkElement "profile" ""
            [leaf "diaspora_handle" handle; leaf "first_name" name; leaf "last_name" "";
             leaf "image_url" large; leaf "image_url_small" small;
             leaf "image_url_medium" medium; leaf "gender" gender; leaf "bio" bio;
             leaf "location" location;
             leaf "searchable" (if public then "true" else "false");
             leaf "nsfw" (if nsfw then "true" else "false");
             leaf "tag_string" (join " " (map (fun tag => ("#" ++ tag)%string) tag_list))]).
Proof.
  apply (profile_renders_its_fields
           [("handle", VStr "alice@example.org"); ("name", VStr "Alice");
            ("image_urls", VDict [("large", "l.png"); ("medium", "m.png"); ("small", "s.png")]);
            ("nsfw", VBool true); ("tag_list", VList ["rocq"])]).
  typed_kwargs.
Defined.

(** White space is every character [str.split] splits at, the
    no-break space and the next-line character among them. *)
Example tags_split_at_every_white_space :
  tags (the (construct Post
               [("raw_content",
                 VStr ("#a" ++ String (ascii_of_nat 160) "#b"
                            ++ String (ascii_of_nat 133) "#c"))]))
  = Ok {["a"; "b"; "c"]}.
Proof. compute_done. Qed.

Lemma validate_meets_the_rules_in_order_witness :
  ∃ inst,
    construct Profile [("handle", VStr "alice@example.org"); ("email", VStr "nobody")]
    = Ok inst ∧
    validate inst
    = (_ ← validate_email inst; _ ← validate_guid inst; validate_handle inst).
Proof.
  destruct (validate_meets_the_rules_in_order Profile
              [("handle", VStr "alice@example.org"); ("email", VStr "nobody")])
    as (inst & Hc & _ & _ & _ & _ & Hv).
  - vm_compute. tauto.
  - typed_kwargs.
  - exists inst. split; [exact Hc|]. apply Hv. now left.
Defined.
